(** * convertImageToJson: the batch image-metadata pipeline

    A shallow embedding of [utils/processImagesToJson.go]:
    [getImageResolutionAndOrientation], [processBatch], [BatchProcess] and
    [ReadAndForward], together with the parts of the Go standard library
    they call ([strings], [path/filepath], [encoding/json]).

    Go strings are byte sequences: they are [string]s whose [ascii]
    characters are the bytes.  Go [int] is the 64-bit signed integer: it is
    a [Z], and every addition of the source is followed by [GoInt.wrap]. *)

From Stdlib Require Import ZArith List Bool String Ascii Lia Permutation Arith.
Import ListNotations.

Local Open Scope string_scope.
Local Open Scope list_scope.
Local Open Scope nat_scope.

Set Warnings "-register-all".

(** ** Go integers *)

Module GoInt.

Definition minInt : Z := (- 2 ^ 63)%Z.
Definition maxInt : Z := (2 ^ 63 - 1)%Z.

(** Two's-complement wrap-around of a 64-bit signed integer. *)
Definition wrap (z : Z) : Z := ((z + 2 ^ 63) mod 2 ^ 64 - 2 ^ 63)%Z.

Definition inRange (z : Z) : Prop := (minInt <= z <= maxInt)%Z.

Definition inRangeb (z : Z) : bool := ((minInt <=? z) && (z <=? maxInt))%Z.

End GoInt.

(** ** Errors, results and outcomes *)

(** A Go [error] value, identified with its message. *)
Inductive error : Type := errorString (msg : string).

Definition Error (e : error) : string := match e with errorString m => m end.

(** The pair "(value, error)" a Go call returns, as a sum. *)
Inductive result (A : Type) : Type :=
| Ok (a : A)
| Err (e : error).
Arguments Ok {A} a.
Arguments Err {A} e.

(** What running a function can come to: it returns, it panics, or the
    model ran out of fuel (the loop of the source does not end). *)
Inductive outcome (A : Type) : Type :=
| Returns (a : A)
| Panics (msg : string)
| OutOfFuel.
Arguments Returns {A} a.
Arguments Panics {A} msg.
Arguments OutOfFuel {A}.

(** A Go slice value as [reflect.DeepEqual] sees it: [nil], or a slice with
    elements (possibly none). *)
Definition slice (A : Type) : Type := option (list A).

Definition elems {A} (s : slice A) : list A :=
  match s with None => [] | Some l => l end.

Definition len {A} (s : slice A) : Z := Z.of_nat (List.length (elems s)).

Definition append {A} (s : slice A) (x : A) : slice A := Some (elems s ++ [x]).

(** ** Package [strings] (byte-wise; exact on ASCII text) *)

Module strings.

(** Upper-casing of one byte.  Bytes that are not ASCII lower-case letters
    are kept: the case tables of Go's [unicode] package are not part of
    this development, so [ToUpper] is Go's on ASCII strings. *)
Definition upperByte (c : ascii) : ascii :=
  let n := nat_of_ascii c in
  if (97 <=? n) && (n <=? 122) then ascii_of_nat (n - 32) else c.

Fixpoint ToUpper (s : string) : string :=
  match s with
  | EmptyString => EmptyString
  | String c r => String (upperByte c) (ToUpper r)
  end.

(** [len(s) >= len(prefix) && s[:len(prefix)] == prefix] *)
Definition HasPrefix (s prefix : string) : bool :=
  (String.length prefix <=? String.length s)
  && String.eqb (substring 0 (String.length prefix) s) prefix.

(** [len(s) >= len(suffix) && s[len(s)-len(suffix):] == suffix] *)
Definition HasSuffix (s suffix : string) : bool :=
  (String.length suffix <=? String.length s)
  && String.eqb
       (substring (String.length s - String.length suffix)
          (String.length suffix) s)
       suffix.

Definition TrimPrefix (s prefix : string) : string :=
  if HasPrefix s prefix
  then substring (String.length prefix)
         (String.length s - String.length prefix) s
  else s.

Definition TrimSuffix (s suffix : string) : string :=
  if HasSuffix s suffix
  then substring 0 (String.length s - String.length suffix) s
  else s.

End strings.

(** ** Package [path/filepath] *)

Module filepath.

Section WithSeparator.

(** [os.PathSeparator]: ["/"] on Unix, the backslash on Windows. *)
Variable Separator : ascii.

(** [os.IsPathSeparator]: the platform separator; on Windows the forward
    slash as well.  With [Separator] the slash this is Unix's test. *)
Definition IsPathSeparator (c : ascii) : bool :=
  Ascii.eqb c "/" || Ascii.eqb c Separator.

(** The loop of [filepath.Ext], which walks the path from its last byte
    to the left: [left] holds the bytes not yet visited, last byte first,
    and [right] the bytes already passed. *)
Fixpoint extScan (left right : list ascii) : list ascii :=
  match left with
  | [] => []
  | c :: left' =>
      if IsPathSeparator c then []
      else if Ascii.eqb c "." then c :: right
      else extScan left' (c :: right)
  end.

Definition Ext (path : string) : string :=
  string_of_list_ascii (extScan (rev (list_ascii_of_string path)) []).

(** [filepath.ToSlash]: the identity when the separator is the slash,
    otherwise every separator is replaced by a slash. *)
Definition ToSlash (path : string) : string :=
  if Ascii.eqb Separator "/" then path
  else string_of_list_ascii
         (map (fun c => if Ascii.eqb c Separator then "/"%char else c)
            (list_ascii_of_string path)).

End WithSeparator.

(** *** [filepath.Clean] and [filepath.Join] on Unix

    Unix has no volume names and its separator is the slash.  The output
    buffer of [Clean] is a list; [dotdot] is the index in it where a
    [".."] must stop. *)

Definition isSlash (c : ascii) : bool := Ascii.eqb c "/".

Definition endOrSlash (l : list ascii) : bool :=
  match l with [] => true | c :: _ => isSlash c end.

(** [for out.w > dotdot && !IsPathSeparator(out.index(out.w)) { out.w-- }] *)
Fixpoint backtrack (out : list ascii) (dotdot w : nat) : nat :=
  match w with
  | O => O
  | S w' =>
      if (dotdot <? w) && negb (isSlash (nth w out "000"%char))
      then backtrack out dotdot w'
      else w
  end.

(** The bytes of the path element that starts here, and what follows it. *)
Fixpoint element (path : list ascii) : list ascii * list ascii :=
  match path with
  | [] => ([], [])
  | c :: rest =>
      if isSlash c then ([], path)
      else let (e, r) := element rest in (c :: e, r)
  end.

Fixpoint cleanLoop (fuel : nat) (rooted : bool) (path out : list ascii)
    (dotdot : nat) : list ascii :=
  match fuel with
  | O => out
  | S fuel' =>
      match path with
      | [] => out
      | c :: rest =>
          if isSlash c then
            (* empty path element *)
            cleanLoop fuel' rooted rest out dotdot
          else if Ascii.eqb c "." && endOrSlash rest then
            (* . element *)
            cleanLoop fuel' rooted rest out dotdot
          else if Ascii.eqb c "."
                  && match rest with
                     | c1 :: rest1 => Ascii.eqb c1 "." && endOrSlash rest1
                     | [] => false
                     end then
            (* .. element: remove to last separator *)
            let rest' := tl rest in
            if dotdot <? List.length out then
              let w := backtrack out dotdot (List.length out - 1) in
              cleanLoop fuel' rooted rest' (firstn w out) dotdot
            else if negb rooted then
              let out1 := if 0 <? List.length out then out ++ ["/"%char] else out in
              let out2 := out1 ++ ["."%char; "."%char] in
              cleanLoop fuel' rooted rest' out2 (List.length out2)
            else cleanLoop fuel' rooted rest' out dotdot
          else
            (* real path element: add slash if needed, copy element *)
            let out1 :=
              if (rooted && negb (List.length out =? 1))
                 || (negb rooted && negb (List.length out =? 0))
              then out ++ ["/"%char] else out in
            let (e, rest') := element path in
            cleanLoop fuel' rooted rest' (out1 ++ e) dotdot
      end
  end.

Definition Clean (path : string) : string :=
  match list_ascii_of_string path with
  | [] => "."
  | (c :: _) as p =>
      let rooted := isSlash c in
      let out :=
        if rooted then cleanLoop (List.length p) true (tl p) ["/"%char] 1
        else cleanLoop (List.length p) false p [] 0 in
      match out with
      | [] => "."
      | _ => string_of_list_ascii out
      end
  end.

(** [filepath.Join] of two elements: empty elements are ignored, the rest
    is joined with the separator and cleaned. *)
Definition Join (a b : string) : string :=
  if negb (String.eqb a "") then Clean (a ++ "/" ++ b)%string
  else if negb (String.eqb b "") then Clean b
  else "".

End filepath.

(** ** Data model: the structs of the source *)

Record Resolution : Type := {
  Resolution_Width : Z;
  Resolution_Height : Z;
  Resolution_Unit : string
}.

Record Design : Type := {
  Design_TemplateID : string;
  Design_Resolution : Resolution;
  Design_Type : string;
  Design_Tags : slice string;
  Design_FileFormat : string;
  Design_Orientation : string
}.

Record Flyer : Type := {
  Flyer_ID : string;
  Flyer_Design : Design;
  Flyer_Language : string;
  Flyer_URL : string
}.

Record Schema : Type := {
  Schema_Format : string;
  Schema_Encoding : string;
  Schema_Filetype : string
}.

Record Metadata : Type := {
  Metadata_Version : string;
  Metadata_LastUpdated : string;
  Metadata_TotalFlyers : Z;
  Metadata_URL : string;
  Metadata_Schema : Schema
}.

Record FlyersData : Type := {
  FlyersData_Flyers : slice Flyer
}.

(** ** JSON values and documents *)

(** A JSON value.  Numbers are the integer literals: no struct of the
    source has a field that encodes to any other number. *)
Inductive JSON : Type :=
| JNull
| JBool (b : bool)
| JNum (n : Z)
| JStr (s : string)
| JArr (items : list JSON)
| JObj (members : list (string * JSON)).

(** The text [json.MarshalIndent] prints for a value with a prefix and an
    indent; the text is determined by the three. *)
Record Document : Type := {
  doc_value : JSON;
  doc_prefix : string;
  doc_indent : string
}.

(** ** The world outside the program *)

(** [os.DirEntry], as far as the source looks at it. *)
Record DirEntry : Type := {
  Name : string;
  IsDir : bool
}.

(** [image.Rectangle] and what of [image.Image] the source reads. *)
Record Rectangle : Type := {
  Min_X : Z; Min_Y : Z; Max_X : Z; Max_Y : Z
}.

Definition Dx (r : Rectangle) : Z := GoInt.wrap (Max_X r - Min_X r).
Definition Dy (r : Rectangle) : Z := GoInt.wrap (Max_Y r - Min_Y r).

Record Image : Type := { Bounds : Rectangle }.

(** The content of an open file. *)
Definition File : Type := string.

(** The platform, the file system, the registered image decoders and the
    clock, as one run sees them. *)
Record World : Type := {
  (** [os.PathSeparator] *)
  os_PathSeparator : ascii;
  (** [filepath.Join] of two elements, on this platform *)
  filepath_Join : string -> string -> string;
  (** [os.ReadDir] *)
  os_ReadDir : string -> result (list DirEntry);
  (** [os.Open] *)
  os_Open : string -> result File;
  (** [image.Decode]: the image and the name of the format sniffed from
      the content *)
  image_Decode : File -> result (Image * string);
  (** [time.Now().Format(time.RFC3339)] *)
  time_Now : string;
  (** [os.WriteFile]: [None] is the nil error *)
  os_WriteFile : string -> Document -> option error
}.

Definition newline : string := String "010"%char EmptyString.

(** ** [getImageResolutionAndOrientation] *)

Definition getImageResolutionAndOrientation (w : World) (imagePath : string)
  : Z * Z * string * string * option error :=
  (* Open the image file *)
  match os_Open w imagePath with
  | Err err => (0%Z, 0%Z, "", "", Some err)
  | Ok file =>
      (* Decode the image *)
      match image_Decode w file with
      | Err err => (0%Z, 0%Z, "", "", Some err)
      | Ok (img, _) =>
          (* Get the width and height of the image *)
          let width := Dx (Bounds img) in
          let height := Dy (Bounds img) in
          (* Determine file format *)
          let fileExt :=
            strings.ToUpper
              (strings.TrimPrefix
                 (filepath.Ext (os_PathSeparator w) imagePath) ".") in
          let fileExt := if String.eqb fileExt "JPG" then "JPEG" else fileExt in
          (* Determine orientation *)
          let orientation :=
            if (width >? height)%Z then "landscape" else "portrait" in
          (width, height, fileExt, orientation, None)
      end
  end.

(** ** [processBatch] *)

(** What one turn of the loop of [processBatch] does. *)
Inductive visit : Type :=
| Skipped                (* a directory: [continue] *)
| Logged (line : string) (* the inspector failed: [fmt.Printf], [continue] *)
| Sent (f : Flyer).      (* [results <- Flyer] *)

(** The body of the loop of [processBatch], for one [file]. *)
Definition processFile (w : World) (imageFolder folderURL : string)
    (file : DirEntry) : visit :=
  (* Only process files (ignore directories) *)
  if IsDir file then Skipped
  else
    (* Construct full path for the file *)
    let imagePath := filepath_Join w imageFolder (Name file) in
    (* Get image resolution, format, and orientation *)
    match getImageResolutionAndOrientation w imagePath with
    | (_, _, _, _, Some err) =>
        Logged ("Error processing image " ++ Name file ++ ": "
                  ++ Error err ++ newline)%string
    | (width, height, fileExt, orientation, None) =>
        Sent {|
          Flyer_ID :=
            strings.TrimSuffix (Name file)
              (filepath.Ext (os_PathSeparator w) (Name file));
          Flyer_Design := {|
            Design_TemplateID := "template1";
            Design_Resolution := {|
              Resolution_Width := width;
              Resolution_Height := height;
              Resolution_Unit := "px" |};
            Design_Type := "image";
            Design_Tags := Some [""];
            Design_FileFormat := fileExt;
            Design_Orientation := orientation |};
          Flyer_Language := "en-US";
          Flyer_URL := filepath.ToSlash (os_PathSeparator w) imagePath |}
    end.

(** One goroutine running [processBatch] on its own: the Flyers it sends
    on [results] and the lines it prints, each in the order of [files]. *)
Fixpoint processBatch (w : World) (files : list DirEntry)
    (imageFolder folderURL : string) : list Flyer * list string :=
  match files with
  | [] => ([], [])
  | file :: rest =>
      let (sent, printed) := processBatch w rest imageFolder folderURL in
      match processFile w imageFolder folderURL file with
      | Skipped => (sent, printed)
      | Logged line => (sent, line :: printed)
      | Sent f => (f :: sent, printed)
      end
  end.

(** ** Package [unicode/utf8] *)

Module utf8.

Definition RuneError : Z := 65533.   (* U+FFFD *)
Definition RuneSelf : nat := 128.

(** The table [first] with [acceptRanges]: for a leading byte, the size of
    the sequence and the range its second byte must lie in; [None] is the
    entry [xx] of an invalid leading byte.  ASCII bytes are not looked up. *)
Definition first (b : nat) : option (nat * (nat * nat)) :=
  if b <? 194 then None                                  (* 0x80-0xC1: xx *)
  else if b <? 224 then Some (2, (128, 191))             (* 0xC2-0xDF: s1 *)
  else if b =? 224 then Some (3, (160, 191))             (* 0xE0: s2 *)
  else if b <? 237 then Some (3, (128, 191))             (* 0xE1-0xEC: s3 *)
  else if b =? 237 then Some (3, (128, 159))             (* 0xED: s4 *)
  else if b <? 240 then Some (3, (128, 191))             (* 0xEE-0xEF: s3 *)
  else if b =? 240 then Some (4, (144, 191))             (* 0xF0: s5 *)
  else if b <? 244 then Some (4, (128, 191))             (* 0xF1-0xF3: s6 *)
  else if b =? 244 then Some (4, (128, 143))             (* 0xF4: s7 *)
  else None.                                             (* 0xF5-0xFF: xx *)

Definition locb : nat := 128.
Definition hicb : nat := 191.

Definition outside (lo hi c : nat) : bool := (c <? lo) || (hi <? c).

Definition byteAt (s : list ascii) (i : nat) : nat :=
  nat_of_ascii (nth i s "000"%char).

(** [utf8.DecodeRuneInString]: the rune and the number of bytes it takes;
    [(RuneError, 1)] is an invalid encoding. *)
Definition DecodeRuneInString (s : list ascii) : Z * nat :=
  match s with
  | [] => (RuneError, 0)
  | c0 :: _ =>
      let s0 := nat_of_ascii c0 in
      if s0 <? RuneSelf then (Z.of_nat s0, 1)
      else
        match first s0 with
        | None => (RuneError, 1)
        | Some (sz, (lo, hi)) =>
            if List.length s <? sz then (RuneError, 1)
            else
              let s1 := byteAt s 1 in
              if outside lo hi s1 then (RuneError, 1)
              else if sz <=? 2 then
                (Z.lor (Z.shiftl (Z.land (Z.of_nat s0) 31) 6)
                   (Z.land (Z.of_nat s1) 63), 2)
              else
                let s2 := byteAt s 2 in
                if outside locb hicb s2 then (RuneError, 1)
                else if sz <=? 3 then
                  (Z.lor (Z.lor (Z.shiftl (Z.land (Z.of_nat s0) 15) 12)
                            (Z.shiftl (Z.land (Z.of_nat s1) 63) 6))
                     (Z.land (Z.of_nat s2) 63), 3)
                else
                  let s3 := byteAt s 3 in
                  if outside locb hicb s3 then (RuneError, 1)
                  else
                    (Z.lor (Z.lor (Z.lor
                       (Z.shiftl (Z.land (Z.of_nat s0) 7) 18)
                       (Z.shiftl (Z.land (Z.of_nat s1) 63) 12))
                       (Z.shiftl (Z.land (Z.of_nat s2) 63) 6))
                       (Z.land (Z.of_nat s3) 63), 4)
        end
  end.

(** The loop of [utf8.ValidString], at the bytes [s] that remain. *)
Fixpoint validLoop (fuel : nat) (s : list ascii) : bool :=
  match fuel with
  | O => true
  | S fuel' =>
      match s with
      | [] => true
      | c :: rest =>
          let si := nat_of_ascii c in
          if si <? RuneSelf then validLoop fuel' rest
          else
            match first si with
            | None => false
            | Some (size, (lo, hi)) =>
                if List.length s <? size then false
                else if outside lo hi (byteAt s 1) then false
                else if size =? 2 then validLoop fuel' (skipn size s)
                else if outside locb hicb (byteAt s 2) then false
                else if size =? 3 then validLoop fuel' (skipn size s)
                else if outside locb hicb (byteAt s 3) then false
                else validLoop fuel' (skipn size s)
            end
      end
  end.

Definition ValidString (s : string) : bool :=
  validLoop (String.length s) (list_ascii_of_string s).

End utf8.

(** ** Package [encoding/json]: encoding

    [json.Marshal] is taken up to the JSON value it writes: the value a
    JSON reader finds in the text.  What the text layer does to a value is
    in [coerce]: "String values encode as JSON strings coerced to valid
    UTF-8, replacing invalid bytes with the Unicode replacement rune". *)

Module json.

(** The bytes of U+FFFD in UTF-8. *)
Definition replacement : list ascii := ["239"%char; "191"%char; "189"%char].

(** The string loop of the encoder, read through the decoder: a byte that
    starts no valid UTF-8 sequence is written as the escape of U+FFFD, and
    every other sequence reads back as it is. *)
Fixpoint coerceLoop (fuel : nat) (src : list ascii) : list ascii :=
  match fuel with
  | O => []
  | S fuel' =>
      match src with
      | [] => []
      | b :: rest =>
          if nat_of_ascii b <? utf8.RuneSelf then b :: coerceLoop fuel' rest
          else
            let (c, size) := utf8.DecodeRuneInString src in
            if (c =? utf8.RuneError)%Z && (size =? 1)
            then replacement ++ coerceLoop fuel' rest
            else firstn size src ++ coerceLoop fuel' (skipn size src)
      end
  end.

Definition coerce (s : string) : string :=
  string_of_list_ascii (coerceLoop (String.length s) (list_ascii_of_string s)).

Definition ofString (s : string) : JSON := JStr (coerce s).

Definition ofStrings (s : slice string) : JSON :=
  match s with
  | None => JNull
  | Some l => JArr (map ofString l)
  end.

(** The structs, field by field in the order of declaration, each under
    the key of its [json:] tag. *)
Definition ofResolution (r : Resolution) : JSON :=
  JObj [ ("width", JNum (Resolution_Width r));
         ("height", JNum (Resolution_Height r));
         ("unit", ofString (Resolution_Unit r)) ].

Definition ofDesign (d : Design) : JSON :=
  JObj [ ("templateId", ofString (Design_TemplateID d));
         ("resolution", ofResolution (Design_Resolution d));
         ("type", ofString (Design_Type d));
         ("tags", ofStrings (Design_Tags d));
         ("fileFormat", ofString (Design_FileFormat d));
         ("orientation", ofString (Design_Orientation d)) ].

Definition ofFlyer (f : Flyer) : JSON :=
  JObj [ ("id", ofString (Flyer_ID f));
         ("design", ofDesign (Flyer_Design f));
         ("lang", ofString (Flyer_Language f));
         ("url", ofString (Flyer_URL f)) ].

Definition ofSchema (s : Schema) : JSON :=
  JObj [ ("format", ofString (Schema_Format s));
         ("encoding", ofString (Schema_Encoding s));
         ("filetype", ofString (Schema_Filetype s)) ].

Definition ofMetadata (m : Metadata) : JSON :=
  JObj [ ("version", ofString (Metadata_Version m));
         ("lastUpdated", ofString (Metadata_LastUpdated m));
         ("totalFlyers", JNum (Metadata_TotalFlyers m));
         ("url", ofString (Metadata_URL m));
         ("schema", ofSchema (Metadata_Schema m)) ].

Definition ofFlyers (s : slice Flyer) : JSON :=
  match s with
  | None => JNull
  | Some l => JArr (map ofFlyer l)
  end.

Definition ofFlyersData (d : FlyersData) : JSON :=
  JObj [ ("Flyers", ofFlyers (FlyersData_Flyers d)) ].

(** [json.MarshalIndent] of an already encoded value.  No value of the
    structs above makes the encoder fail (no channel, function, cycle or
    floating-point field), so the error is always nil. *)
Definition MarshalIndent (v : JSON) (prefix indent : string)
  : result Document :=
  Ok {| doc_value := v; doc_prefix := prefix; doc_indent := indent |}.

(** *** Decoding

    [json.Unmarshal] is taken from the JSON value the text holds, into a
    destination that holds [old].  A value of the wrong kind, or a number
    that does not fit the field, makes [Unmarshal] return an error: [None].
    [null] leaves a string, an integer or a struct as it was, and makes a
    slice nil.  The elements of an array are decoded into fresh zero
    values, as Go does for a slice that was nil before. *)

Definition toString (v : JSON) (old : string) : option string :=
  match v with
  | JNull => Some old
  | JStr s => Some s
  | _ => None
  end.

Definition toInt (v : JSON) (old : Z) : option Z :=
  match v with
  | JNull => Some old
  | JNum n => if GoInt.inRangeb n then Some n else None
  | _ => None
  end.

(** Decoding the elements of an array, each with [elem]. *)
Fixpoint toList {T} (elem : JSON -> option T) (items : list JSON)
  : option (list T) :=
  match items with
  | [] => Some []
  | v :: rest =>
      match elem v, toList elem rest with
      | Some x, Some xs => Some (x :: xs)
      | _, _ => None
      end
  end.

Definition toSlice {T} (elem : JSON -> option T) (v : JSON)
  : option (slice T) :=
  match v with
  | JNull => Some None
  | JArr items =>
      match toList elem items with
      | Some l => Some (Some l)
      | None => None
      end
  | _ => None
  end.

Fixpoint indexOf (p : string -> bool) (names : list string) : option nat :=
  match names with
  | [] => None
  | n :: rest =>
      if p n then Some 0
      else match indexOf p rest with
           | Some i => Some (S i)
           | None => None
           end
  end.

(** The field a key names: the one whose name is the key, else the one
    whose name is the key when the case of letters is ignored. *)
Definition field (names : list string) (key : string) : option nat :=
  match indexOf (String.eqb key) names with
  | Some i => Some i
  | None =>
      indexOf
        (fun n => String.eqb (strings.ToUpper n) (strings.ToUpper key)) names
  end.

(** Decoding an object into a struct whose fields are [names]: the
    members are taken in order, [set i] decodes a value into field [i],
    and a key that names no field is skipped. *)
Definition toStruct {T} (names : list string)
    (set : nat -> JSON -> T -> option T) (v : JSON) (old : T) : option T :=
  match v with
  | JNull => Some old
  | JObj members =>
      fold_left
        (fun acc kv =>
           match acc with
           | None => None
           | Some t =>
               match field names (fst kv) with
               | Some i => set i (snd kv) t
               | None => Some t
               end
           end)
        members (Some old)
  | _ => None
  end.

Definition toResolution : JSON -> Resolution -> option Resolution :=
  toStruct ["width"; "height"; "unit"]
    (fun i v r =>
       match i with
       | 0 => option_map
                (fun x => {| Resolution_Width := x;
                             Resolution_Height := Resolution_Height r;
                             Resolution_Unit := Resolution_Unit r |})
                (toInt v (Resolution_Width r))
       | 1 => option_map
                (fun x => {| Resolution_Width := Resolution_Width r;
                             Resolution_Height := x;
                             Resolution_Unit := Resolution_Unit r |})
                (toInt v (Resolution_Height r))
       | _ => option_map
                (fun x => {| Resolution_Width := Resolution_Width r;
                             Resolution_Height := Resolution_Height r;
                             Resolution_Unit := x |})
                (toString v (Resolution_Unit r))
       end).

Definition toDesign : JSON -> Design -> option Design :=
  toStruct
    ["templateId"; "resolution"; "type"; "tags"; "fileFormat"; "orientation"]
    (fun i v d =>
       match i with
       | 0 => option_map
                (fun x => {| Design_TemplateID := x;
                             Design_Resolution := Design_Resolution d;
                             Design_Type := Design_Type d;
                             Design_Tags := Design_Tags d;
                             Design_FileFormat := Design_FileFormat d;
                             Design_Orientation := Design_Orientation d |})
                (toString v (Design_TemplateID d))
       | 1 => option_map
                (fun x => {| Design_TemplateID := Design_TemplateID d;
                             Design_Resolution := x;
                             Design_Type := Design_Type d;
                             Design_Tags := Design_Tags d;
                             Design_FileFormat := Design_FileFormat d;
                             Design_Orientation := Design_Orientation d |})
                (toResolution v (Design_Resolution d))
       | 2 => option_map
                (fun x => {| Design_TemplateID := Design_TemplateID d;
                             Design_Resolution := Design_Resolution d;
                             Design_Type := x;
                             Design_Tags := Design_Tags d;
                             Design_FileFormat := Design_FileFormat d;
                             Design_Orientation := Design_Orientation d |})
                (toString v (Design_Type d))
       | 3 => option_map
                (fun x => {| Design_TemplateID := Design_TemplateID d;
                             Design_Resolution := Design_Resolution d;
                             Design_Type := Design_Type d;
                             Design_Tags := x;
                             Design_FileFormat := Design_FileFormat d;
                             Design_Orientation := Design_Orientation d |})
                (toSlice (fun e => toString e "") v)
       | 4 => option_map
                (fun x => {| Design_TemplateID := Design_TemplateID d;
                             Design_Resolution := Design_Resolution d;
                             Design_Type := Design_Type d;
                             Design_Tags := Design_Tags d;
                             Design_FileFormat := x;
                             Design_Orientation := Design_Orientation d |})
                (toString v (Design_FileFormat d))
       | _ => option_map
                (fun x => {| Design_TemplateID := Design_TemplateID d;
                             Design_Resolution := Design_Resolution d;
                             Design_Type := Design_Type d;
                             Design_Tags := Design_Tags d;
                             Design_FileFormat := Design_FileFormat d;
                             Design_Orientation := x |})
                (toString v (Design_Orientation d))
       end).

Definition toFlyer : JSON -> Flyer -> option Flyer :=
  toStruct ["id"; "design"; "lang"; "url"]
    (fun i v f =>
       match i with
       | 0 => option_map
                (fun x => {| Flyer_ID := x;
                             Flyer_Design := Flyer_Design f;
                             Flyer_Language := Flyer_Language f;
                             Flyer_URL := Flyer_URL f |})
                (toString v (Flyer_ID f))
       | 1 => option_map
                (fun x => {| Flyer_ID := Flyer_ID f;
                             Flyer_Design := x;
                             Flyer_Language := Flyer_Language f;
                             Flyer_URL := Flyer_URL f |})
                (toDesign v (Flyer_Design f))
       | 2 => option_map
                (fun x => {| Flyer_ID := Flyer_ID f;
                             Flyer_Design := Flyer_Design f;
                             Flyer_Language := x;
                             Flyer_URL := Flyer_URL f |})
                (toString v (Flyer_Language f))
       | _ => option_map
                (fun x => {| Flyer_ID := Flyer_ID f;
                             Flyer_Design := Flyer_Design f;
                             Flyer_Language := Flyer_Language f;
                             Flyer_URL := x |})
                (toString v (Flyer_URL f))
       end).

Definition toSchema : JSON -> Schema -> option Schema :=
  toStruct ["format"; "encoding"; "filetype"]
    (fun i v s =>
       match i with
       | 0 => option_map
                (fun x => {| Schema_Format := x;
                             Schema_Encoding := Schema_Encoding s;
                             Schema_Filetype := Schema_Filetype s |})
                (toString v (Schema_Format s))
       | 1 => option_map
                (fun x => {| Schema_Format := Schema_Format s;
                             Schema_Encoding := x;
                             Schema_Filetype := Schema_Filetype s |})
                (toString v (Schema_Encoding s))
       | _ => option_map
                (fun x => {| Schema_Format := Schema_Format s;
                             Schema_Encoding := Schema_Encoding s;
                             Schema_Filetype := x |})
                (toString v (Schema_Filetype s))
       end).

Definition toMetadata : JSON -> Metadata -> option Metadata :=
  toStruct ["version"; "lastUpdated"; "totalFlyers"; "url"; "schema"]
    (fun i v m =>
       match i with
       | 0 => option_map
                (fun x => {| Metadata_Version := x;
                             Metadata_LastUpdated := Metadata_LastUpdated m;
                             Metadata_TotalFlyers := Metadata_TotalFlyers m;
                             Metadata_URL := Metadata_URL m;
                             Metadata_Schema := Metadata_Schema m |})
                (toString v (Metadata_Version m))
       | 1 => option_map
                (fun x => {| Metadata_Version := Metadata_Version m;
                             Metadata_LastUpdated := x;
                             Metadata_TotalFlyers := Metadata_TotalFlyers m;
                             Metadata_URL := Metadata_URL m;
                             Metadata_Schema := Metadata_Schema m |})
                (toString v (Metadata_LastUpdated m))
       | 2 => option_map
                (fun x => {| Metadata_Version := Metadata_Version m;
                             Metadata_LastUpdated := Metadata_LastUpdated m;
                             Metadata_TotalFlyers := x;
                             Metadata_URL := Metadata_URL m;
                             Metadata_Schema := Metadata_Schema m |})
                (toInt v (Metadata_TotalFlyers m))
       | 3 => option_map
                (fun x => {| Metadata_Version := Metadata_Version m;
                             Metadata_LastUpdated := Metadata_LastUpdated m;
                             Metadata_TotalFlyers := Metadata_TotalFlyers m;
                             Metadata_URL := x;
                             Metadata_Schema := Metadata_Schema m |})
                (toString v (Metadata_URL m))
       | _ => option_map
                (fun x => {| Metadata_Version := Metadata_Version m;
                             Metadata_LastUpdated := Metadata_LastUpdated m;
                             Metadata_TotalFlyers := Metadata_TotalFlyers m;
                             Metadata_URL := Metadata_URL m;
                             Metadata_Schema := x |})
                (toSchema v (Metadata_Schema m))
       end).

(** The zero values a [var] declaration gives. *)
Definition zeroResolution : Resolution :=
  {| Resolution_Width := 0; Resolution_Height := 0; Resolution_Unit := "" |}.

Definition zeroDesign : Design :=
  {| Design_TemplateID := "";
     Design_Resolution := zeroResolution;
     Design_Type := "";
     Design_Tags := None;
     Design_FileFormat := "";
     Design_Orientation := "" |}.

Definition zeroFlyer : Flyer :=
  {| Flyer_ID := "";
     Flyer_Design := zeroDesign;
     Flyer_Language := "";
     Flyer_URL := "" |}.

Definition zeroMetadata : Metadata :=
  {| Metadata_Version := "";
     Metadata_LastUpdated := "";
     Metadata_TotalFlyers := 0;
     Metadata_URL := "";
     Metadata_Schema :=
       {| Schema_Format := ""; Schema_Encoding := ""; Schema_Filetype := "" |}
  |}.

Definition toFlyersData : JSON -> FlyersData -> option FlyersData :=
  toStruct ["Flyers"]
    (fun _ v _ =>
       option_map (fun x => {| FlyersData_Flyers := x |})
         (toSlice (fun e => toFlyer e zeroFlyer) v)).

(** [json.Marshal(flyer)] then [json.Unmarshal(jsonData, &unmarshaledFlyer)]
    with [var unmarshaledFlyer Flyer], as in [TestFlyer]; likewise for
    [Metadata] as in [TestMetadata]. *)
Definition MarshalFlyer (f : Flyer) : JSON := ofFlyer f.
Definition UnmarshalFlyer (v : JSON) : option Flyer := toFlyer v zeroFlyer.
Definition MarshalMetadata (m : Metadata) : JSON := ofMetadata m.
Definition UnmarshalMetadata (v : JSON) : option Metadata :=
  toMetadata v zeroMetadata.
Definition UnmarshalFlyersData (v : JSON) : option FlyersData :=
  toFlyersData v {| FlyersData_Flyers := None |}.

(** The member of an object under a key, and the length of an array
    ([null], which a nil slice is written as, reads back as the nil slice,
    of length 0). *)
Definition member (key : string) (v : JSON) : option JSON :=
  match v with
  | JObj members =>
      option_map snd (find (fun kv => String.eqb (fst kv) key) members)
  | _ => None
  end.

Definition lengthOf (v : JSON) : option Z :=
  match v with
  | JNull => Some 0%Z
  | JArr items => Some (Z.of_nat (List.length items))
  | _ => None
  end.

(** What a value reads back as: itself, with every string as the
    encoder coerced it. *)
Definition readResolution (r : Resolution) : Resolution :=
  {| Resolution_Width := Resolution_Width r;
     Resolution_Height := Resolution_Height r;
     Resolution_Unit := coerce (Resolution_Unit r) |}.

Definition readDesign (d : Design) : Design :=
  {| Design_TemplateID := coerce (Design_TemplateID d);
     Design_Resolution := readResolution (Design_Resolution d);
     Design_Type := coerce (Design_Type d);
     Design_Tags := option_map (map coerce) (Design_Tags d);
     Design_FileFormat := coerce (Design_FileFormat d);
     Design_Orientation := coerce (Design_Orientation d) |}.

Definition readFlyer (f : Flyer) : Flyer :=
  {| Flyer_ID := coerce (Flyer_ID f);
     Flyer_Design := readDesign (Flyer_Design f);
     Flyer_Language := coerce (Flyer_Language f);
     Flyer_URL := coerce (Flyer_URL f) |}.

Definition readSchema (s : Schema) : Schema :=
  {| Schema_Format := coerce (Schema_Format s);
     Schema_Encoding := coerce (Schema_Encoding s);
     Schema_Filetype := coerce (Schema_Filetype s) |}.

Definition readMetadata (m : Metadata) : Metadata :=
  {| Metadata_Version := coerce (Metadata_Version m);
     Metadata_LastUpdated := coerce (Metadata_LastUpdated m);
     Metadata_TotalFlyers := Metadata_TotalFlyers m;
     Metadata_URL := coerce (Metadata_URL m);
     Metadata_Schema := readSchema (Metadata_Schema m) |}.

End json.

(** ** [BatchProcess] *)

(** The slice expression [s[lo:hi]]; [None] is the run-time panic. *)
Definition subslice {A} (s : list A) (lo hi : Z) : option (list A) :=
  if ((0 <=? lo) && (lo <=? hi) && (hi <=? Z.of_nat (List.length s)))%Z
  then Some (firstn (Z.to_nat (hi - lo)) (skipn (Z.to_nat lo) s))
  else None.

(** The loop [for i := 0; i < len(files); i += batchSize], from [i] on:
    the batches handed to the goroutines it starts, in order. *)
Fixpoint spawnLoop (fuel : nat) (files : list DirEntry) (batchSize i : Z)
  : outcome (list (list DirEntry)) :=
  if (i <? Z.of_nat (List.length files))%Z then
    match fuel with
    | O => OutOfFuel
    | S fuel' =>
        (* Determine the batch slice *)
        let end_ := GoInt.wrap (i + batchSize) in
        let end_ :=
          if (end_ >? Z.of_nat (List.length files))%Z
          then Z.of_nat (List.length files) else end_ in
        match subslice files i end_ with
        | None => Panics "slice bounds out of range"
        | Some batch =>
            match spawnLoop fuel' files batchSize (GoInt.wrap (i + batchSize))
            with
            | Returns batches => Returns (batch :: batches)
            | stopped => stopped
            end
        end
    end
  else Returns [].

(** The whole loop.  It takes at most [len(files)] turns when it ends at
    all, so this fuel is never the reason it stops short. *)
Definition spawn (files : list DirEntry) (batchSize : Z)
  : outcome (list (list DirEntry)) :=
  spawnLoop (S (List.length files)) files batchSize 0.

(** The goroutines and what they share, between two steps. *)
Record Machine : Type := {
  (** per goroutine of [processBatch], the entries it has yet to visit *)
  workers : list (list DirEntry);
  (** the buffer of the channel [results], oldest first *)
  results : list Flyer;
  (** the capacity [results] was made with *)
  capacity : nat;
  (** the [flyers] of the collecting loop *)
  flyers : slice Flyer;
  (** the lines printed so far *)
  stdout : list string
}.

(** A step is one turn of the loop of one goroutine of [processBatch], or
    one receive of the collecting loop. *)
Inductive action : Type :=
| Work (i : nat)
| Receive.

Fixpoint replaceNth {A} (i : nat) (x : A) (l : list A) : list A :=
  match l, i with
  | [], _ => []
  | _ :: t, O => x :: t
  | h :: t, S i' => h :: replaceNth i' x t
  end.

(** The state after [a], or [None] when [a] cannot be taken: the
    goroutine has returned, its send would block on a full buffer, or
    there is nothing to receive. *)
Definition fire (w : World) (imageFolder folderURL : string)
    (a : action) (m : Machine) : option Machine :=
  match a with
  | Work i =>
      match nth_error (workers m) i with
      | Some (file :: rest) =>
          match processFile w imageFolder folderURL file with
          | Skipped =>
              Some {| workers := replaceNth i rest (workers m);
                      results := results m;
                      capacity := capacity m;
                      flyers := flyers m;
                      stdout := stdout m |}
          | Logged line =>
              Some {| workers := replaceNth i rest (workers m);
                      results := results m;
                      capacity := capacity m;
                      flyers := flyers m;
                      stdout := stdout m ++ [line] |}
          | Sent f =>
              if List.length (results m) <? capacity m then
                Some {| workers := replaceNth i rest (workers m);
                        results := results m ++ [f];
                        capacity := capacity m;
                        flyers := flyers m;
                        stdout := stdout m |}
              else None
          end
      | _ => None
      end
  | Receive =>
      match results m with
      | flyer :: queue =>
          Some {| workers := workers m;
                  results := queue;
                  capacity := capacity m;
                  flyers := append (flyers m) flyer;
                  stdout := stdout m |}
      | [] => None
      end
  end.

(** One step of the machine, whichever goroutine takes it. *)
Definition step (w : World) (imageFolder folderURL : string)
    (m m' : Machine) : Prop :=
  exists a, fire w imageFolder folderURL a m = Some m'.

Inductive steps (w : World) (imageFolder folderURL : string)
  : Machine -> Machine -> Prop :=
| steps_refl m : steps w imageFolder folderURL m m
| steps_step m1 m2 m3 :
    step w imageFolder folderURL m1 m2 ->
    steps w imageFolder folderURL m2 m3 ->
    steps w imageFolder folderURL m1 m3.

(** Every goroutine has returned ([wg.Wait] is over, [results] is closed)
    and the collecting loop has drained the channel. *)
Definition finished (m : Machine) : bool :=
  forallb (fun files => match files with [] => true | _ => false end)
    (workers m)
  && match results m with [] => true | _ => false end.

Definition isSome {A} (o : option A) : bool :=
  match o with Some _ => true | None => false end.

(** The actions that can be taken in [m]. *)
Definition enabled (w : World) (imageFolder folderURL : string)
    (m : Machine) : list action :=
  filter (fun a => isSome (fire w imageFolder folderURL a m))
    (map Work (seq 0 (List.length (workers m))) ++ [Receive]).

(** A run under a schedule: at each step the next number of [sched]
    picks one of the enabled actions (the first one once [sched] is
    used up). *)
Fixpoint run (w : World) (imageFolder folderURL : string) (fuel : nat)
    (sched : list nat) (m : Machine) : outcome Machine :=
  match enabled w imageFolder folderURL m with
  | [] =>
      if finished m then Returns m
      else Panics "all goroutines are asleep - deadlock!"
  | a0 :: others =>
      match fuel with
      | O => OutOfFuel
      | S fuel' =>
          let acts := a0 :: others in
          let a := nth (hd 0 sched mod List.length acts) acts a0 in
          match fire w imageFolder folderURL a m with
          | Some m' => run w imageFolder folderURL fuel' (tl sched) m'
          | None => Panics "the scheduler picked a blocked goroutine"
          end
      end
  end.

(** The machine as [BatchProcess] starts it. *)
Definition spawned (files : list DirEntry) (batches : list (list DirEntry))
  : Machine :=
  {| workers := batches;
     results := [];
     capacity := List.length files;
     flyers := None;
     stdout := [] |}.

(** [BatchProcess], under the schedule [sched] of its goroutines: the two
    values it returns, and the lines its goroutines printed. *)
Definition BatchProcess (w : World) (sched : list nat)
    (files : list DirEntry) (imageFolder folderURL : string)
    (batchSize : Z) : outcome (slice Flyer * option error * list string) :=
  (* Process files in batches *)
  match spawn files batchSize with
  | Returns batches =>
      (* Wait for all goroutines to finish; collect all results *)
      match run w imageFolder folderURL (2 * List.length files) sched
              (spawned files batches) with
      | Returns m => Returns (flyers m, None, stdout m)
      | Panics msg => Panics msg
      | OutOfFuel => OutOfFuel
      end
  | Panics msg => Panics msg
  | OutOfFuel => OutOfFuel
  end.

(** ** [ReadAndForward] *)

(** What a run does to the world, in order. *)
Inductive effect : Type :=
| Printf (line : string)            (* a line a goroutine printed *)
| Println (text : string)           (* [fmt.Println] of a string *)
| PrintlnDoc (d : Document)         (* [fmt.Println] of a document *)
| WriteFile (name : string) (d : Document) (err : option error).
                                    (* a call of [os.WriteFile] *)

Definition ReadAndForward (w : World) (sched : list nat)
    (imageFolder folderURL : string) (batchSize : Z)
  : outcome (option error * list effect) :=
  (* Read all files in the directory *)
  match os_ReadDir w imageFolder with
  | Err err =>
      Returns
        (Some (errorString ("error reading directory: " ++ Error err)%string),
         [])
  | Ok files =>
      (* Process files in batches *)
      match BatchProcess w sched files imageFolder folderURL batchSize with
      | Panics msg => Panics msg
      | OutOfFuel => OutOfFuel
      | Returns (_, Some err, printed) =>
          Returns
            (Some (errorString
                     ("error processing files: " ++ Error err)%string),
             map Printf printed)
      | Returns (flyers, None, printed) =>
          (* Create metadata *)
          let metadata := {|
            Metadata_Version := "1.0";
            Metadata_LastUpdated := time_Now w;
            Metadata_TotalFlyers := len flyers;
            Metadata_URL := folderURL;
            Metadata_Schema := {|
              Schema_Format := "JSON";
              Schema_Encoding := "UTF-8";
              Schema_Filetype := "text" |} |} in
          (* Create the JSON structure *)
          let FlyersData := {| FlyersData_Flyers := flyers |} in
          (* Convert flyer to JSON *)
          match json.MarshalIndent (json.ofFlyersData FlyersData) "" "  " with
          | Err err =>
              Returns
                (Some (errorString
                         ("error encoding JSON: " ++ Error err)%string),
                 map Printf printed)
          | Ok jsonData =>
              (* Convert metda data to json *)
              match json.MarshalIndent (json.ofMetadata metadata) "" " " with
              | Err err =>
                  Returns
                    (Some (errorString
                             ("error encoding JSON: " ++ Error err)%string),
                     map Printf printed)
              | Ok metaJsonData =>
                  (* Print or save JSON output *)
                  let shown :=
                    map Printf printed
                      ++ [PrintlnDoc jsonData; PrintlnDoc metaJsonData] in
                  (* Save the flyer JSON to a file *)
                  match os_WriteFile w "flyers.json" jsonData with
                  | Some err =>
                      Returns
                        (Some (errorString
                                 ("error writing flyer JSON file "
                                    ++ Error err)%string),
                         shown ++ [WriteFile "flyers.json" jsonData (Some err)])
                  | None =>
                      (* Save the metadata to JSON file *)
                      match os_WriteFile w "imagesMetadata.json" metaJsonData
                      with
                      | Some err =>
                          Returns
                            (Some (errorString
                                     ("error writing metadata JSON file "
                                        ++ Error err)%string),
                             shown
                               ++ [WriteFile "flyers.json" jsonData None;
                                   WriteFile "imagesMetadata.json"
                                     metaJsonData (Some err)])
                      | None =>
                          Returns
                            (None,
                             shown
                               ++ [WriteFile "flyers.json" jsonData None;
                                   WriteFile "imagesMetadata.json"
                                     metaJsonData None;
                                   Println
                                     "JSON saved successfully as output.json"])
                      end
                  end
              end
          end
      end
  end.


(** ** The words of the specification *)

(** An extension with its leading dot removed. *)
Definition dropDot (ext : string) : string :=
  match ext with
  | String "."%char e => e
  | _ => ext
  end.

(** The format label the specification derives from a path: its
    extension without the dot, in upper case, with JPG read as JPEG. *)
Definition extensionLabel (sep : ascii) (path : string) : string :=
  let e := strings.ToUpper (dropDot (filepath.Ext sep path)) in
  if String.eqb e "JPG" then "JPEG" else e.

(** The length of a slice of directory entries stays far below the
    largest [int]: an entry takes 16 bytes of a 64-bit address space. *)
Definition fits (files : list DirEntry) : Prop :=
  (Z.of_nat (List.length files) <= 2 ^ 62)%Z.

(** [l] takes the elements of every list of [ls], the elements of one
    list in their order, the lists in any alternation. *)
Inductive Interleaving {A : Type} : list (list A) -> list A -> Prop :=
| Interleaving_done ls :
    Forall (fun s => s = []) ls -> Interleaving ls []
| Interleaving_next ls i x rest l :
    nth_error ls i = Some (x :: rest) ->
    Interleaving (replaceNth i rest ls) l ->
    Interleaving ls (x :: l).

(** The Flyers a goroutine sends for a batch, and the lines it prints. *)
Definition sends (w : World) (imageFolder folderURL : string)
    (files : list DirEntry) : list Flyer :=
  fst (processBatch w files imageFolder folderURL).

Definition prints (w : World) (imageFolder folderURL : string)
    (files : list DirEntry) : list string :=
  snd (processBatch w files imageFolder folderURL).

(** The number of Flyers in a catalog document, and the count a summary
    document states. *)
Definition catalogCount (d : Document) : option Z :=
  match json.member "Flyers" (doc_value d) with
  | Some v => json.lengthOf v
  | None => None
  end.

Definition summaryCount (d : Document) : option Z :=
  match json.member "totalFlyers" (doc_value d) with
  | Some (JNum n) => Some n
  | _ => None
  end.

(** The values of the structs that Go has: their integers are [int]s. *)
Definition GoFlyer (f : Flyer) : Prop :=
  GoInt.inRange (Resolution_Width (Design_Resolution (Flyer_Design f)))
  /\ GoInt.inRange (Resolution_Height (Design_Resolution (Flyer_Design f))).

Definition GoMetadata (m : Metadata) : Prop :=
  GoInt.inRange (Metadata_TotalFlyers m).

(** The values of the structs whose strings are valid UTF-8 (and whose
    integers are Go [int]s, as the types of the fields have it). *)
Definition ValidResolution (r : Resolution) : Prop :=
  GoInt.inRange (Resolution_Width r)
  /\ GoInt.inRange (Resolution_Height r)
  /\ utf8.ValidString (Resolution_Unit r) = true.

Definition ValidDesign (d : Design) : Prop :=
  utf8.ValidString (Design_TemplateID d) = true
  /\ ValidResolution (Design_Resolution d)
  /\ utf8.ValidString (Design_Type d) = true
  /\ Forall (fun t => utf8.ValidString t = true) (elems (Design_Tags d))
  /\ utf8.ValidString (Design_FileFormat d) = true
  /\ utf8.ValidString (Design_Orientation d) = true.

Definition ValidFlyer (f : Flyer) : Prop :=
  utf8.ValidString (Flyer_ID f) = true
  /\ ValidDesign (Flyer_Design f)
  /\ utf8.ValidString (Flyer_Language f) = true
  /\ utf8.ValidString (Flyer_URL f) = true.

Definition ValidSchema (s : Schema) : Prop :=
  utf8.ValidString (Schema_Format s) = true
  /\ utf8.ValidString (Schema_Encoding s) = true
  /\ utf8.ValidString (Schema_Filetype s) = true.

Definition ValidMetadata (m : Metadata) : Prop :=
  utf8.ValidString (Metadata_Version m) = true
  /\ utf8.ValidString (Metadata_LastUpdated m) = true
  /\ GoInt.inRange (Metadata_TotalFlyers m)
  /\ utf8.ValidString (Metadata_URL m) = true
  /\ ValidSchema (Metadata_Schema m).

(** The contiguous chunks of [n] elements of a list, the last one
    possibly shorter. *)
Fixpoint chunksOf {A : Type} (fuel n : nat) (l : list A) : list (list A) :=
  match fuel, l with
  | S fuel', _ :: _ => firstn n l :: chunksOf fuel' n (skipn n l)
  | _, _ => []
  end.

Definition chunks {A : Type} (n : nat) (l : list A) : list (list A) :=
  chunksOf (List.length l) n l.

(** The entries no goroutine has visited yet, the Flyers sent so far (in
    the order they were sent), and a bound on the steps that remain. *)
Definition pending (m : Machine) : nat := List.length (List.concat (workers m)).

Definition emitted (m : Machine) : list Flyer := elems (flyers m) ++ results m.

Definition stepsLeft (m : Machine) : nat :=
  2 * pending m + List.length (results m).

(** No send can find the buffer of [results] full. *)
Definition roomy (m : Machine) : Prop :=
  List.length (results m) + pending m <= capacity m.

(** The two documents [ReadAndForward] makes of the Flyers it collected. *)
Definition catalogDocument (flyers : slice Flyer) : Document :=
  {| doc_value := json.ofFlyersData {| FlyersData_Flyers := flyers |};
     doc_prefix := "";
     doc_indent := "  " |}.

Definition summaryDocument (w : World) (folderURL : string)
    (flyers : slice Flyer) : Document :=
  {| doc_value :=
       json.ofMetadata
         {| Metadata_Version := "1.0";
            Metadata_LastUpdated := time_Now w;
            Metadata_TotalFlyers := len flyers;
            Metadata_URL := folderURL;
            Metadata_Schema :=
              {| Schema_Format := "JSON";
                 Schema_Encoding := "UTF-8";
                 Schema_Filetype := "text" |} |};
     doc_prefix := "";
     doc_indent := " " |}.

(** The Flyer [processBatch] builds for a file the inspector accepted. *)
Definition flyerOf (w : World) (imageFolder : string) (file : DirEntry)
    (width height : Z) (fileExt orientation : string) : Flyer :=
  {| Flyer_ID :=
       strings.TrimSuffix (Name file)
         (filepath.Ext (os_PathSeparator w) (Name file));
     Flyer_Design :=
       {| Design_TemplateID := "template1";
          Design_Resolution :=
            {| Resolution_Width := width;
               Resolution_Height := height;
               Resolution_Unit := "px" |};
          Design_Type := "image";
          Design_Tags := Some [""];
          Design_FileFormat := fileExt;
          Design_Orientation := orientation |};
     Flyer_Language := "en-US";
     Flyer_URL :=
       filepath.ToSlash (os_PathSeparator w)
         (filepath_Join w imageFolder (Name file)) |}.

(** ** A concrete world

    A Unix machine whose directory ["images/"] holds two JPEG files, a
    text file, a sub-directory and a square PNG image named [c.jpg]. *)

Module Example.

Definition rect (width height : Z) : Image :=
  {| Bounds := {| Min_X := 0; Min_Y := 0; Max_X := width; Max_Y := height |} |}.

Definition listing : list DirEntry :=
  [ {| Name := "a.jpg"; IsDir := false |};
    {| Name := "b.jpg"; IsDir := false |};
    {| Name := "c.jpg"; IsDir := false |};
    {| Name := "notes.txt"; IsDir := false |};
    {| Name := "old"; IsDir := true |} ].

Definition world : World :=
  {| os_PathSeparator := "/"%char;
     filepath_Join := filepath.Join;
     os_ReadDir := fun name =>
       if String.eqb name "images/" then Ok listing
       else Err (errorString
                   ("open " ++ name ++ ": no such file or directory")%string);
     os_Open := fun name =>
       if String.eqb name "images/a.jpg" then Ok "jpeg 1080x1920"
       else if String.eqb name "images/b.jpg" then Ok "jpeg 1920x1080"
       else if String.eqb name "images/c.jpg" then Ok "png 800x800"
       else if String.eqb name "images/notes.txt" then Ok "to do"
       else Err (errorString
                   ("open " ++ name ++ ": no such file or directory")%string);
     image_Decode := fun file =>
       if String.eqb file "jpeg 1080x1920" then Ok (rect 1080 1920, "jpeg")
       else if String.eqb file "jpeg 1920x1080" then Ok (rect 1920 1080, "jpeg")
       else if String.eqb file "png 800x800" then Ok (rect 800 800, "png")
       else Err (errorString "image: unknown format");
     time_Now := "2024-01-02T03:04:05Z";
     os_WriteFile := fun _ _ => None |}.

(** The file [images/c.jpg] of the example holds a PNG image; a world in
    which the same path holds a GIF image of another size. *)
Definition gifWorld : World :=
  {| os_PathSeparator := os_PathSeparator world;
     filepath_Join := filepath_Join world;
     os_ReadDir := os_ReadDir world;
     os_Open := fun _ => Ok "gif";
     image_Decode := fun _ => Ok (rect 640 480, "gif");
     time_Now := time_Now world;
     os_WriteFile := os_WriteFile world |}.

(** The values of [TestFlyer] and [TestMetadata]. *)
Definition testFlyer : Flyer :=
  {| Flyer_ID := "test123";
     Flyer_Design :=
       {| Design_TemplateID := "template1";
          Design_Resolution :=
            {| Resolution_Width := 1920;
               Resolution_Height := 1080;
               Resolution_Unit := "px" |};
          Design_Type := "image";
          Design_Tags := Some ["test"];
          Design_FileFormat := "JPEG";
          Design_Orientation := "landscape" |};
     Flyer_Language := "en-US";
     Flyer_URL := "http://example.com/test.jpg" |}.

Definition testMetadata : Metadata :=
  {| Metadata_Version := "1.0";
     Metadata_LastUpdated := "2024-01-02T03:04:05Z";
     Metadata_TotalFlyers := 10;
     Metadata_URL := "http://example.com";
     Metadata_Schema :=
       {| Schema_Format := "JSON";
          Schema_Encoding := "UTF-8";
          Schema_Filetype := "text" |} |}.

(** A file whose name is Latin-1 text, not UTF-8: [caf\xe9.jpg].  Unix
    file names are any bytes but the slash and NUL. *)
Definition latin1Entry : DirEntry :=
  {| Name := "caf" ++ String "233"%char ".jpg"; IsDir := false |}.

(** The Flyer [processBatch] builds for it when it holds a 1920 by 1080
    JPEG image. *)
Definition latin1Flyer : Flyer :=
  flyerOf world "images/" latin1Entry 1920 1080 "JPEG" "landscape".

(** A world like [world] whose disk is full. *)
Definition fullDisk : World :=
  {| os_PathSeparator := os_PathSeparator world;
     filepath_Join := filepath_Join world;
     os_ReadDir := os_ReadDir world;
     os_Open := os_Open world;
     image_Decode := image_Decode world;
     time_Now := time_Now world;
     os_WriteFile := fun name _ =>
       Some (errorString
               ("open " ++ name ++ ": no space left on device")%string) |}.

End Example.

(** The bytes an extension has after its dot: no dot and no separator. *)
Definition plainByte (sep c : ascii) : Prop :=
  filepath.IsPathSeparator sep c = false /\ c <> "."%char.

(** An ASCII lower-case letter. *)
Definition lowerByte (c : ascii) : bool :=
  (97 <=? nat_of_ascii c) && (nat_of_ascii c <=? 122).

(** ** The entry points

    [main] of [main.go], and the [main] functions of the earlier versions
    of the program that the source files keep.  Their [batchProcess],
    [processBatch] and [getImageResolutionAndOrientation] are, word for
    word, the functions of package [utils] above. *)

(** [main] of [main.go]: [panic(err)] when [ReadAndForward] fails. *)
Definition main (w : World) (sched : list nat) : outcome (list effect) :=
  let imageFolder := "images/" in
  let folderURL := "path/to/Flyers" in
  let batchSize := 10%Z in
  match ReadAndForward w sched imageFolder folderURL batchSize with
  | Returns (Some err, _) => Panics (Error err)
  | Returns (None, effects) => Returns effects
  | Panics msg => Panics msg
  | OutOfFuel => OutOfFuel
  end.

(** [fmt.Println(text, err)]: the operands with a space between them. *)
Definition PrintlnErr (text : string) (err : error) : effect :=
  Println (text ++ " " ++ Error err)%string.

(** The [main] that writes [flyers.json] and [imagesMetadata.json] and
    prints its errors (the second version kept in [main.go]). *)
Definition main_split (w : World) (sched : list nat) : outcome (list effect) :=
  let imageFolder := "images/" in
  let folderURL := "path/to/Flyers" in
  let batchSize := 10%Z in
  (* Read all files in the directory *)
  match os_ReadDir w imageFolder with
  | Err err => Returns [PrintlnErr "Error reading directory:" err]
  | Ok files =>
      (* Process files in batches *)
      match BatchProcess w sched files imageFolder folderURL batchSize with
      | Panics msg => Panics msg
      | OutOfFuel => OutOfFuel
      | Returns (_, Some err, printed) =>
          Returns (map Printf printed
                     ++ [PrintlnErr "Error processing files:" err])
      | Returns (flyers, None, printed) =>
          (* Create metadata *)
          let metadata := {|
            Metadata_Version := "1.0";
            Metadata_LastUpdated := time_Now w;
            Metadata_TotalFlyers := len flyers;
            Metadata_URL := folderURL;
            Metadata_Schema := {|
              Schema_Format := "JSON";
              Schema_Encoding := "UTF-8";
              Schema_Filetype := "text" |} |} in
          (* Create the JSON structure *)
          let FlyersData := {| FlyersData_Flyers := flyers |} in
          (* Convert flyer to JSON *)
          match json.MarshalIndent (json.ofFlyersData FlyersData) "" "  " with
          | Err err =>
              Returns (map Printf printed
                         ++ [PrintlnErr "Error encoding JSON:" err])
          | Ok jsonData =>
              (* Convert metda data to json *)
              match json.MarshalIndent (json.ofMetadata metadata) "" " " with
              | Err err =>
                  Returns (map Printf printed
                             ++ [PrintlnErr "Error encoding JSON:" err])
              | Ok metaJsonData =>
                  (* Print or save JSON output *)
                  let shown :=
                    map Printf printed
                      ++ [PrintlnDoc jsonData; PrintlnDoc metaJsonData] in
                  (* Save the flyer JSON to a file *)
                  match os_WriteFile w "flyers.json" jsonData with
                  | Some err =>
                      Returns
                        (shown
                           ++ [WriteFile "flyers.json" jsonData (Some err);
                               PrintlnErr "Error writing flyer JSON file" err])
                  | None =>
                      (* Save the metadata to JSON file *)
                      match os_WriteFile w "imagesMetadata.json" metaJsonData
                      with
                      | Some err =>
                          Returns
                            (shown
                               ++ [WriteFile "flyers.json" jsonData None;
                                   WriteFile "imagesMetadata.json"
                                     metaJsonData (Some err);
                                   PrintlnErr
                                     "Error writing metadata JSON file" err])
                      | None =>
                          Returns
                            (shown
                               ++ [WriteFile "flyers.json" jsonData None;
                                   WriteFile "imagesMetadata.json"
                                     metaJsonData None;
                                   Println
                                     "JSON saved successfully as output.json"])
                      end
                  end
              end
          end
      end
  end.

(** [FlyersData] of the version that writes one document: the Flyers and
    the metadata side by side. *)
Record FlyersDataWithMetadata : Type := {
  Combined_Flyers : slice Flyer;
  Combined_Metadata : Metadata
}.

Definition ofFlyersDataWithMetadata (d : FlyersDataWithMetadata) : JSON :=
  JObj [ ("Flyers", json.ofFlyers (Combined_Flyers d));
         ("metadata", json.ofMetadata (Combined_Metadata d)) ].

(** The [main] that writes the single document [output.json] (the second
    version kept in [utils/processImagesToJson.go]). *)
Definition main_combined (w : World) (sched : list nat)
  : outcome (list effect) :=
  let imageFolder := "images/" in
  let folderURL := "path/to/Flyers" in
  (* Read all files in the directory *)
  match os_ReadDir w imageFolder with
  | Err err => Returns [PrintlnErr "Error reading directory:" err]
  | Ok files =>
      (* Define batch size *)
      let batchSize := 10%Z in
      (* Process files in batches *)
      match BatchProcess w sched files imageFolder folderURL batchSize with
      | Panics msg => Panics msg
      | OutOfFuel => OutOfFuel
      | Returns (_, Some err, printed) =>
          Returns (map Printf printed
                     ++ [PrintlnErr "Error processing files:" err])
      | Returns (flyers, None, printed) =>
          (* Create metadata *)
          let metadata := {|
            Metadata_Version := "1.0";
            Metadata_LastUpdated := time_Now w;
            Metadata_TotalFlyers := len flyers;
            Metadata_URL := folderURL;
            Metadata_Schema := {|
              Schema_Format := "JSON";
              Schema_Encoding := "UTF-8";
              Schema_Filetype := "text" |} |} in
          (* Create the JSON structure *)
          let FlyersData := {|
            Combined_Flyers := flyers;
            Combined_Metadata := metadata |} in
          (* Convert to JSON *)
          match json.MarshalIndent (ofFlyersDataWithMetadata FlyersData)
                  "" "  " with
          | Err err =>
              Returns (map Printf printed
                         ++ [PrintlnErr "Error encoding JSON:" err])
          | Ok jsonData =>
              (* Print or save JSON output *)
              let shown := map Printf printed ++ [PrintlnDoc jsonData] in
              (* Optionally, save the JSON to a file *)
              match os_WriteFile w "output.json" jsonData with
              | Some err =>
                  Returns
                    (shown
                       ++ [WriteFile "output.json" jsonData (Some err);
                           PrintlnErr "Error writing JSON file:" err])
              | None =>
                  Returns
                    (shown
                       ++ [WriteFile "output.json" jsonData None;
                           Println "JSON saved successfully as output.json"])
              end
          end
      end
  end.

(** The single document of [main_combined]. *)
Definition combinedDocument (w : World) (folderURL : string)
    (flyers : slice Flyer) : Document :=
  {| doc_value :=
       ofFlyersDataWithMetadata
         {| Combined_Flyers := flyers;
            Combined_Metadata :=
              {| Metadata_Version := "1.0";
                 Metadata_LastUpdated := time_Now w;
                 Metadata_TotalFlyers := len flyers;
                 Metadata_URL := folderURL;
                 Metadata_Schema :=
                   {| Schema_Format := "JSON";
                      Schema_Encoding := "UTF-8";
                      Schema_Filetype := "text" |} |} |};
     doc_prefix := "";
     doc_indent := "  " |}.

(** ** The first version: Fliers with their image inside

    The third version kept in [main.go] has no goroutines: one loop over
    the listing, which also reads every accepted file and puts its bytes,
    in Base64, into the Flier. *)

(** [strings.ToLower], byte-wise as [strings.ToUpper] above. *)
Definition lowerOfByte (c : ascii) : ascii :=
  let n := nat_of_ascii c in
  if (65 <=? n) && (n <=? 90) then ascii_of_nat (n + 32) else c.

Fixpoint strings_ToLower (s : string) : string :=
  match s with
  | EmptyString => EmptyString
  | String c r => String (lowerOfByte c) (strings_ToLower r)
  end.

(** [base64.StdEncoding.EncodeToString]: the standard alphabet, with
    padding. *)
Module base64.

Definition encodeStd : list ascii :=
  list_ascii_of_string
    "ABCDEFGHIJKLMNOPQRSTUVWXYZabcdefghijklmnopqrstuvwxyz0123456789+/".

Definition digit (n : nat) : ascii := nth n encodeStd "="%char.

Fixpoint encode (src : list nat) : list ascii :=
  match src with
  | a :: b :: c :: rest =>
      digit (a / 4) :: digit (a mod 4 * 16 + b / 16)
        :: digit (b mod 16 * 4 + c / 64) :: digit (c mod 64) :: encode rest
  | [a; b] =>
      [digit (a / 4); digit (a mod 4 * 16 + b / 16); digit (b mod 16 * 4);
       "="%char]
  | [a] => [digit (a / 4); digit (a mod 4 * 16); "="%char; "="%char]
  | [] => []
  end.

Definition EncodeToString (src : string) : string :=
  string_of_list_ascii (encode (map nat_of_ascii (list_ascii_of_string src))).

End base64.

Record Data : Type := { Data_ImageBase64 : string }.

Record Flier : Type := {
  Flier_ID : string;
  Flier_Design : Design;
  Flier_Language : string;
  Flier_URL : string;
  Flier_Data : Data
}.

(** [Metadata] of that version: the count is [TotalFliers]. *)
Record MetadataFliers : Type := {
  MetadataFliers_Version : string;
  MetadataFliers_LastUpdated : string;
  MetadataFliers_TotalFliers : Z;
  MetadataFliers_URL : string;
  MetadataFliers_Schema : Schema
}.

Record FliersData : Type := {
  FliersData_Fliers : slice Flier;
  FliersData_Metadata : MetadataFliers
}.

Definition ofData (d : Data) : JSON :=
  JObj [ ("imageBase64", json.ofString (Data_ImageBase64 d)) ].

Definition ofFlier (f : Flier) : JSON :=
  JObj [ ("id", json.ofString (Flier_ID f));
         ("design", json.ofDesign (Flier_Design f));
         ("language", json.ofString (Flier_Language f));
         ("url", json.ofString (Flier_URL f));
         ("data", ofData (Flier_Data f)) ].

Definition ofFliers (s : slice Flier) : JSON :=
  match s with
  | None => JNull
  | Some l => JArr (map ofFlier l)
  end.

Definition ofMetadataFliers (m : MetadataFliers) : JSON :=
  JObj [ ("version", json.ofString (MetadataFliers_Version m));
         ("lastUpdated", json.ofString (MetadataFliers_LastUpdated m));
         ("totalFliers", JNum (MetadataFliers_TotalFliers m));
         ("url", json.ofString (MetadataFliers_URL m));
         ("schema", json.ofSchema (MetadataFliers_Schema m)) ].

Definition ofFliersData (d : FliersData) : JSON :=
  JObj [ ("fliers", ofFliers (FliersData_Fliers d));
         ("metadata", ofMetadataFliers (FliersData_Metadata d)) ].

(** The loop [for _, file := range files] of that [main], from the state
    ([fliers], lines printed so far) it has reached.  [os_ReadFile] is
    [os.ReadFile]. *)
Fixpoint fliersLoop (w : World) (os_ReadFile : string -> result string)
    (imageFolder : string) (files : list DirEntry)
    (fliers : slice Flier) (printed : list string)
  : slice Flier * list string :=
  match files with
  | [] => (fliers, printed)
  | file :: rest =>
      (* Only process files (ignore directories) *)
      if IsDir file then
        fliersLoop w os_ReadFile imageFolder rest fliers printed
      else
        (* Construct full path for the file *)
        let imagePath := filepath_Join w imageFolder (Name file) in
        (* Get image resolution, format, and orientation *)
        match getImageResolutionAndOrientation w imagePath with
        | (_, _, _, _, Some err) =>
            fliersLoop w os_ReadFile imageFolder rest fliers
              (printed
                 ++ [("Error processing image " ++ Name file ++ ": "
                        ++ Error err ++ newline)%string])
        | (width, height, fileExt, orientation, None) =>
            (* Read the image file *)
            match os_ReadFile imagePath with
            | Err err =>
                fliersLoop w os_ReadFile imageFolder rest fliers
                  (printed
                     ++ [("Error reading image " ++ Name file ++ ": "
                            ++ Error err ++ newline)%string])
            | Ok imageBytes =>
                (* Convert image to Base64 *)
                let imageBase64 := base64.EncodeToString imageBytes in
                let imageData :=
                  ("data:image/" ++ strings_ToLower fileExt ++ ";base64,"
                     ++ imageBase64)%string in
                (* Add flier details *)
                let flier := {|
                  Flier_ID :=
                    strings.TrimSuffix (Name file)
                      (filepath.Ext (os_PathSeparator w) (Name file));
                  Flier_Design := {|
                    Design_TemplateID := "template1";
                    Design_Resolution := {|
                      Resolution_Width := width;
                      Resolution_Height := height;
                      Resolution_Unit := "px" |};
                    Design_Type := "image";
                    Design_Tags := Some [""];
                    Design_FileFormat := fileExt;
                    Design_Orientation := orientation |};
                  Flier_Language := "en-US";
                  Flier_URL :=
                    filepath.ToSlash (os_PathSeparator w) imagePath;
                  Flier_Data := {| Data_ImageBase64 := imageData |} |} in
                (* Append flier to the list *)
                fliersLoop w os_ReadFile imageFolder rest
                  (append fliers flier) printed
            end
        end
  end.

(** The document that [main] makes of the Fliers. *)
Definition fliersDocument (w : World) (folderURL : string)
    (fliers : slice Flier) : Document :=
  {| doc_value :=
       ofFliersData
         {| FliersData_Fliers := fliers;
            FliersData_Metadata :=
              {| MetadataFliers_Version := "1.0";
                 MetadataFliers_LastUpdated := time_Now w;
                 MetadataFliers_TotalFliers := len fliers;
                 MetadataFliers_URL := folderURL;
                 MetadataFliers_Schema :=
                   {| Schema_Format := "JSON";
                      Schema_Encoding := "UTF-8";
                      Schema_Filetype := "text" |} |} |};
     doc_prefix := "";
     doc_indent := "  " |}.

Definition main_fliers (w : World) (os_ReadFile : string -> result string)
  : list effect :=
  (* Folder containing image files *)
  let imageFolder := "images/" in
  let folderURL := "path/to/fliers" in
  (* Read all files in the directory *)
  match os_ReadDir w imageFolder with
  | Err err => [PrintlnErr "Error reading directory:" err]
  | Ok files =>
      let (fliers, printed) :=
        fliersLoop w os_ReadFile imageFolder files None [] in
      (* Create metadata *)
      let metadata := {|
        MetadataFliers_Version := "1.0";
        MetadataFliers_LastUpdated := time_Now w;
        MetadataFliers_TotalFliers := len fliers;
        MetadataFliers_URL := folderURL;
        MetadataFliers_Schema := {|
          Schema_Format := "JSON";
          Schema_Encoding := "UTF-8";
          Schema_Filetype := "text" |} |} in
      (* Create the JSON structure *)
      let fliersData := {|
        FliersData_Fliers := fliers;
        FliersData_Metadata := metadata |} in
      (* Convert to JSON *)
      match json.MarshalIndent (ofFliersData fliersData) "" "  " with
      | Err err =>
          map Printf printed ++ [PrintlnErr "Error encoding JSON:" err]
      | Ok jsonData =>
          (* Print or save JSON output *)
          let shown := map Printf printed ++ [PrintlnDoc jsonData] in
          (* Optionally, save the JSON to a file *)
          match os_WriteFile w "output.json" jsonData with
          | Some err =>
              shown ++ [WriteFile "output.json" jsonData (Some err);
                        PrintlnErr "Error writing JSON file:" err]
          | None =>
              shown ++ [WriteFile "output.json" jsonData None;
                        Println "JSON saved successfully as output.json"]
          end
      end
  end.

(** The Flyer of the later versions that a Flier holds. *)
Definition flyerOfFlier (f : Flier) : Flyer :=
  {| Flyer_ID := Flier_ID f;
     Flyer_Design := Flier_Design f;
     Flyer_Language := Flier_Language f;
     Flyer_URL := Flier_URL f |}.

(** The number of Fliers in a document of [main_fliers], and the count
    its metadata state. *)
Definition fliersCount (d : Document) : option Z :=
  match json.member "fliers" (doc_value d) with
  | Some v => json.lengthOf v
  | None => None
  end.

Definition totalFliers (d : Document) : option Z :=
  match json.member "metadata" (doc_value d) with
  | Some metadata =>
      match json.member "totalFliers" metadata with
      | Some (JNum n) => Some n
      | _ => None
      end
  | None => None
  end.

(** A world like the example's whose files can be read. *)
(** Every file of a listing that the inspector accepts can be read. *)
Definition readable (w : World) (os_ReadFile : string -> result string)
    (imageFolder : string) (files : list DirEntry) : Prop :=
  forall file width height fileExt orientation,
    In file files -> IsDir file = false ->
    getImageResolutionAndOrientation w
      (filepath_Join w imageFolder (Name file))
    = (width, height, fileExt, orientation, None) ->
    exists imageBytes,
      os_ReadFile (filepath_Join w imageFolder (Name file)) = Ok imageBytes.

(** ** Counting the steps of the goroutines *)

(** [n] steps of the machine. *)
Inductive stepsIn (w : World) (imageFolder folderURL : string)
  : nat -> Machine -> Machine -> Prop :=
| stepsIn_O m : stepsIn w imageFolder folderURL 0 m m
| stepsIn_S n m1 m2 m3 :
    step w imageFolder folderURL m1 m2 ->
    stepsIn w imageFolder folderURL n m2 m3 ->
    stepsIn w imageFolder folderURL (S n) m1 m3.

(** The first byte in upper case. *)
Definition capitalize (s : string) : string :=
  match s with
  | EmptyString => EmptyString
  | String c r => String (strings.upperByte c) r
  end.

(** * Properties *)

(** ** Integers and strings *)

Lemma wrap_inRange (z : Z) : GoInt.inRange z -> GoInt.wrap z = z.
Proof.
  unfold GoInt.inRange, GoInt.wrap, GoInt.minInt, GoInt.maxInt. intros H.
  rewrite Z.mod_small; lia.
Qed.

Lemma inRangeb_true (z : Z) : GoInt.inRange z -> GoInt.inRangeb z = true.
Proof.
  unfold GoInt.inRangeb, GoInt.inRange. intros [H1 H2].
  apply andb_true_intro. split; apply Z.leb_le; assumption.
Qed.

Lemma substring_0_0 (s : string) : substring 0 0 s = "".
Proof. destruct s; reflexivity. Qed.

Lemma substring_whole (s : string) : substring 0 (String.length s) s = s.
Proof. induction s as [|c s IH]; simpl; [reflexivity | now rewrite IH]. Qed.

(** Trimming the prefix ["."] removes one leading dot, if there is one. *)
Lemma TrimPrefix_dot (s : string) : strings.TrimPrefix s "." = dropDot s.
Proof.
  destruct s as [|c s]; [reflexivity|].
  unfold strings.TrimPrefix, strings.HasPrefix. simpl.
  rewrite substring_0_0, Nat.sub_0_r.
  destruct (Ascii.eqb_spec c "."%char) as [->|Hc].
  - simpl. apply substring_whole.
  - simpl. destruct c as [[] [] [] [] [] [] [] []]; try reflexivity.
    now elim Hc.
Qed.

(** ** The image inspector *)

(** What a successful call of the inspector returns. *)
Lemma inspector_success (w : World) (imagePath : string) (width height : Z)
    (fileExt orientation : string) :
  getImageResolutionAndOrientation w imagePath
    = (width, height, fileExt, orientation, None) ->
  exists file img codec,
    os_Open w imagePath = Ok file
    /\ image_Decode w file = Ok (img, codec)
    /\ width = Dx (Bounds img)
    /\ height = Dy (Bounds img)
    /\ fileExt = extensionLabel (os_PathSeparator w) imagePath
    /\ orientation = (if (width >? height)%Z then "landscape" else "portrait").
Proof.
  unfold getImageResolutionAndOrientation, extensionLabel.
  destruct (os_Open w imagePath) as [file|e] eqn:Hopen; [|discriminate].
  destruct (image_Decode w file) as [[img codec]|e] eqn:Hdec; [|discriminate].
  rewrite TrimPrefix_dot. intros H. injection H as <- <- <- <-.
  exists file, img, codec. repeat split; assumption || reflexivity.
Qed.





(** The content of [images/c.jpg] is sniffed as PNG, and the label the
    inspector returns for it is JPEG. *)
Example png_named_jpg :
  (exists file img,
      os_Open Example.world "images/c.jpg" = Ok file
      /\ image_Decode Example.world file = Ok (img, "png"))
  /\ getImageResolutionAndOrientation Example.world "images/c.jpg"
     = (800%Z, 800%Z, "JPEG", "portrait", None).
Proof.
  split; [|reflexivity].
  exists "png 800x800", (Example.rect 800 800). split; reflexivity.
Qed.

(** ** [ReadAndForward] when the directory cannot be listed *)

(** Claim C7: when listing the input directory fails, [ReadAndForward]
    returns the directory-level error at once: nothing has been printed,
    no file has been inspected and no Flyer built, and neither
    [flyers.json] nor [imagesMetadata.json] has been written (the run has
    no effect at all), whatever the batch size and the schedule. *)
Theorem ReadAndForward_listing_failure (w : World) (sched : list nat)
    (imageFolder folderURL : string) (batchSize : Z) (err : error) :
  os_ReadDir w imageFolder = Err err ->
  ReadAndForward w sched imageFolder folderURL batchSize
  = Returns
      (Some (errorString ("error reading directory: " ++ Error err)%string),
       []).
Proof.
  intros H. unfold ReadAndForward. rewrite H. reflexivity.
Qed.

Lemma ReadAndForward_listing_failure_witness :
  ReadAndForward Example.world [] "nonexistent" "http://example.com" 2
  = Returns
      (Some (errorString
               ("error reading directory: "
                  ++ Error (errorString
                       "open nonexistent: no such file or directory"))%string),
       []).
Proof.
  apply (ReadAndForward_listing_failure Example.world [] "nonexistent"
           "http://example.com" 2
           (errorString "open nonexistent: no such file or directory")).
  reflexivity.
Defined.

(** ** The batches *)

Section Chunks.

Context {A : Type}.
Implicit Types (l : list A) (n fuel k : nat).

Lemma chunksOf_nil fuel n : chunksOf fuel n (@nil A) = [].
Proof. destruct fuel; reflexivity. Qed.

Lemma chunksOf_cons fuel n l :
  l <> [] -> chunksOf (S fuel) n l = firstn n l :: chunksOf fuel n (skipn n l).
Proof. destruct l; [congruence | reflexivity]. Qed.

Lemma length_skipn_cons n (x : A) l :
  1 <= n -> List.length (skipn n (x :: l)) <= List.length l.
Proof.
  intros Hn. rewrite length_skipn. cbn [List.length]. lia.
Qed.

(** Fuel beyond the number of elements changes nothing. *)
Lemma chunksOf_enough fuel fuel' n l :
  1 <= n -> List.length l <= fuel -> List.length l <= fuel' ->
  chunksOf fuel n l = chunksOf fuel' n l.
Proof.
  intros Hn. revert fuel' l.
  induction fuel as [|fuel IH]; intros fuel' l Hl Hl'.
  - destruct l; [now rewrite !chunksOf_nil | cbn [List.length] in Hl; lia].
  - destruct l as [|x l]; [now rewrite !chunksOf_nil|].
    destruct fuel' as [|fuel']; [cbn [List.length] in Hl'; lia|].
    rewrite !chunksOf_cons by discriminate. f_equal.
    pose proof (length_skipn_cons n x l Hn).
    cbn [List.length] in Hl, Hl'. apply IH; lia.
Qed.

(** The chunks, put end to end, are the list. *)
Lemma concat_chunksOf fuel n l :
  1 <= n -> List.length l <= fuel -> List.concat (chunksOf fuel n l) = l.
Proof.
  intros Hn. revert l.
  induction fuel as [|fuel IH]; intros l Hl.
  - destruct l; [reflexivity | cbn [List.length] in Hl; lia].
  - destruct l as [|x l]; [reflexivity|].
    rewrite chunksOf_cons by discriminate. cbn [List.concat].
    pose proof (length_skipn_cons n x l Hn).
    cbn [List.length] in Hl. rewrite IH by lia. apply firstn_skipn.
Qed.

(** The [k]-th chunk is the [n] elements from position [k * n] on. *)
Lemma nth_chunksOf fuel n l k :
  1 <= n -> List.length l <= fuel -> k < List.length (chunksOf fuel n l) ->
  nth k (chunksOf fuel n l) [] = firstn n (skipn (k * n) l).
Proof.
  intros Hn. revert l k.
  induction fuel as [|fuel IH]; intros l k Hl Hk.
  - simpl in Hk. lia.
  - destruct l as [|x l]; [simpl in Hk; lia|].
    rewrite chunksOf_cons in * by discriminate.
    destruct k as [|k]; [reflexivity|].
    pose proof (length_skipn_cons n x l Hn).
    cbn [List.length] in Hl, Hk. cbn [nth].
    rewrite IH by lia.
    rewrite skipn_skipn. do 2 f_equal. lia.
Qed.

(** There are as many chunks as [n] goes into the length, rounded up. *)
Lemma length_chunksOf fuel n l :
  1 <= n -> List.length l <= fuel ->
  let c := List.length (chunksOf fuel n l) in
  c * n < List.length l + n /\ List.length l <= c * n.
Proof.
  intros Hn. revert l.
  induction fuel as [|fuel IH]; intros l Hl.
  - destruct l; [simpl; lia | cbn [List.length] in Hl; lia].
  - destruct l as [|x l]; [simpl; lia|].
    rewrite chunksOf_cons by discriminate.
    pose proof (length_skipn_cons n x l Hn) as Hs.
    cbn [List.length] in Hl.
    specialize (IH (skipn n (x :: l)) ltac:(lia)).
    cbv zeta in *. rewrite length_skipn in IH.
    cbn [List.length] in *.
    destruct (Nat.le_gt_cases (S (List.length l)) n) as [Hle|Hgt].
    + replace (S (List.length l) - n) with 0 in IH by lia.
      assert (List.length (chunksOf fuel n (skipn n (x :: l))) = 0) by nia.
      nia.
    + nia.
Qed.

End Chunks.

(** The loop of [BatchProcess] hands out the chunks of [files]: no
    addition wraps around and no slice expression panics. *)
Lemma spawnLoop_chunks (fuel : nat) (files : list DirEntry) (batchSize : Z)
    (k : nat) :
  (1 <= batchSize <= GoInt.maxInt)%Z -> fits files ->
  k = 0 \/ Z.to_nat batchSize <= k ->
  List.length files <= k + fuel ->
  spawnLoop fuel files batchSize (Z.of_nat k)
  = Returns (chunksOf fuel (Z.to_nat batchSize) (skipn k files)).
Proof.
  intros Hb Hfits. unfold fits in Hfits. unfold GoInt.maxInt in Hb.
  revert k. induction fuel as [|fuel IH]; intros k Hk Hfuel.
  - simpl. destruct (Z.ltb_spec (Z.of_nat k) (Z.of_nat (List.length files)));
      [lia|]. reflexivity.
  - cbn [spawnLoop].
    destruct (Z.ltb_spec (Z.of_nat k) (Z.of_nat (List.length files)))
      as [Hlt|Hge].
    + assert (Hwrap : GoInt.wrap (Z.of_nat k + batchSize)
                      = (Z.of_nat k + batchSize)%Z).
      { apply wrap_inRange. unfold GoInt.inRange, GoInt.minInt, GoInt.maxInt.
        lia. }
      rewrite Hwrap.
      set (end_ := if (Z.of_nat k + batchSize >? Z.of_nat (List.length files))%Z
                   then Z.of_nat (List.length files)
                   else (Z.of_nat k + batchSize)%Z).
      assert (Hend : (Z.of_nat k <= end_ <= Z.of_nat (List.length files))%Z).
      { unfold end_.
        destruct (Z.gtb_spec (Z.of_nat k + batchSize)
                    (Z.of_nat (List.length files))); lia. }
      assert (Hsl : subslice files (Z.of_nat k) end_
                    = Some (firstn (Z.to_nat batchSize) (skipn k files))).
      { unfold subslice.
        replace ((0 <=? Z.of_nat k) && (Z.of_nat k <=? end_)
                 && (end_ <=? Z.of_nat (List.length files)))%Z with true
          by (symmetry; rewrite !andb_true_iff, !Z.leb_le; lia).
        rewrite Nat2Z.id. f_equal. unfold end_.
        destruct (Z.gtb_spec (Z.of_nat k + batchSize)
                    (Z.of_nat (List.length files))) as [Hgt|Hle].
        - rewrite !firstn_all2; [reflexivity | |];
            rewrite length_skipn; lia.
        - f_equal. lia. }
      rewrite Hsl.
      replace (Z.of_nat k + batchSize)%Z
        with (Z.of_nat (k + Z.to_nat batchSize)) by lia.
      rewrite IH by lia.
      rewrite chunksOf_cons.
      * rewrite skipn_skipn.
        now replace (Z.to_nat batchSize + k) with (k + Z.to_nat batchSize)
          by lia.
      * intros Hnil. apply (f_equal (@List.length _)) in Hnil.
        rewrite length_skipn in Hnil. simpl in Hnil. lia.
    + rewrite skipn_all2 by lia. now rewrite chunksOf_nil.
Qed.

Lemma spawn_chunks (files : list DirEntry) (batchSize : Z) :
  (1 <= batchSize <= GoInt.maxInt)%Z -> fits files ->
  spawn files batchSize = Returns (chunks (Z.to_nat batchSize) files).
Proof.
  intros Hb Hfits. unfold spawn.
  rewrite (spawnLoop_chunks _ files batchSize 0 Hb Hfits) by (auto; lia).
  cbn [skipn]. f_equal. apply chunksOf_enough; lia.
Qed.

(** With the batch size 0 the loop never ends, whatever the fuel. *)
Lemma spawnLoop_zero_diverges (fuel : nat) (files : list DirEntry) :
  files <> [] -> spawnLoop fuel files 0 0 = OutOfFuel.
Proof.
  intros Hne. induction fuel as [|fuel IH].
  - destruct files; [congruence | reflexivity].
  - destruct files as [|x files]; [congruence|].
    cbn [spawnLoop].
    change (0 <? Z.of_nat (List.length (x :: files)))%Z with true.
    cbv iota. change (GoInt.wrap (0 + 0)) with 0%Z.
    rewrite IH.
    destruct (Z.gtb_spec 0 (Z.of_nat (List.length (x :: files)))) as [Hgt|_];
      [lia|].
    unfold subslice.
    destruct (Z.leb_spec 0 (Z.of_nat (List.length (x :: files)))) as [_|Hlt];
      [reflexivity | lia].
Qed.

(** ** Replacing one list among several *)

Section Replace.

Context {A : Type}.

Lemma replaceNth_split (l1 l2 : list A) (x y : A) :
  replaceNth (List.length l1) y (l1 ++ x :: l2) = l1 ++ y :: l2.
Proof. induction l1 as [|a l1 IH]; simpl; [reflexivity | now rewrite IH]. Qed.

Lemma replaceNth_same (i : nat) (x : A) (l : list A) :
  nth_error l i = Some x -> replaceNth i x l = l.
Proof.
  revert i. induction l as [|a l IH]; intros [|i] H; simpl in *;
    try discriminate; try reflexivity.
  - now injection H as ->.
  - now rewrite IH.
Qed.

Lemma map_replaceNth {B : Type} (f : A -> B) (i : nat) (x : A) (l : list A) :
  map f (replaceNth i x l) = replaceNth i (f x) (map f l).
Proof.
  revert i. induction l as [|a l IH]; intros [|i]; simpl;
    try reflexivity. now rewrite IH.
Qed.

Lemma nth_error_replaceNth (i : nat) (x : A) (l : list A) :
  i < List.length l -> nth_error (replaceNth i x l) i = Some x.
Proof.
  revert i. induction l as [|a l IH]; intros [|i] H; simpl in *;
    try lia; try reflexivity. apply IH. lia.
Qed.

End Replace.

(** Taking the first element off the [i]-th list takes one element off
    the lists put end to end. *)
Lemma concat_replaceNth {A : Type} (ls : list (list A)) (i : nat) (x : A)
    (rest : list A) :
  nth_error ls i = Some (x :: rest) ->
  exists before after,
    List.concat ls = before ++ x :: after
    /\ List.concat (replaceNth i rest ls) = before ++ after.
Proof.
  intros H. destruct (nth_error_split _ _ H) as (l1 & l2 & -> & <-).
  rewrite replaceNth_split, !concat_app. cbn [List.concat].
  exists (List.concat l1), (rest ++ List.concat l2).
  split; reflexivity.
Qed.

(** ** One goroutine on its own *)

Section Worker.

Variable w : World.
Variables imageFolder folderURL : string.

Local Abbreviation visitOf := (processFile w imageFolder folderURL).
Local Abbreviation sent := (sends w imageFolder folderURL).
Local Abbreviation printed := (prints w imageFolder folderURL).

Lemma sends_cons (file : DirEntry) (rest : list DirEntry) :
  sent (file :: rest)
  = match visitOf file with
    | Sent f => f :: sent rest
    | _ => sent rest
    end.
Proof.
  unfold sends. cbn [processBatch].
  destruct (processBatch w rest imageFolder folderURL) as [s p].
  now destruct (visitOf file).
Qed.

Lemma prints_cons (file : DirEntry) (rest : list DirEntry) :
  printed (file :: rest)
  = match visitOf file with
    | Logged line => line :: printed rest
    | _ => printed rest
    end.
Proof.
  unfold prints. cbn [processBatch].
  destruct (processBatch w rest imageFolder folderURL) as [s p].
  now destruct (visitOf file).
Qed.

Lemma sends_app (a b : list DirEntry) : sent (a ++ b) = sent a ++ sent b.
Proof.
  induction a as [|file a IH]; [reflexivity|].
  rewrite <- app_comm_cons, !sends_cons, IH.
  now destruct (visitOf file).
Qed.

Lemma prints_app (a b : list DirEntry) :
  printed (a ++ b) = printed a ++ printed b.
Proof.
  induction a as [|file a IH]; [reflexivity|].
  rewrite <- app_comm_cons, !prints_cons, IH.
  now destruct (visitOf file).
Qed.

Lemma sends_concat (batches : list (list DirEntry)) :
  List.concat (map sent batches) = sent (List.concat batches).
Proof.
  induction batches as [|b batches IH]; [reflexivity|].
  cbn [map List.concat]. now rewrite sends_app, IH.
Qed.

Lemma prints_concat (batches : list (list DirEntry)) :
  List.concat (map printed batches) = printed (List.concat batches).
Proof.
  induction batches as [|b batches IH]; [reflexivity|].
  cbn [map List.concat]. now rewrite prints_app, IH.
Qed.

End Worker.

(** ** The goroutines together *)

Section Goroutines.

Variable w : World.
Variables imageFolder folderURL : string.

Local Abbreviation visitOf := (processFile w imageFolder folderURL).
Local Abbreviation sent := (sends w imageFolder folderURL).
Local Abbreviation printed := (prints w imageFolder folderURL).
Local Abbreviation fired := (fire w imageFolder folderURL).

(** What a turn of goroutine [i] changes. *)
Lemma fire_Work (i : nat) (m m' : Machine) :
  fired (Work i) m = Some m' ->
  exists file rest,
    nth_error (workers m) i = Some (file :: rest)
    /\ workers m' = replaceNth i rest (workers m)
    /\ capacity m' = capacity m
    /\ flyers m' = flyers m
    /\ match visitOf file with
       | Skipped => results m' = results m /\ stdout m' = stdout m
       | Logged line =>
           results m' = results m /\ stdout m' = stdout m ++ [line]
       | Sent f =>
           results m' = results m ++ [f] /\ stdout m' = stdout m
           /\ List.length (results m) < capacity m
       end.
Proof.
  unfold fire.
  destruct (nth_error (workers m) i) as [[|file rest]|] eqn:Hi;
    try discriminate.
  intros H. exists file, rest. split; [reflexivity|].
  destruct (visitOf file) as [|line|f].
  - injection H as <-. simpl. repeat split; reflexivity.
  - injection H as <-. simpl. repeat split; reflexivity.
  - destruct (Nat.ltb_spec (List.length (results m)) (capacity m));
      [|discriminate].
    injection H as <-. simpl. repeat split; reflexivity || assumption.
Qed.

(** What a receive of the collecting loop changes. *)
Lemma fire_Receive (m m' : Machine) :
  fired Receive m = Some m' ->
  exists flyer queue,
    results m = flyer :: queue
    /\ results m' = queue
    /\ flyers m' = append (flyers m) flyer
    /\ workers m' = workers m
    /\ capacity m' = capacity m
    /\ stdout m' = stdout m.
Proof.
  unfold fire. destruct (results m) as [|flyer queue]; [discriminate|].
  intros H. injection H as <-. exists flyer, queue. simpl.
  repeat split; reflexivity.
Qed.

Lemma pending_replaceNth (ls : list (list DirEntry)) (i : nat)
    (file : DirEntry) (rest : list DirEntry) :
  nth_error ls i = Some (file :: rest) ->
  List.length (List.concat ls)
  = S (List.length (List.concat (replaceNth i rest ls))).
Proof.
  intros H. destruct (concat_replaceNth _ _ _ _ H) as (b & a & -> & ->).
  rewrite !length_app. simpl. lia.
Qed.

(** Every step brings the end nearer. *)
Lemma fire_stepsLeft (a : action) (m m' : Machine) :
  fired a m = Some m' -> stepsLeft m' < stepsLeft m.
Proof.
  unfold stepsLeft, pending. destruct a as [i|]; intros H.
  - destruct (fire_Work _ _ _ H) as (file & rest & Hi & -> & _ & _ & Hv).
    rewrite (pending_replaceNth _ _ _ _ Hi).
    destruct (visitOf file); destruct Hv as (-> & _);
      rewrite ?length_app; simpl; lia.
  - destruct (fire_Receive _ _ H) as (f & q & -> & -> & _ & -> & _).
    simpl. lia.
Qed.

(** The buffer of [results] has room for all that can still be sent. *)
Lemma fire_roomy (a : action) (m m' : Machine) :
  roomy m -> fired a m = Some m' -> roomy m'.
Proof.
  unfold roomy, pending. intros Hr H. destruct a as [i|].
  - destruct (fire_Work _ _ _ H) as (file & rest & Hi & -> & -> & _ & Hv).
    rewrite (pending_replaceNth _ _ _ _ Hi) in Hr.
    destruct (visitOf file); destruct Hv as (-> & _);
      rewrite ?length_app; simpl; lia.
  - destruct (fire_Receive _ _ H) as (f & q & Hq & -> & _ & -> & -> & _).
    rewrite Hq in Hr. simpl in Hr. lia.
Qed.

Lemma enabled_fire (a : action) (m : Machine) :
  In a (enabled w imageFolder folderURL m) -> exists m', fired a m = Some m'.
Proof.
  unfold enabled. rewrite filter_In. intros [_ H].
  destruct (fired a m) as [m'|]; [now exists m' | discriminate].
Qed.

Lemma fire_enabled (a : action) (m m' : Machine) :
  fired a m = Some m' -> In a (enabled w imageFolder folderURL m).
Proof.
  intros H. unfold enabled. rewrite filter_In, H. split; [|reflexivity].
  apply in_or_app. destruct a as [i|]; [left | right; now left].
  apply in_map, in_seq.
  destruct (fire_Work _ _ _ H) as (file & rest & Hi & _).
  assert (i < List.length (workers m))
    by (apply nth_error_Some; congruence).
  lia.
Qed.

(** No deadlock: while the machine has not finished, some goroutine can
    take a step. *)
Lemma roomy_progress (m : Machine) :
  roomy m -> finished m = false ->
  exists a m', fired a m = Some m'.
Proof.
  unfold roomy, pending, finished. intros Hr Hf.
  destruct (results m) as [|flyer queue] eqn:Hq.
  - rewrite andb_true_r in Hf.
    assert (Hex : exists i file rest,
               nth_error (workers m) i = Some (file :: rest)).
    { clear Hr. induction (workers m) as [|b bs IH]; [discriminate|].
      simpl in Hf. destruct b as [|file rest].
      - destruct (IH Hf) as (i & file & rest & Hi).
        now exists (S i), file, rest.
      - now exists 0, file, rest. }
    destruct Hex as (i & file & rest & Hi).
    rewrite (pending_replaceNth _ _ _ _ Hi) in Hr.
    exists (Work i). unfold fire. rewrite Hi, Hq.
    destruct (visitOf file); try (eexists; reflexivity).
    destruct (Nat.ltb_spec (List.length (@nil Flyer)) (capacity m)) as [_|Hc];
      [eexists; reflexivity | simpl in Hc, Hr; lia].
  - exists Receive. unfold fire. rewrite Hq. eexists; reflexivity.
Qed.

(** A run under a schedule comes to an end, with every goroutine returned
    and the channel drained. *)
Lemma run_returns (fuel : nat) (sched : list nat) (m : Machine) :
  roomy m -> stepsLeft m <= fuel ->
  exists m', run w imageFolder folderURL fuel sched m = Returns m'.
Proof.
  revert sched m. induction fuel as [|fuel IH]; intros sched m Hr Hfuel.
  - cbn [run].
    destruct (enabled w imageFolder folderURL m) as [|a0 others] eqn:He.
    + destruct (finished m) eqn:Hf; [now exists m|].
      destruct (roomy_progress m Hr Hf) as (a & m' & Ha).
      apply fire_enabled in Ha. rewrite He in Ha. destruct Ha.
    + assert (Ha : In a0 (enabled w imageFolder folderURL m))
        by (rewrite He; now left).
      destruct (enabled_fire _ _ Ha) as (m' & Hm').
      apply fire_stepsLeft in Hm'. lia.
  - cbn [run].
    destruct (enabled w imageFolder folderURL m) as [|a0 others] eqn:He.
    + destruct (finished m) eqn:Hf; [now exists m|].
      destruct (roomy_progress m Hr Hf) as (a & m' & Ha).
      apply fire_enabled in Ha. rewrite He in Ha. destruct Ha.
    + set (a := nth (hd 0 sched mod List.length (a0 :: others))
                  (a0 :: others) a0).
      assert (Ha : In a (enabled w imageFolder folderURL m)).
      { rewrite He. apply nth_In. apply Nat.mod_upper_bound. discriminate. }
      destruct (enabled_fire _ _ Ha) as (m' & Hm'). rewrite Hm'.
      apply IH; [now apply (fire_roomy a m) |].
      apply fire_stepsLeft in Hm'. lia.
Qed.

(** What a run returns is reached by steps of the machine, and is
    finished. *)
Lemma run_steps (fuel : nat) (sched : list nat) (m m' : Machine) :
  run w imageFolder folderURL fuel sched m = Returns m' ->
  steps w imageFolder folderURL m m' /\ finished m' = true.
Proof.
  revert sched m. induction fuel as [|fuel IH]; intros sched m; cbn [run];
    destruct (enabled w imageFolder folderURL m) as [|a0 others].
  - destruct (finished m) eqn:Hf; [|discriminate].
    intros H. injection H as <-. split; [constructor | assumption].
  - discriminate.
  - destruct (finished m) eqn:Hf; [|discriminate].
    intros H. injection H as <-. split; [constructor | assumption].
  - set (a := nth (hd 0 sched mod List.length (a0 :: others))
                (a0 :: others) a0).
    destruct (fired a m) as [m1|] eqn:Hm1; [|discriminate].
    intros H. destruct (IH _ _ H) as [Hs Hf]. split; [|assumption].
    apply steps_step with m1; [now exists a | assumption].
Qed.

End Goroutines.

(** ** Interleavings *)

Lemma Forall_nil_concat {A : Type} (ls : list (list A)) :
  Forall (fun s => s = []) ls -> List.concat ls = [].
Proof. induction 1 as [|s ls -> _ IH]; [reflexivity | exact IH]. Qed.

(** An interleaving holds the elements of the lists, each as often. *)
Lemma Interleaving_Permutation {A : Type} (ls : list (list A)) (l : list A) :
  Interleaving ls l -> Permutation l (List.concat ls).
Proof.
  induction 1 as [ls Hall | ls i x rest l Hi _ IH].
  - now rewrite Forall_nil_concat.
  - destruct (concat_replaceNth _ _ _ _ Hi) as (b & a & -> & Hc).
    rewrite Hc in IH. now apply Permutation_cons_app.
Qed.

(** The interleaving of a single list is the list. *)
Lemma Interleaving_single {A : Type} (s l : list A) :
  Interleaving [s] l -> l = s.
Proof.
  intros H. remember [s] as ls eqn:Hls. revert s Hls.
  induction H as [ls Hall | ls i x rest l Hi _ IH]; intros s ->.
  - inversion Hall; subst. reflexivity.
  - destruct i as [|i]; simpl in Hi.
    + injection Hi as ->. f_equal. now apply IH.
    + destruct i; discriminate.
Qed.

Section Fan.

Variable w : World.
Variables imageFolder folderURL : string.

Local Abbreviation visitOf := (processFile w imageFolder folderURL).
Local Abbreviation sent := (sends w imageFolder folderURL).
Local Abbreviation printed := (prints w imageFolder folderURL).
Local Abbreviation fired := (fire w imageFolder folderURL).

Lemma finished_workers (m : Machine) :
  finished m = true ->
  Forall (fun files => files = []) (workers m) /\ results m = [].
Proof.
  unfold finished. rewrite andb_true_iff, forallb_forall, Forall_forall.
  intros [Hw Hr]. split.
  - intros files Hin. specialize (Hw files Hin). now destruct files.
  - now destruct (results m).
Qed.

(** The Flyers are received in the order they were sent, and they were
    sent by each goroutine in the order of its batch. *)
Lemma steps_sends (m m' : Machine) :
  steps w imageFolder folderURL m m' -> finished m' = true ->
  exists l,
    emitted m' = emitted m ++ l
    /\ Interleaving (map sent (workers m)) l.
Proof.
  induction 1 as [m | m1 m2 m3 [a Ha] _ IH]; intros Hf.
  - exists []. rewrite app_nil_r. split; [reflexivity|].
    constructor. apply Forall_map.
    destruct (finished_workers m Hf) as [Hw _].
    eapply Forall_impl; [|exact Hw]. now intros files ->.
  - destruct (IH Hf) as (l & Hl & Hint). clear IH.
    destruct a as [i|].
    + destruct (fire_Work _ _ _ _ _ _ Ha)
        as (file & rest & Hi & Hw & _ & Hfl & Hv).
      assert (Hi' : nth_error (map sent (workers m1)) i
                    = Some (sent (file :: rest)))
        by (now rewrite nth_error_map, Hi).
      rewrite Hw, map_replaceNth in Hint.
      rewrite sends_cons in Hi'.
      unfold emitted in *. rewrite Hfl in Hl.
      destruct (visitOf file) as [|line|f]; destruct Hv as (Hr & Hv).
      * rewrite Hr in Hl. exists l. split; [assumption|].
        now rewrite (replaceNth_same _ _ _ Hi') in Hint.
      * rewrite Hr in Hl. exists l. split; [assumption|].
        now rewrite (replaceNth_same _ _ _ Hi') in Hint.
      * rewrite Hr in Hl. exists (f :: l). split.
        -- rewrite Hl, <- !app_assoc. reflexivity.
        -- now apply Interleaving_next with i (sent rest).
    + destruct (fire_Receive _ _ _ _ _ Ha)
        as (f & q & Hq & Hq' & Hfl & Hw & _).
      exists l. rewrite <- Hw. split; [|assumption].
      rewrite Hl. unfold emitted. rewrite Hq, Hq', Hfl. unfold append.
      cbn [elems]. now rewrite <- !app_assoc.
Qed.

(** The lines are printed by each goroutine in the order of its batch. *)
Lemma steps_prints (m m' : Machine) :
  steps w imageFolder folderURL m m' -> finished m' = true ->
  exists l,
    stdout m' = stdout m ++ l
    /\ Interleaving (map printed (workers m)) l.
Proof.
  induction 1 as [m | m1 m2 m3 [a Ha] _ IH]; intros Hf.
  - exists []. rewrite app_nil_r. split; [reflexivity|].
    constructor. apply Forall_map.
    destruct (finished_workers m Hf) as [Hw _].
    eapply Forall_impl; [|exact Hw]. now intros files ->.
  - destruct (IH Hf) as (l & Hl & Hint). clear IH.
    destruct a as [i|].
    + destruct (fire_Work _ _ _ _ _ _ Ha)
        as (file & rest & Hi & Hw & _ & _ & Hv).
      assert (Hi' : nth_error (map printed (workers m1)) i
                    = Some (printed (file :: rest)))
        by (now rewrite nth_error_map, Hi).
      rewrite Hw, map_replaceNth in Hint.
      rewrite prints_cons in Hi'.
      destruct (visitOf file) as [|line|f].
      * destruct Hv as (_ & Hv). rewrite Hv in Hl.
        exists l. split; [assumption|].
        now rewrite (replaceNth_same _ _ _ Hi') in Hint.
      * destruct Hv as (_ & Hv). rewrite Hv in Hl.
        exists (line :: l). split.
        -- rewrite Hl, <- !app_assoc. reflexivity.
        -- now apply Interleaving_next with i (printed rest).
      * destruct Hv as (_ & Hv & _). rewrite Hv in Hl.
        exists l. split; [assumption|].
        now rewrite (replaceNth_same _ _ _ Hi') in Hint.
    + destruct (fire_Receive _ _ _ _ _ Ha) as (f & q & _ & _ & _ & Hw & _ & Ho).
      exists l. rewrite <- Hw, <- Ho. split; assumption.
Qed.

(** [flyers] is nil until the first Flyer is received, and never empty
    after. *)
Lemma steps_flyers_nil (m m' : Machine) :
  steps w imageFolder folderURL m m' ->
  flyers m <> Some [] -> flyers m' <> Some [].
Proof.
  induction 1 as [m | m1 m2 m3 [a Ha] _ IH]; intros Hne; [assumption|].
  apply IH. destruct a as [i|].
  - destruct (fire_Work _ _ _ _ _ _ Ha) as (_ & _ & _ & _ & _ & -> & _).
    assumption.
  - destruct (fire_Receive _ _ _ _ _ Ha) as (f & q & _ & _ & -> & _).
    unfold append. intros H. injection H as H.
    now destruct (elems (flyers m1)).
Qed.

End Fan.

(** ** [BatchProcess] as a whole *)

(** With a batch size of at least 1, [BatchProcess] returns under every
    schedule, its error is nil, the Flyers it returns interleave what the
    goroutines send for their batches, and so do the lines printed. *)
Lemma BatchProcess_returns (w : World) (sched : list nat)
    (files : list DirEntry) (imageFolder folderURL : string) (batchSize : Z) :
  (1 <= batchSize <= GoInt.maxInt)%Z -> fits files ->
  exists (flyers : slice Flyer) (lines : list string),
    BatchProcess w sched files imageFolder folderURL batchSize
    = Returns (flyers, None, lines)
    /\ Interleaving
         (map (sends w imageFolder folderURL)
            (chunks (Z.to_nat batchSize) files))
         (elems flyers)
    /\ Interleaving
         (map (prints w imageFolder folderURL)
            (chunks (Z.to_nat batchSize) files))
         lines
    /\ flyers <> Some [].
Proof.
  intros Hb Hfits. unfold BatchProcess.
  rewrite (spawn_chunks files batchSize Hb Hfits).
  set (batches := chunks (Z.to_nat batchSize) files).
  assert (Hcat : List.concat batches = files)
    by (apply concat_chunksOf; lia).
  assert (Hroomy : roomy (spawned files batches)).
  { unfold roomy, pending. simpl. rewrite Hcat. lia. }
  assert (Hfuel : stepsLeft (spawned files batches) <= 2 * List.length files).
  { unfold stepsLeft, pending. simpl. rewrite Hcat. lia. }
  destruct (run_returns w imageFolder folderURL _ sched _ Hroomy Hfuel)
    as (m' & Hrun).
  rewrite Hrun. exists (flyers m'), (stdout m').
  destruct (run_steps _ _ _ _ _ _ _ Hrun) as [Hsteps Hfin].
  split; [reflexivity|].
  destruct (steps_sends _ _ _ _ _ Hsteps Hfin) as (l & Hl & Hint).
  destruct (steps_prints _ _ _ _ _ Hsteps Hfin) as (p & Hp & Hpint).
  destruct (finished_workers _ Hfin) as [_ Hres].
  unfold emitted in Hl. rewrite Hres, app_nil_r in Hl. simpl in Hl, Hp.
  subst l p. repeat split; try assumption.
  apply (steps_flyers_nil _ _ _ _ _ Hsteps). discriminate.
Qed.

(** The Flyers [BatchProcess] returns are, up to their order, the Flyers
    one goroutine sends for the whole listing. *)
Lemma BatchProcess_permutation (w : World) (sched : list nat)
    (files : list DirEntry) (imageFolder folderURL : string) (batchSize : Z) :
  (1 <= batchSize <= GoInt.maxInt)%Z -> fits files ->
  exists (flyers : slice Flyer) (lines : list string),
    BatchProcess w sched files imageFolder folderURL batchSize
    = Returns (flyers, None, lines)
    /\ Permutation (elems flyers) (sends w imageFolder folderURL files)
    /\ Permutation lines (prints w imageFolder folderURL files).
Proof.
  intros Hb Hfits.
  destruct (BatchProcess_returns w sched files imageFolder folderURL
              batchSize Hb Hfits) as (fl & lines & Hret & Hs & Hp & _).
  exists fl, lines. split; [assumption|].
  apply Interleaving_Permutation in Hs, Hp.
  rewrite sends_concat in Hs. rewrite prints_concat in Hp.
  unfold chunks in Hs, Hp.
  rewrite concat_chunksOf in Hs, Hp by lia. now split.
Qed.

(** ** What [ReadAndForward] does once the directory is listed *)

Lemma ReadAndForward_documents (w : World) (sched : list nat)
    (imageFolder folderURL : string) (batchSize : Z)
    (files : list DirEntry) (flyers : slice Flyer) (lines : list string) :
  os_ReadDir w imageFolder = Ok files ->
  BatchProcess w sched files imageFolder folderURL batchSize
  = Returns (flyers, None, lines) ->
  exists e rest,
    ReadAndForward w sched imageFolder folderURL batchSize
    = Returns
        (e,
         map Printf lines
           ++ PrintlnDoc (catalogDocument flyers)
           :: PrintlnDoc (summaryDocument w folderURL flyers)
           :: rest)
    /\ (forall name d r,
           In (WriteFile name d r) rest ->
           (name = "flyers.json" /\ d = catalogDocument flyers)
           \/ (name = "imagesMetadata.json"
               /\ d = summaryDocument w folderURL flyers))
    /\ (forall err,
           e = Some err ->
           (exists cause,
               err = errorString
                       ("error writing flyer JSON file " ++ Error cause)%string)
           \/ (exists cause,
                  err = errorString
                          ("error writing metadata JSON file "
                             ++ Error cause)%string)).
Proof.
  intros Hdir Hbatch. unfold ReadAndForward. rewrite Hdir, Hbatch.
  unfold json.MarshalIndent.
  fold (catalogDocument flyers). fold (summaryDocument w folderURL flyers).
  destruct (os_WriteFile w "flyers.json" (catalogDocument flyers))
    as [err1|] eqn:H1.
  - eexists _, _. split; [rewrite <- app_assoc; reflexivity|]. split.
    + intros name d r [H|[]]. injection H as <- <- <-. left. now split.
    + intros err H. injection H as <-. left. now exists err1.
  - destruct (os_WriteFile w "imagesMetadata.json"
                (summaryDocument w folderURL flyers)) as [err2|] eqn:H2.
    + eexists _, _. split; [rewrite <- app_assoc; reflexivity|]. split.
      * intros name d r [H|[H|[]]]; injection H as <- <- <-;
          [left | right]; now split.
      * intros err H. injection H as <-. right. now exists err2.
    + eexists _, _. split; [rewrite <- app_assoc; reflexivity|]. split.
      * intros name d r [H|[H|[H|[]]]]; try discriminate;
          injection H as <- <- <-; [left | right]; now split.
      * intros err H. discriminate.
Qed.

Lemma catalogCount_catalogDocument (flyers : slice Flyer) :
  catalogCount (catalogDocument flyers) = Some (len flyers).
Proof.
  destruct flyers as [l|]; [|reflexivity].
  unfold catalogCount, len. simpl. now rewrite length_map.
Qed.

Lemma summaryCount_summaryDocument (w : World) (folderURL : string)
    (flyers : slice Flyer) :
  summaryCount (summaryDocument w folderURL flyers) = Some (len flyers).
Proof. reflexivity. Qed.

(** Claim C1: in every invocation of [ReadAndForward] that reaches the
    construction of the metadata (the listing succeeded; the batch size is
    at least 1), whatever the schedule of the goroutines, the summary
    document states as [totalFlyers] the length of the [Flyers] list of
    the catalog document of the same invocation; both are the number of
    Flyers [BatchProcess] returned, which is the number of files of the
    listing that the inspector accepted.  ([null], which the catalog holds
    when no Flyer was produced, counts as the list of length 0 it reads
    back as.) *)
Theorem totalFlyers_is_catalog_length (w : World) (sched : list nat)
    (imageFolder folderURL : string) (batchSize : Z) (files : list DirEntry) :
  os_ReadDir w imageFolder = Ok files ->
  (1 <= batchSize <= GoInt.maxInt)%Z -> fits files ->
  exists (flyers : slice Flyer) (lines : list string) e rest,
    BatchProcess w sched files imageFolder folderURL batchSize
    = Returns (flyers, None, lines)
    /\ ReadAndForward w sched imageFolder folderURL batchSize
       = Returns
           (e,
            map Printf lines
              ++ PrintlnDoc (catalogDocument flyers)
              :: PrintlnDoc (summaryDocument w folderURL flyers)
              :: rest)
    /\ (forall name d r,
           In (WriteFile name d r) rest ->
           (name = "flyers.json" /\ d = catalogDocument flyers)
           \/ (name = "imagesMetadata.json"
               /\ d = summaryDocument w folderURL flyers))
    /\ catalogCount (catalogDocument flyers) = Some (len flyers)
    /\ summaryCount (summaryDocument w folderURL flyers) = Some (len flyers)
    /\ len flyers
       = Z.of_nat (List.length (sends w imageFolder folderURL files)).
Proof.
  intros Hdir Hb Hfits.
  destruct (BatchProcess_permutation w sched files imageFolder folderURL
              batchSize Hb Hfits) as (fl & lines & Hret & Hperm & _).
  destruct (ReadAndForward_documents _ _ _ _ _ _ _ _ Hdir Hret)
    as (e & rest & Hrun & Hwrites & _).
  exists fl, lines, e, rest. repeat split; try assumption.
  - apply catalogCount_catalogDocument.
  - unfold len. f_equal. now apply Permutation_length.
Qed.

Lemma totalFlyers_is_catalog_length_witness :
  exists (flyers : slice Flyer) (lines : list string) e rest,
    BatchProcess Example.world [1; 0; 2] Example.listing "images/"
      "http://example.com" 2
    = Returns (flyers, None, lines)
    /\ ReadAndForward Example.world [1; 0; 2] "images/" "http://example.com" 2
       = Returns
           (e,
            map Printf lines
              ++ PrintlnDoc (catalogDocument flyers)
              :: PrintlnDoc
                   (summaryDocument Example.world "http://example.com" flyers)
              :: rest)
    /\ (forall name d r,
           In (WriteFile name d r) rest ->
           (name = "flyers.json" /\ d = catalogDocument flyers)
           \/ (name = "imagesMetadata.json"
               /\ d = summaryDocument Example.world "http://example.com"
                        flyers))
    /\ catalogCount (catalogDocument flyers) = Some (len flyers)
    /\ summaryCount
         (summaryDocument Example.world "http://example.com" flyers)
       = Some (len flyers)
    /\ len flyers
       = Z.of_nat
           (List.length
              (sends Example.world "images/" "http://example.com"
                 Example.listing)).
Proof.
  apply (totalFlyers_is_catalog_length Example.world [1; 0; 2] "images/"
           "http://example.com" 2 Example.listing).
  - reflexivity.
  - unfold GoInt.maxInt. lia.
  - unfold fits. simpl. lia.
Defined.

(** Claim C3: for a fixed list of directory entries, [BatchProcess] with
    any two batch sizes of at least 1 (and under any two schedules of the
    goroutines) returns results of the same length that hold the same
    Flyers, each as often: the results are equal as multisets, their order
    may differ. *)
Theorem BatchProcess_batchSize_invariant (w : World) (sched1 sched2 : list nat)
    (files : list DirEntry) (imageFolder folderURL : string)
    (batchSize1 batchSize2 : Z) :
  (1 <= batchSize1 <= GoInt.maxInt)%Z ->
  (1 <= batchSize2 <= GoInt.maxInt)%Z ->
  fits files ->
  exists (flyers1 flyers2 : slice Flyer) (lines1 lines2 : list string),
    BatchProcess w sched1 files imageFolder folderURL batchSize1
    = Returns (flyers1, None, lines1)
    /\ BatchProcess w sched2 files imageFolder folderURL batchSize2
       = Returns (flyers2, None, lines2)
    /\ len flyers1 = len flyers2
    /\ Permutation (elems flyers1) (elems flyers2).
Proof.
  intros Hb1 Hb2 Hfits.
  destruct (BatchProcess_permutation w sched1 files imageFolder folderURL
              batchSize1 Hb1 Hfits) as (fl1 & lines1 & Hret1 & Hperm1 & _).
  destruct (BatchProcess_permutation w sched2 files imageFolder folderURL
              batchSize2 Hb2 Hfits) as (fl2 & lines2 & Hret2 & Hperm2 & _).
  exists fl1, fl2, lines1, lines2.
  assert (Hperm : Permutation (elems fl1) (elems fl2))
    by (rewrite Hperm1; now symmetry).
  repeat split; try assumption.
  unfold len. f_equal. now apply Permutation_length.
Qed.

Lemma BatchProcess_batchSize_invariant_witness :
  exists (flyers1 flyers2 : slice Flyer) (lines1 lines2 : list string),
    BatchProcess Example.world [] Example.listing "images/" "u" 1
    = Returns (flyers1, None, lines1)
    /\ BatchProcess Example.world [1; 1; 1] Example.listing "images/" "u" 2
       = Returns (flyers2, None, lines2)
    /\ len flyers1 = len flyers2
    /\ Permutation (elems flyers1) (elems flyers2).
Proof.
  apply (BatchProcess_batchSize_invariant Example.world [] [1; 1; 1]
           Example.listing "images/" "u" 1 2).
  - unfold GoInt.maxInt. lia.
  - unfold GoInt.maxInt. lia.
  - unfold fits. simpl. lia.
Defined.

(** The two runs of the witness return the Flyers in different orders. *)
Example batchSize_changes_order :
  match BatchProcess Example.world [] Example.listing "images/" "u" 1,
        BatchProcess Example.world [1; 1; 1] Example.listing "images/" "u" 2
  with
  | Returns (flyers1, _, _), Returns (flyers2, _, _) =>
      map Flyer_ID (elems flyers1) = ["a"; "b"; "c"]
      /\ map Flyer_ID (elems flyers2) = ["c"; "a"; "b"]
  | _, _ => False
  end.
Proof. vm_compute. split; reflexivity. Qed.

(** Claim C4: for every entry list and every batch size of at least 1,
    [BatchProcess] cuts the list into contiguous chunks of exactly
    [batchSize] entries, except that the last chunk may be shorter, and
    starts exactly ceil(len(entries)/batchSize) goroutines, one per chunk;
    the chunks put end to end are the list, so every entry is in exactly
    one chunk. *)
Theorem BatchProcess_partition (files : list DirEntry) (batchSize : Z) :
  (1 <= batchSize <= GoInt.maxInt)%Z -> fits files ->
  exists batches : list (list DirEntry),
    spawn files batchSize = Returns batches
    /\ (forall w sched imageFolder folderURL,
           BatchProcess w sched files imageFolder folderURL batchSize
           = match run w imageFolder folderURL (2 * List.length files) sched
                     (spawned files batches) with
             | Returns m => Returns (flyers m, None, stdout m)
             | Panics msg => Panics msg
             | OutOfFuel => OutOfFuel
             end)
    /\ workers (spawned files batches) = batches
    /\ List.concat batches = files
    /\ Z.of_nat (List.length batches)
       = ((Z.of_nat (List.length files) + batchSize - 1) / batchSize)%Z
    /\ (forall k, k < List.length batches ->
          nth k batches []
          = firstn (Z.to_nat batchSize)
              (skipn (k * Z.to_nat batchSize) files))
    /\ (forall k, S k < List.length batches ->
          Z.of_nat (List.length (nth k batches [])) = batchSize)
    /\ (forall k, S k = List.length batches ->
          (1 <= Z.of_nat (List.length (nth k batches [])) <= batchSize)%Z).
Proof.
  intros Hb Hfits.
  pose proof (spawn_chunks files batchSize Hb Hfits) as Hspawn.
  set (n := Z.to_nat batchSize) in *.
  assert (Hn : 1 <= n) by (unfold n; lia).
  exists (chunks n files).
  pose proof (length_chunksOf (List.length files) n files Hn (le_n _))
    as Hlen.
  pose proof (fun k => nth_chunksOf (List.length files) n files k Hn (le_n _))
    as Hnth.
  fold (chunks n files) in Hlen, Hnth. cbv zeta in Hlen.
  set (c := List.length (chunks n files)) in *.
  assert (Hsize : forall k, k < c ->
            List.length (nth k (chunks n files) [])
            = Nat.min n (List.length files - k * n)).
  { intros k Hk. rewrite Hnth by assumption.
    now rewrite length_firstn, length_skipn. }
  split; [assumption|]. split.
  { intros w sched imageFolder folderURL. unfold BatchProcess.
    now rewrite Hspawn. }
  split; [reflexivity|]. split; [apply concat_chunksOf; lia|]. split.
  { apply Z.div_unique
      with (r := (Z.of_nat (List.length files) + batchSize - 1
                  - batchSize * Z.of_nat c)%Z).
    - left. replace batchSize with (Z.of_nat n) by (unfold n; lia). nia.
    - lia. }
  split; [assumption|]. split.
  - intros k Hk. rewrite Hsize by lia.
    replace batchSize with (Z.of_nat n) by (unfold n; lia).
    f_equal. nia.
  - intros k Hk. rewrite Hsize by lia.
    replace batchSize with (Z.of_nat n) by (unfold n; lia).
    nia.
Qed.

Lemma BatchProcess_partition_witness :
  exists batches : list (list DirEntry),
    spawn Example.listing 2 = Returns batches
    /\ (forall w sched imageFolder folderURL,
           BatchProcess w sched Example.listing imageFolder folderURL 2
           = match run w imageFolder folderURL
                     (2 * List.length Example.listing) sched
                     (spawned Example.listing batches) with
             | Returns m => Returns (flyers m, None, stdout m)
             | Panics msg => Panics msg
             | OutOfFuel => OutOfFuel
             end)
    /\ workers (spawned Example.listing batches) = batches
    /\ List.concat batches = Example.listing
    /\ Z.of_nat (List.length batches)
       = ((Z.of_nat (List.length Example.listing) + 2 - 1) / 2)%Z
    /\ (forall k, k < List.length batches ->
          nth k batches []
          = firstn (Z.to_nat 2) (skipn (k * Z.to_nat 2) Example.listing))
    /\ (forall k, S k < List.length batches ->
          Z.of_nat (List.length (nth k batches [])) = 2%Z)
    /\ (forall k, S k = List.length batches ->
          (1 <= Z.of_nat (List.length (nth k batches [])) <= 2)%Z).
Proof.
  apply (BatchProcess_partition Example.listing 2).
  - unfold GoInt.maxInt. lia.
  - unfold fits. simpl. lia.
Defined.

(** The five entries of the example, in batches of 2. *)
Example spawn_listing :
  spawn Example.listing 2
  = Returns
      [ [ {| Name := "a.jpg"; IsDir := false |};
          {| Name := "b.jpg"; IsDir := false |} ];
        [ {| Name := "c.jpg"; IsDir := false |};
          {| Name := "notes.txt"; IsDir := false |} ];
        [ {| Name := "old"; IsDir := true |} ] ].
Proof. reflexivity. Qed.

(** ** What the Flyers hold *)

(** A Flyer is sent for the files the inspector accepts, and for no
    other entry. *)
Lemma processFile_Sent (w : World) (imageFolder folderURL : string)
    (file : DirEntry) (f : Flyer) :
  processFile w imageFolder folderURL file = Sent f <->
  IsDir file = false
  /\ exists width height fileExt orientation,
       getImageResolutionAndOrientation w
         (filepath_Join w imageFolder (Name file))
       = (width, height, fileExt, orientation, None)
       /\ f = flyerOf w imageFolder file width height fileExt orientation.
Proof.
  unfold processFile, flyerOf. destruct (IsDir file).
  - split; [discriminate | intros [H _]; discriminate].
  - destruct (getImageResolutionAndOrientation w
                (filepath_Join w imageFolder (Name file)))
      as [[[[width height] fileExt] orientation] [err|]].
    + split; [discriminate|].
      intros (_ & wd & ht & fe & o & H & _). discriminate.
    + split.
      * intros H. injection H as <-. split; [reflexivity|].
        now exists width, height, fileExt, orientation.
      * intros (_ & wd & ht & fe & o & H & ->).
        now injection H as <- <- <- <-.
Qed.

(** A line is printed for the files the inspector rejects, and for no
    other entry. *)
Lemma processFile_Logged (w : World) (imageFolder folderURL : string)
    (file : DirEntry) (line : string) :
  processFile w imageFolder folderURL file = Logged line <->
  IsDir file = false
  /\ exists width height fileExt orientation err,
       getImageResolutionAndOrientation w
         (filepath_Join w imageFolder (Name file))
       = (width, height, fileExt, orientation, Some err)
       /\ line = ("Error processing image " ++ Name file ++ ": "
                    ++ Error err ++ newline)%string.
Proof.
  unfold processFile. destruct (IsDir file).
  - split; [discriminate | intros [H _]; discriminate].
  - destruct (getImageResolutionAndOrientation w
                (filepath_Join w imageFolder (Name file)))
      as [[[[width height] fileExt] orientation] [err|]].
    + split.
      * intros H. injection H as <-. split; [reflexivity|].
        now exists width, height, fileExt, orientation, err.
      * intros (_ & wd & ht & fe & o & e & H & ->).
        now injection H as <- <- <- <- <-.
    + split; [discriminate|].
      intros (_ & wd & ht & fe & o & e & H & _). discriminate.
Qed.

Lemma processFile_Skipped (w : World) (imageFolder folderURL : string)
    (file : DirEntry) :
  processFile w imageFolder folderURL file = Skipped <-> IsDir file = true.
Proof.
  unfold processFile. destruct (IsDir file).
  - split; reflexivity.
  - destruct (getImageResolutionAndOrientation w
                (filepath_Join w imageFolder (Name file)))
      as [[[[width height] fileExt] orientation] [err|]];
      split; discriminate.
Qed.

Lemma In_sends (w : World) (imageFolder folderURL : string)
    (files : list DirEntry) (f : Flyer) :
  In f (sends w imageFolder folderURL files) <->
  exists file,
    In file files /\ processFile w imageFolder folderURL file = Sent f.
Proof.
  induction files as [|file files IH];
    [simpl; split; [intros [] | intros (x & [] & _)]|].
  rewrite sends_cons.
  destruct (processFile w imageFolder folderURL file) as [|line|g] eqn:Hv.
  - rewrite IH. split.
    + intros (x & Hin & Hx). exists x. split; [now right | assumption].
    + intros (x & [->|Hin] & Hx); [congruence | now exists x].
  - rewrite IH. split.
    + intros (x & Hin & Hx). exists x. split; [now right | assumption].
    + intros (x & [->|Hin] & Hx); [congruence | now exists x].
  - simpl. rewrite IH. split.
    + intros [<-|(x & Hin & Hx)].
      * exists file. split; [now left | assumption].
      * exists x. split; [now right | assumption].
    + intros (x & [->|Hin] & Hx); [left; congruence | right; now exists x].
Qed.

Lemma In_prints (w : World) (imageFolder folderURL : string)
    (files : list DirEntry) (line : string) :
  In line (prints w imageFolder folderURL files) <->
  exists file,
    In file files /\ processFile w imageFolder folderURL file = Logged line.
Proof.
  induction files as [|file files IH];
    [simpl; split; [intros [] | intros (x & [] & _)]|].
  rewrite prints_cons.
  destruct (processFile w imageFolder folderURL file) as [|l|g] eqn:Hv.
  - rewrite IH. split.
    + intros (x & Hin & Hx). exists x. split; [now right | assumption].
    + intros (x & [->|Hin] & Hx); [congruence | now exists x].
  - simpl. rewrite IH. split.
    + intros [<-|(x & Hin & Hx)].
      * exists file. split; [now left | assumption].
      * exists x. split; [now right | assumption].
    + intros (x & [->|Hin] & Hx); [left; congruence | right; now exists x].
  - rewrite IH. split.
    + intros (x & Hin & Hx). exists x. split; [now right | assumption].
    + intros (x & [->|Hin] & Hx); [congruence | now exists x].
Qed.

(** After [ToSlash], a path holds the platform's separator only where
    the separator is the slash. *)
Lemma ToSlash_no_separator (sep : ascii) (path : string) (c : ascii) :
  In c (list_ascii_of_string (filepath.ToSlash sep path)) ->
  c = sep -> c = "/"%char.
Proof.
  unfold filepath.ToSlash. destruct (Ascii.eqb_spec sep "/"%char) as [->|Hne].
  - now intros _ ->.
  - rewrite list_ascii_of_string_of_list_ascii, in_map_iff.
    intros (x & Hx & _) ->. destruct (Ascii.eqb_spec x sep); congruence.
Qed.

(** [folderURL] has no part in what the goroutines do. *)
Lemma run_folderURL (w : World) (imageFolder url1 url2 : string)
    (fuel : nat) (sched : list nat) (m : Machine) :
  run w imageFolder url1 fuel sched m = run w imageFolder url2 fuel sched m.
Proof.
  revert sched m. induction fuel as [|fuel IH]; intros sched m; cbn [run];
    change (enabled w imageFolder url2 m) with (enabled w imageFolder url1 m);
    destruct (enabled w imageFolder url1 m) as [|a0 others];
    try reflexivity.
  set (a := nth (hd 0 sched mod List.length (a0 :: others)) (a0 :: others) a0).
  change (fire w imageFolder url2 a m) with (fire w imageFolder url1 a m).
  destruct (fire w imageFolder url1 a m); [apply IH | reflexivity].
Qed.

Lemma BatchProcess_folderURL (w : World) (sched : list nat)
    (files : list DirEntry) (imageFolder url1 url2 : string) (batchSize : Z) :
  BatchProcess w sched files imageFolder url1 batchSize
  = BatchProcess w sched files imageFolder url2 batchSize.
Proof.
  unfold BatchProcess. destruct (spawn files batchSize); try reflexivity.
  now rewrite (run_folderURL w imageFolder url1 url2).
Qed.

(** Claim C8: the [url] of every Flyer is the path of its file under the
    image folder ([filepath.Join] of the folder and the name), with
    forward slashes for the platform's separators, and the [folderURL]
    argument has no influence on any Flyer: two runs of [BatchProcess]
    that differ only in [folderURL] return the same Flyers (and print the
    same lines).  In [ReadAndForward], [folderURL] is held by the [url]
    member of the summary only: the catalog document is the same for any
    two values of it. *)
Theorem folderURL_only_in_summary (w : World) (sched : list nat)
    (files : list DirEntry) (imageFolder url1 url2 : string) (batchSize : Z) :
  (1 <= batchSize <= GoInt.maxInt)%Z -> fits files ->
  exists (flyers : slice Flyer) (lines : list string),
    BatchProcess w sched files imageFolder url1 batchSize
    = Returns (flyers, None, lines)
    /\ BatchProcess w sched files imageFolder url2 batchSize
       = Returns (flyers, None, lines)
    /\ (forall f, In f (elems flyers) ->
          exists file,
            In file files /\ IsDir file = false
            /\ Flyer_URL f
               = filepath.ToSlash (os_PathSeparator w)
                   (filepath_Join w imageFolder (Name file))
            /\ (forall c, In c (list_ascii_of_string (Flyer_URL f)) ->
                  c = os_PathSeparator w -> c = "/"%char))
    /\ (os_ReadDir w imageFolder = Ok files ->
        exists e1 rest1 e2 rest2,
          ReadAndForward w sched imageFolder url1 batchSize
          = Returns
              (e1,
               map Printf lines
                 ++ PrintlnDoc (catalogDocument flyers)
                 :: PrintlnDoc (summaryDocument w url1 flyers)
                 :: rest1)
          /\ ReadAndForward w sched imageFolder url2 batchSize
             = Returns
                 (e2,
                  map Printf lines
                    ++ PrintlnDoc (catalogDocument flyers)
                    :: PrintlnDoc (summaryDocument w url2 flyers)
                    :: rest2)
          /\ json.member "url" (doc_value (summaryDocument w url1 flyers))
             = Some (json.ofString url1)
          /\ json.member "url" (doc_value (summaryDocument w url2 flyers))
             = Some (json.ofString url2)).
Proof.
  intros Hb Hfits.
  destruct (BatchProcess_permutation w sched files imageFolder url1
              batchSize Hb Hfits) as (fl & lines & Hret & Hperm & _).
  exists fl, lines.
  assert (Hret2 : BatchProcess w sched files imageFolder url2 batchSize
                  = Returns (fl, None, lines))
    by (now rewrite <- (BatchProcess_folderURL w sched files imageFolder url1)).
  split; [assumption|]. split; [assumption|]. split.
  - intros f Hin. apply (Permutation_in _ Hperm) in Hin.
    apply In_sends in Hin. destruct Hin as (file & Hfile & Hsent).
    apply processFile_Sent in Hsent.
    destruct Hsent as (Hdir & wd & ht & fe & o & _ & ->).
    exists file. repeat split; try assumption.
    apply ToSlash_no_separator.
  - intros Hdir.
    destruct (ReadAndForward_documents _ _ _ _ _ _ _ _ Hdir Hret)
      as (e1 & rest1 & Hrun1 & _).
    destruct (ReadAndForward_documents _ _ _ _ _ _ _ _ Hdir Hret2)
      as (e2 & rest2 & Hrun2 & _).
    exists e1, rest1, e2, rest2. repeat split; assumption.
Qed.

Lemma folderURL_only_in_summary_witness :
  exists (flyers : slice Flyer) (lines : list string),
    BatchProcess Example.world [2; 0] Example.listing "images/"
      "http://example.com" 2
    = Returns (flyers, None, lines)
    /\ BatchProcess Example.world [2; 0] Example.listing "images/"
         "path/to/Flyers" 2
       = Returns (flyers, None, lines)
    /\ (forall f, In f (elems flyers) ->
          exists file,
            In file Example.listing /\ IsDir file = false
            /\ Flyer_URL f
               = filepath.ToSlash (os_PathSeparator Example.world)
                   (filepath_Join Example.world "images/" (Name file))
            /\ (forall c, In c (list_ascii_of_string (Flyer_URL f)) ->
                  c = os_PathSeparator Example.world -> c = "/"%char))
    /\ (os_ReadDir Example.world "images/" = Ok Example.listing ->
        exists e1 rest1 e2 rest2,
          ReadAndForward Example.world [2; 0] "images/" "http://example.com" 2
          = Returns
              (e1,
               map Printf lines
                 ++ PrintlnDoc (catalogDocument flyers)
                 :: PrintlnDoc
                      (summaryDocument Example.world "http://example.com"
                         flyers)
                 :: rest1)
          /\ ReadAndForward Example.world [2; 0] "images/" "path/to/Flyers" 2
             = Returns
                 (e2,
                  map Printf lines
                    ++ PrintlnDoc (catalogDocument flyers)
                    :: PrintlnDoc
                         (summaryDocument Example.world "path/to/Flyers"
                            flyers)
                    :: rest2)
          /\ json.member "url"
               (doc_value
                  (summaryDocument Example.world "http://example.com" flyers))
             = Some (json.ofString "http://example.com")
          /\ json.member "url"
               (doc_value
                  (summaryDocument Example.world "path/to/Flyers" flyers))
             = Some (json.ofString "path/to/Flyers")).
Proof.
  apply (folderURL_only_in_summary Example.world [2; 0] Example.listing
           "images/" "http://example.com" "path/to/Flyers" 2).
  - unfold GoInt.maxInt. lia.
  - unfold fits. simpl. lia.
Defined.

(** On Windows the path of a Flyer is written with forward slashes. *)
Example ToSlash_windows :
  filepath.ToSlash "\"%char "images\sub\a.jpg" = "images/sub/a.jpg".
Proof. reflexivity. Qed.

(** ** The error of [BatchProcess] *)

Lemma BatchProcess_nil_error (w : World) (sched : list nat)
    (files : list DirEntry) (imageFolder folderURL : string) (batchSize : Z)
    (flyers : slice Flyer) (e : option error) (lines : list string) :
  BatchProcess w sched files imageFolder folderURL batchSize
  = Returns (flyers, e, lines) ->
  e = None.
Proof.
  unfold BatchProcess. destruct (spawn files batchSize); try discriminate.
  destruct (run w imageFolder folderURL (2 * List.length files) sched
              (spawned files a)); try discriminate.
  intros H. now injection H as _ <- _.
Qed.

(** Claim C10: [BatchProcess] returns a nil error on every input: it
    returns whenever the batch size is at least 1, and whatever the batch
    size and the schedule, an error it returns is nil.  So the
    "error processing files" branch of [ReadAndForward] is never taken:
    once the directory is listed, an error of [ReadAndForward] is an
    error of encoding JSON or of writing one of the two files. *)
Theorem BatchProcess_error_is_nil (w : World) (sched : list nat)
    (files : list DirEntry) (imageFolder folderURL : string) (batchSize : Z) :
  (1 <= batchSize <= GoInt.maxInt)%Z -> fits files ->
  (exists (flyers : slice Flyer) (lines : list string),
      BatchProcess w sched files imageFolder folderURL batchSize
      = Returns (flyers, None, lines))
  /\ (forall sched' batchSize' flyers e lines,
         BatchProcess w sched' files imageFolder folderURL batchSize'
         = Returns (flyers, e, lines) ->
         e = None)
  /\ (os_ReadDir w imageFolder = Ok files ->
      forall sched' batchSize' err effects,
        ReadAndForward w sched' imageFolder folderURL batchSize'
        = Returns (Some err, effects) ->
        (exists cause,
            err = errorString ("error encoding JSON: " ++ Error cause)%string)
        \/ (exists cause,
               err = errorString
                       ("error writing flyer JSON file " ++ Error cause)%string)
        \/ (exists cause,
               err = errorString
                       ("error writing metadata JSON file "
                          ++ Error cause)%string)).
Proof.
  intros Hb Hfits. split; [|split].
  - destruct (BatchProcess_returns w sched files imageFolder folderURL
                batchSize Hb Hfits) as (fl & lines & Hret & _).
    now exists fl, lines.
  - intros sched' batchSize' fl e lines. apply BatchProcess_nil_error.
  - intros Hdir sched' batchSize' err effects Hrun.
    destruct (BatchProcess w sched' files imageFolder folderURL batchSize')
      as [[[fl e] lines]|msg|] eqn:Hbatch.
    + pose proof (BatchProcess_nil_error _ _ _ _ _ _ _ _ _ Hbatch) as ->.
      destruct (ReadAndForward_documents _ _ _ _ _ _ _ _ Hdir Hbatch)
        as (e & rest & Hrun' & _ & Herr).
      rewrite Hrun' in Hrun. injection Hrun as -> _.
      right. destruct (Herr err eq_refl) as [H|H]; [left | right]; exact H.
    + unfold ReadAndForward in Hrun. rewrite Hdir, Hbatch in Hrun.
      discriminate.
    + unfold ReadAndForward in Hrun. rewrite Hdir, Hbatch in Hrun.
      discriminate.
Qed.

Lemma BatchProcess_error_is_nil_witness :
  (exists (flyers : slice Flyer) (lines : list string),
      BatchProcess Example.world [] Example.listing "images/" "u" 10
      = Returns (flyers, None, lines))
  /\ (forall sched' batchSize' flyers e lines,
         BatchProcess Example.world sched' Example.listing "images/" "u"
           batchSize'
         = Returns (flyers, e, lines) ->
         e = None)
  /\ (os_ReadDir Example.world "images/" = Ok Example.listing ->
      forall sched' batchSize' err effects,
        ReadAndForward Example.world sched' "images/" "u" batchSize'
        = Returns (Some err, effects) ->
        (exists cause,
            err = errorString ("error encoding JSON: " ++ Error cause)%string)
        \/ (exists cause,
               err = errorString
                       ("error writing flyer JSON file " ++ Error cause)%string)
        \/ (exists cause,
               err = errorString
                       ("error writing metadata JSON file "
                          ++ Error cause)%string)).
Proof.
  apply (BatchProcess_error_is_nil Example.world [] Example.listing "images/"
           "u" 10).
  - unfold GoInt.maxInt. lia.
  - unfold fits. simpl. lia.
Defined.

(** Outside the batch sizes of at least 1 [BatchProcess] does not return:
    with a negative one the slice expression panics, and with 0 the loop
    that starts the goroutines has no end. *)
Example BatchProcess_negative_batchSize :
  BatchProcess Example.world [] Example.listing "images/" "u" (-1)
  = Panics "slice bounds out of range".
Proof. reflexivity. Qed.

Lemma BatchProcess_zero_batchSize (w : World) (sched : list nat)
    (files : list DirEntry) (imageFolder folderURL : string) :
  files <> [] ->
  BatchProcess w sched files imageFolder folderURL 0 = OutOfFuel.
Proof.
  intros Hne. unfold BatchProcess, spawn.
  now rewrite spawnLoop_zero_diverges.
Qed.

(** ** What a goroutine does with its batch *)

Lemma sends_one (w : World) (imageFolder folderURL : string)
    (file : DirEntry) :
  sends w imageFolder folderURL [file]
  = match processFile w imageFolder folderURL file with
    | Sent f => [f]
    | _ => []
    end.
Proof. now rewrite sends_cons. Qed.

Lemma prints_one (w : World) (imageFolder folderURL : string)
    (file : DirEntry) :
  prints w imageFolder folderURL [file]
  = match processFile w imageFolder folderURL file with
    | Logged line => [line]
    | _ => []
    end.
Proof. now rewrite prints_cons. Qed.

(** Claim C5: a goroutine handles the entries of its chunk in sequence
    (what it sends and what it prints for a chunk is, in order, what it
    sends and prints for the entries before an entry, for the entry, and
    for the entries after it; in the result of [BatchProcess] the Flyers
    of each chunk keep that order).  A directory is skipped: no Flyer, no
    line.  A file the inspector fails on (open or decode error) is logged
    with one line and gives no Flyer.  In both cases the entries after it
    are handled as they would be otherwise: a failure on one file aborts
    neither the goroutine nor the batch.  A Flyer is sent only for a file
    that was decoded. *)
Theorem processBatch_skips_and_continues (w : World) (sched : list nat)
    (files : list DirEntry) (imageFolder folderURL : string) (batchSize : Z) :
  (1 <= batchSize <= GoInt.maxInt)%Z -> fits files ->
  exists (batches : list (list DirEntry)) (flyers : slice Flyer)
         (lines : list string),
    spawn files batchSize = Returns batches
    /\ BatchProcess w sched files imageFolder folderURL batchSize
       = Returns (flyers, None, lines)
    /\ Interleaving (map (sends w imageFolder folderURL) batches)
         (elems flyers)
    /\ Interleaving (map (prints w imageFolder folderURL) batches) lines
    /\ forall before file after,
         In (before ++ file :: after) batches ->
         let sent := sends w imageFolder folderURL in
         let printed := prints w imageFolder folderURL in
         let imagePath := filepath_Join w imageFolder (Name file) in
         sent (before ++ file :: after)
         = sent before ++ sent [file] ++ sent after
         /\ printed (before ++ file :: after)
            = printed before ++ printed [file] ++ printed after
         /\ (IsDir file = true -> sent [file] = [] /\ printed [file] = [])
         /\ (forall width height fileExt orientation err,
               IsDir file = false ->
               getImageResolutionAndOrientation w imagePath
               = (width, height, fileExt, orientation, Some err) ->
               sent [file] = []
               /\ printed [file]
                  = [("Error processing image " ++ Name file ++ ": "
                        ++ Error err ++ newline)%string])
         /\ (forall width height fileExt orientation,
               IsDir file = false ->
               getImageResolutionAndOrientation w imagePath
               = (width, height, fileExt, orientation, None) ->
               sent [file]
               = [flyerOf w imageFolder file width height fileExt orientation]
               /\ printed [file] = [])
         /\ (forall f, In f (sent (before ++ file :: after)) ->
               exists file' width height fileExt orientation,
                 In file' (before ++ file :: after)
                 /\ IsDir file' = false
                 /\ getImageResolutionAndOrientation w
                      (filepath_Join w imageFolder (Name file'))
                    = (width, height, fileExt, orientation, None)
                 /\ f = flyerOf w imageFolder file' width height fileExt
                          orientation).
Proof.
  intros Hb Hfits.
  destruct (BatchProcess_returns w sched files imageFolder folderURL
              batchSize Hb Hfits) as (fl & lines & Hret & Hs & Hp & _).
  exists (chunks (Z.to_nat batchSize) files), fl, lines.
  split; [now apply spawn_chunks|].
  split; [assumption|]. split; [assumption|]. split; [assumption|].
  intros before file after _ sent printed imagePath.
  subst sent printed imagePath. cbv beta.
  split; [|split; [|split; [|split; [|split]]]].
  - now rewrite sends_app, (sends_app _ _ _ [file] after).
  - now rewrite prints_app, (prints_app _ _ _ [file] after).
  - intros Hdir. apply processFile_Skipped with (w := w)
      (imageFolder := imageFolder) (folderURL := folderURL) in Hdir.
    now rewrite sends_one, prints_one, Hdir.
  - intros width height fileExt orientation err Hdir Hins.
    assert (Hv : processFile w imageFolder folderURL file
                 = Logged ("Error processing image " ++ Name file ++ ": "
                             ++ Error err ++ newline)%string).
    { apply processFile_Logged. split; [assumption|].
      now exists width, height, fileExt, orientation, err. }
    now rewrite sends_one, prints_one, Hv.
  - intros width height fileExt orientation Hdir Hins.
    assert (Hv : processFile w imageFolder folderURL file
                 = Sent (flyerOf w imageFolder file width height fileExt
                           orientation)).
    { apply processFile_Sent. split; [assumption|].
      now exists width, height, fileExt, orientation. }
    now rewrite sends_one, prints_one, Hv.
  - intros f Hin. apply In_sends in Hin.
    destruct Hin as (file' & Hfile' & Hsent).
    apply processFile_Sent in Hsent.
    destruct Hsent as (Hdir & wd & ht & fe & o & Hins & ->).
    now exists file', wd, ht, fe, o.
Qed.

Lemma processBatch_skips_and_continues_witness :
  exists (batches : list (list DirEntry)) (flyers : slice Flyer)
         (lines : list string),
    spawn Example.listing 3 = Returns batches
    /\ BatchProcess Example.world [1; 0] Example.listing "images/" "u" 3
       = Returns (flyers, None, lines)
    /\ Interleaving (map (sends Example.world "images/" "u") batches)
         (elems flyers)
    /\ Interleaving (map (prints Example.world "images/" "u") batches) lines
    /\ forall before file after,
         In (before ++ file :: after) batches ->
         let sent := sends Example.world "images/" "u" in
         let printed := prints Example.world "images/" "u" in
         let imagePath :=
           filepath_Join Example.world "images/" (Name file) in
         sent (before ++ file :: after)
         = sent before ++ sent [file] ++ sent after
         /\ printed (before ++ file :: after)
            = printed before ++ printed [file] ++ printed after
         /\ (IsDir file = true -> sent [file] = [] /\ printed [file] = [])
         /\ (forall width height fileExt orientation err,
               IsDir file = false ->
               getImageResolutionAndOrientation Example.world imagePath
               = (width, height, fileExt, orientation, Some err) ->
               sent [file] = []
               /\ printed [file]
                  = [("Error processing image " ++ Name file ++ ": "
                        ++ Error err ++ newline)%string])
         /\ (forall width height fileExt orientation,
               IsDir file = false ->
               getImageResolutionAndOrientation Example.world imagePath
               = (width, height, fileExt, orientation, None) ->
               sent [file]
               = [flyerOf Example.world "images/" file width height fileExt
                    orientation]
               /\ printed [file] = [])
         /\ (forall f, In f (sent (before ++ file :: after)) ->
               exists file' width height fileExt orientation,
                 In file' (before ++ file :: after)
                 /\ IsDir file' = false
                 /\ getImageResolutionAndOrientation Example.world
                      (filepath_Join Example.world "images/" (Name file'))
                    = (width, height, fileExt, orientation, None)
                 /\ f = flyerOf Example.world "images/" file' width height
                          fileExt orientation).
Proof.
  apply (processBatch_skips_and_continues Example.world [1; 0]
           Example.listing "images/" "u" 3).
  - unfold GoInt.maxInt. lia.
  - unfold fits. simpl. lia.
Defined.

(** The goroutine of the batch [c.jpg], [notes.txt], [old] sends the Flyer
    of [c.jpg], prints one line for [notes.txt], which is no image, and
    goes on to skip the directory [old]. *)
Example processBatch_listing :
  map Flyer_ID
    (sends Example.world "images/" "u" (skipn 2 Example.listing)) = ["c"]
  /\ prints Example.world "images/" "u" (skipn 2 Example.listing)
     = [("Error processing image notes.txt: image: unknown format"
           ++ newline)%string]
  /\ map Flyer_ID (sends Example.world "images/" "u" Example.listing)
     = ["a"; "b"; "c"].
Proof. repeat split. Qed.

(** ** JSON: strings that read back as they were written *)

Lemma first_size (b size lo hi : nat) :
  utf8.first b = Some (size, (lo, hi)) -> size = 2 \/ size = 3 \/ size = 4.
Proof.
  unfold utf8.first.
  repeat match goal with
         | |- context [if ?c then _ else _] => destruct c
         end;
    intros H; try discriminate; injection H as <- _ _; auto.
Qed.

Lemma length_list_ascii_of_string (s : string) :
  List.length (list_ascii_of_string s) = String.length s.
Proof. induction s as [|c s IH]; simpl; [reflexivity | now rewrite IH]. Qed.

(** The encoder leaves the valid UTF-8 sequences as they are. *)
Lemma coerceLoop_valid (fuel : nat) (s : list ascii) :
  List.length s <= fuel ->
  utf8.validLoop fuel s = true -> json.coerceLoop fuel s = s.
Proof.
  revert s. induction fuel as [|fuel IH]; intros s Hlen Hvalid.
  - destruct s; [reflexivity | simpl in Hlen; lia].
  - destruct s as [|c rest]; [reflexivity|].
    cbn [utf8.validLoop json.coerceLoop] in *.
    destruct (nat_of_ascii c <? utf8.RuneSelf) eqn:Hascii.
    + f_equal. apply IH; [simpl in Hlen; lia | assumption].
    + unfold utf8.DecodeRuneInString. rewrite Hascii.
      destruct (utf8.first (nat_of_ascii c)) as [[size [lo hi]]|] eqn:Hfirst;
        [|discriminate].
      destruct (List.length (c :: rest) <? size) eqn:Hshort; [discriminate|].
      destruct (utf8.outside lo hi (utf8.byteAt (c :: rest) 1)); [discriminate|].
      assert (Hrest : forall n, 1 <= n ->
                List.length (skipn n (c :: rest)) <= fuel).
      { intros n Hn. rewrite length_skipn. cbn [List.length] in *. lia. }
      destruct (first_size _ _ _ _ Hfirst) as [-> | [-> | ->]].
      * cbn [Nat.eqb Nat.leb] in *. rewrite andb_false_r.
        rewrite IH; [apply firstn_skipn | apply Hrest; lia | assumption].
      * cbn [Nat.eqb Nat.leb] in *.
        destruct (utf8.outside utf8.locb utf8.hicb
                    (utf8.byteAt (c :: rest) 2)); [discriminate|].
        cbn [Nat.eqb andb]. rewrite andb_false_r.
        rewrite IH; [apply firstn_skipn | apply Hrest; lia | assumption].
      * cbn [Nat.eqb Nat.leb] in *.
        destruct (utf8.outside utf8.locb utf8.hicb
                    (utf8.byteAt (c :: rest) 2)); [discriminate|].
        destruct (utf8.outside utf8.locb utf8.hicb
                    (utf8.byteAt (c :: rest) 3)); [discriminate|].
        cbn [Nat.eqb andb]. rewrite andb_false_r.
        rewrite IH; [apply firstn_skipn | apply Hrest; lia | assumption].
Qed.

Lemma coerce_valid (s : string) :
  utf8.ValidString s = true -> json.coerce s = s.
Proof.
  unfold utf8.ValidString, json.coerce. intros H.
  rewrite coerceLoop_valid;
    [apply string_of_list_ascii_of_string
    | now rewrite length_list_ascii_of_string
    | assumption].
Qed.


(** ** JSON: strings that do not read back *)

Lemma DecodeRuneInString_size (c : ascii) (rest : list ascii) :
  1 <= snd (utf8.DecodeRuneInString (c :: rest)).
Proof.
  unfold utf8.DecodeRuneInString.
  destruct (nat_of_ascii c <? utf8.RuneSelf); [simpl; lia|].
  destruct (utf8.first (nat_of_ascii c)) as [[size [lo hi]]|]; [|simpl; lia].
  repeat match goal with
         | |- context [if ?b then _ else _] => destruct b
         end; simpl; lia.
Qed.

(** The encoder never writes fewer bytes than it reads. *)
Lemma length_coerceLoop (fuel : nat) (s : list ascii) :
  List.length s <= fuel -> List.length s <= List.length (json.coerceLoop fuel s).
Proof.
  revert s. induction fuel as [|fuel IH]; intros s Hlen.
  - destruct s; [simpl; lia | simpl in Hlen; lia].
  - destruct s as [|c rest]; [simpl; lia|].
    cbn [json.coerceLoop].
    assert (Hrest : List.length rest <= fuel) by (simpl in Hlen; lia).
    destruct (nat_of_ascii c <? utf8.RuneSelf).
    + simpl. specialize (IH rest Hrest). lia.
    + pose proof (DecodeRuneInString_size c rest) as Hsize.
      destruct (utf8.DecodeRuneInString (c :: rest)) as [r size].
      cbn [snd] in Hsize.
      destruct ((r =? utf8.RuneError)%Z && (size =? 1)).
      * rewrite length_app. specialize (IH rest Hrest). simpl. lia.
      * rewrite length_app, length_firstn.
        assert (Hs : List.length (skipn size (c :: rest)) <= fuel)
          by (rewrite length_skipn; cbn [List.length] in *; lia).
        specialize (IH _ Hs). rewrite length_skipn in IH. lia.
Qed.

(** A byte that starts no valid sequence is not written as it is. *)
Lemma replacement_differs (fuel : nat) (c : ascii) (rest : list ascii) :
  List.length rest <= fuel ->
  json.replacement ++ json.coerceLoop fuel rest <> c :: rest.
Proof.
  intros Hlen H. apply (f_equal (@List.length _)) in H.
  rewrite length_app in H. pose proof (length_coerceLoop fuel rest Hlen).
  simpl in H. lia.
Qed.

(** What the encoder leaves as it is, is valid UTF-8. *)
Lemma coerceLoop_fixed (fuel : nat) (s : list ascii) :
  List.length s <= fuel ->
  json.coerceLoop fuel s = s -> utf8.validLoop fuel s = true.
Proof.
  revert s. induction fuel as [|fuel IH]; intros s Hlen Hfix;
    [reflexivity|].
  destruct s as [|c rest]; [reflexivity|].
  cbn [utf8.validLoop json.coerceLoop] in *.
  assert (Hrest : List.length rest <= fuel) by (simpl in Hlen; lia).
  assert (Hskip : forall n, 1 <= n ->
            List.length (skipn n (c :: rest)) <= fuel).
  { intros n Hn. rewrite length_skipn. cbn [List.length] in *. lia. }
  assert (Hnext : forall n, 1 <= n ->
            firstn n (c :: rest) ++ json.coerceLoop fuel (skipn n (c :: rest))
            = c :: rest ->
            utf8.validLoop fuel (skipn n (c :: rest)) = true).
  { intros n Hn H. apply IH; [now apply Hskip|].
    rewrite <- (firstn_skipn n (c :: rest)) in H at 3.
    now apply app_inv_head in H. }
  pose proof (replacement_differs fuel c rest Hrest) as Hrepl.
  destruct (nat_of_ascii c <? utf8.RuneSelf) eqn:Hascii.
  - injection Hfix as Hfix. now apply IH.
  - unfold utf8.DecodeRuneInString in Hfix. rewrite Hascii in Hfix.
    destruct (utf8.first (nat_of_ascii c)) as [[size [lo hi]]|] eqn:Hfirst;
      [|now elim Hrepl].
    destruct (List.length (c :: rest) <? size); [now elim Hrepl|].
    destruct (utf8.outside lo hi (utf8.byteAt (c :: rest) 1));
      [now elim Hrepl|].
    destruct (first_size _ _ _ _ Hfirst) as [-> | [-> | ->]];
      cbn [Nat.eqb Nat.leb] in *.
    + rewrite andb_false_r in Hfix. apply Hnext; [lia | assumption].
    + destruct (utf8.outside utf8.locb utf8.hicb (utf8.byteAt (c :: rest) 2));
        [now elim Hrepl|].
      rewrite andb_false_r in Hfix. apply Hnext; [lia | assumption].
    + destruct (utf8.outside utf8.locb utf8.hicb (utf8.byteAt (c :: rest) 2));
        [now elim Hrepl|].
      destruct (utf8.outside utf8.locb utf8.hicb (utf8.byteAt (c :: rest) 3));
        [now elim Hrepl|].
      rewrite andb_false_r in Hfix. apply Hnext; [lia | assumption].
Qed.

Lemma coerce_fixed (s : string) :
  json.coerce s = s -> utf8.ValidString s = true.
Proof.
  unfold utf8.ValidString, json.coerce. intros H.
  apply coerceLoop_fixed; [now rewrite length_list_ascii_of_string|].
  apply (f_equal list_ascii_of_string) in H.
  now rewrite list_ascii_of_string_of_list_ascii in H.
Qed.

(** ** JSON: what a value reads back as *)

Lemma toList_strings (l : list string) :
  json.toList (fun e => json.toString e "") (map json.ofString l)
  = Some (map json.coerce l).
Proof.
  induction l as [|t l IH]; [reflexivity|].
  cbn [map json.toList]. now rewrite IH.
Qed.

Lemma toSlice_ofStrings (tags : slice string) :
  json.toSlice (fun e => json.toString e "") (json.ofStrings tags)
  = Some (option_map (map json.coerce) tags).
Proof.
  destruct tags as [l|]; [|reflexivity]. simpl. now rewrite toList_strings.
Qed.

(** Decoding an object member by member. *)
Lemma toStruct_cons {T : Type} (names : list string)
    (set : nat -> JSON -> T -> option T) (key : string) (v : JSON)
    (members : list (string * JSON)) (old t : T) (i : nat) :
  json.field names key = Some i ->
  set i v old = Some t ->
  json.toStruct names set (JObj ((key, v) :: members)) old
  = json.toStruct names set (JObj members) t.
Proof.
  intros Hkey Hset. unfold json.toStruct. cbn [fold_left fst snd].
  now rewrite Hkey, Hset.
Qed.

Ltac decode_member :=
  erewrite toStruct_cons;
  [ | reflexivity
    | cbv beta iota; unfold json.toInt;
      repeat match goal with
             | H : GoInt.inRange ?n |- context [GoInt.inRangeb ?n] =>
                 rewrite (inRangeb_true n H)
             end;
      reflexivity ].

Lemma toResolution_ofResolution (r old : Resolution) :
  GoInt.inRange (Resolution_Width r) ->
  GoInt.inRange (Resolution_Height r) ->
  json.toResolution (json.ofResolution r) old = Some (json.readResolution r).
Proof.
  destruct r as [width height unit]. cbn [Resolution_Width Resolution_Height].
  intros Hw Hh. unfold json.ofResolution, json.ofString, json.toResolution.
  cbn [Resolution_Width Resolution_Height Resolution_Unit].
  do 3 decode_member. reflexivity.
Qed.

Lemma toDesign_ofDesign (d old : Design) :
  GoInt.inRange (Resolution_Width (Design_Resolution d)) ->
  GoInt.inRange (Resolution_Height (Design_Resolution d)) ->
  json.toDesign (json.ofDesign d) old = Some (json.readDesign d).
Proof.
  destruct d as [templateID resolution type tags fileFormat orientation].
  cbn [Design_Resolution]. intros Hw Hh.
  unfold json.ofDesign, json.ofString, json.toDesign.
  cbn [Design_TemplateID Design_Resolution Design_Type Design_Tags
       Design_FileFormat Design_Orientation].
  decode_member.
  erewrite toStruct_cons;
    [ | reflexivity
      | cbv beta iota; rewrite (toResolution_ofResolution _ _ Hw Hh);
        reflexivity ].
  decode_member.
  erewrite toStruct_cons;
    [ | reflexivity
      | cbv beta iota; rewrite toSlice_ofStrings; reflexivity ].
  decode_member. decode_member. reflexivity.
Qed.

Lemma toFlyer_ofFlyer (f old : Flyer) :
  GoFlyer f -> json.toFlyer (json.ofFlyer f) old = Some (json.readFlyer f).
Proof.
  destruct f as [id design language url]. unfold GoFlyer.
  cbn [Flyer_Design]. intros [Hw Hh].
  unfold json.ofFlyer, json.ofString, json.toFlyer.
  cbn [Flyer_ID Flyer_Design Flyer_Language Flyer_URL].
  decode_member.
  erewrite toStruct_cons;
    [ | reflexivity
      | cbv beta iota; rewrite (toDesign_ofDesign _ _ Hw Hh); reflexivity ].
  decode_member. decode_member. reflexivity.
Qed.

Lemma toSchema_ofSchema (s old : Schema) :
  json.toSchema (json.ofSchema s) old = Some (json.readSchema s).
Proof.
  destruct s as [format encoding filetype].
  unfold json.ofSchema, json.ofString, json.toSchema.
  cbn [Schema_Format Schema_Encoding Schema_Filetype].
  do 3 decode_member. reflexivity.
Qed.

Lemma toMetadata_ofMetadata (m old : Metadata) :
  GoMetadata m ->
  json.toMetadata (json.ofMetadata m) old = Some (json.readMetadata m).
Proof.
  destruct m as [version lastUpdated totalFlyers url schema].
  unfold GoMetadata. cbn [Metadata_TotalFlyers]. intros Ht.
  unfold json.ofMetadata, json.ofString, json.toMetadata.
  cbn [Metadata_Version Metadata_LastUpdated Metadata_TotalFlyers
       Metadata_URL Metadata_Schema].
  do 4 decode_member.
  erewrite toStruct_cons;
    [ | reflexivity
      | cbv beta iota; rewrite toSchema_ofSchema; reflexivity ].
  reflexivity.
Qed.

(** A value reads back as it was exactly when its strings are valid
    UTF-8. *)
Lemma map_coerce_fixed (l : list string) :
  map json.coerce l = l <-> Forall (fun t => utf8.ValidString t = true) l.
Proof.
  induction l as [|t l IH]; 
    [split; intros _; [constructor | reflexivity]|].
  cbn [map]. split.
  - intros H. injection H as Ht Hl. constructor;
      [now apply coerce_fixed | now apply IH].
  - intros H. inversion H as [|? ? Ht Hl]; subst.
    f_equal; [now apply coerce_valid | now apply IH].
Qed.

Lemma readFlyer_fixed (f : Flyer) :
  GoFlyer f -> (json.readFlyer f = f <-> ValidFlyer f).
Proof.
  destruct f as [id [templateID [width height unit] type tags fileFormat
                       orientation] language url].
  unfold GoFlyer, ValidFlyer, ValidDesign, ValidResolution, json.readFlyer,
    json.readDesign, json.readResolution. simpl. intros [Hw Hh]. split.
  - intros H. injection H as Hid Ht Hu Hty Htags Hf Ho Hl Hurl.
    repeat match goal with |- _ /\ _ => split end;
      try assumption; try (now apply coerce_fixed).
    destruct tags as [l|]; [|constructor].
    simpl in *. injection Htags as Htags. now apply map_coerce_fixed.
  - intros (Hid & (Ht & (_ & _ & Hu) & Hty & Htags & Hf & Ho) & Hl & Hurl).
    rewrite !coerce_valid by assumption. do 3 f_equal.
    destruct tags as [l|]; [|reflexivity].
    simpl in *. f_equal. now apply map_coerce_fixed.
Qed.

Lemma readMetadata_fixed (m : Metadata) :
  GoMetadata m -> (json.readMetadata m = m <-> ValidMetadata m).
Proof.
  destruct m as [version lastUpdated totalFlyers url [format encoding
                                                         filetype]].
  unfold GoMetadata, ValidMetadata, ValidSchema, json.readMetadata,
    json.readSchema. simpl. intros Ht. split.
  - intros H. injection H as Hv Hl Hu Hf He Hft.
    repeat match goal with |- _ /\ _ => split end;
      try assumption; now apply coerce_fixed.
  - intros (Hv & Hl & _ & Hu & Hf & He & Hft).
    now rewrite !coerce_valid by assumption.
Qed.

(** Claim C9, as amended: for every Flyer and every Metadata whose
    strings are valid UTF-8, encoding the value to JSON and decoding the
    result into a zero value yields the value itself.  (The integers of
    the fields are Go [int]s.) *)
Theorem json_roundtrip_valid_utf8 (f : Flyer) (m : Metadata) :
  ValidFlyer f -> ValidMetadata m ->
  json.UnmarshalFlyer (json.MarshalFlyer f) = Some f
  /\ json.UnmarshalMetadata (json.MarshalMetadata m) = Some m.
Proof.
  intros Hf Hm. unfold json.UnmarshalFlyer, json.MarshalFlyer,
    json.UnmarshalMetadata, json.MarshalMetadata.
  assert (Hgf : GoFlyer f) by (destruct Hf as (_ & (_ & (? & ? & _) & _) & _);
                               now split).
  assert (Hgm : GoMetadata m) by (now destruct Hm as (_ & _ & ? & _)).
  rewrite (toFlyer_ofFlyer _ _ Hgf), (toMetadata_ofMetadata _ _ Hgm).
  split; f_equal; [now apply readFlyer_fixed | now apply readMetadata_fixed].
Qed.

(** The amendment of claim C9 takes away no more than it has to: a Flyer
    or a Metadata with a string that is not valid UTF-8 does not read back
    as it was. *)
Lemma json_roundtrip_only_valid_utf8 (f : Flyer) (m : Metadata) :
  GoFlyer f -> GoMetadata m ->
  (json.UnmarshalFlyer (json.MarshalFlyer f) = Some f -> ValidFlyer f)
  /\ (json.UnmarshalMetadata (json.MarshalMetadata m) = Some m ->
      ValidMetadata m).
Proof.
  intros Hgf Hgm. unfold json.UnmarshalFlyer, json.MarshalFlyer,
    json.UnmarshalMetadata, json.MarshalMetadata.
  rewrite (toFlyer_ofFlyer _ _ Hgf), (toMetadata_ofMetadata _ _ Hgm).
  split; intros H; injection H as H;
    [now apply readFlyer_fixed | now apply readMetadata_fixed].
Qed.

Lemma json_roundtrip_valid_utf8_witness :
  json.UnmarshalFlyer (json.MarshalFlyer Example.testFlyer)
  = Some Example.testFlyer
  /\ json.UnmarshalMetadata (json.MarshalMetadata Example.testMetadata)
     = Some Example.testMetadata.
Proof.
  apply (json_roundtrip_valid_utf8 Example.testFlyer Example.testMetadata).
  - unfold ValidFlyer, ValidDesign, ValidResolution, GoInt.inRange,
      GoInt.minInt, GoInt.maxInt. simpl.
    repeat split; try reflexivity; try lia. repeat constructor.
  - unfold ValidMetadata, ValidSchema, GoInt.inRange, GoInt.minInt,
      GoInt.maxInt. simpl.
    repeat split; try reflexivity; lia.
Defined.

(** Claim C9, as stated, fails: the Flyer of a file whose name is not
    valid UTF-8 (here [caf\xe9.jpg], in Latin-1) does not come back: the
    byte 0xE9 of its [id] and of its [url] comes back as the three bytes
    of U+FFFD. *)
Lemma json_roundtrip_counterexample :
  ~ (forall f : Flyer, json.UnmarshalFlyer (json.MarshalFlyer f) = Some f).
Proof.
  intros H. specialize (H Example.latin1Flyer). vm_compute in H.
  discriminate H.
Qed.

(** What comes back for the Flyer of the counterexample. *)
Example latin1_reads_back :
  option_map Flyer_URL
    (json.UnmarshalFlyer (json.MarshalFlyer Example.latin1Flyer))
  = Some ("images/caf"
            ++ String "239"%char
                 (String "191"%char (String "189"%char ".jpg")))%string
  /\ Flyer_URL Example.latin1Flyer
     = ("images/caf" ++ String "233"%char ".jpg")%string.
Proof. split; reflexivity. Qed.

(** Once the directory is listed, [ReadAndForward] fails when a file
    cannot be written; the documents have been printed by then. *)
Example ReadAndForward_full_disk :
  match ReadAndForward Example.fullDisk [] "images/" "u" 5 with
  | Returns (e, effects) =>
      e = Some (errorString
                  "error writing flyer JSON file open flyers.json: no space left on device")
      /\ exists catalog summary,
           skipn 1 effects
           = [ PrintlnDoc catalog;
               PrintlnDoc summary;
               WriteFile "flyers.json" catalog
                 (Some (errorString
                          "open flyers.json: no space left on device")) ]
  | _ => False
  end.
Proof. vm_compute. split; [reflexivity | eexists _, _; reflexivity]. Qed.

(** * Further properties *)

(** ** Strings *)

Lemma string_of_list_ascii_app (a b : list ascii) :
  string_of_list_ascii (a ++ b)
  = (string_of_list_ascii a ++ string_of_list_ascii b)%string.
Proof. induction a as [|c a IH]; simpl; [reflexivity | now rewrite IH]. Qed.

Lemma length_append (a b : string) :
  String.length (a ++ b) = String.length a + String.length b.
Proof. induction a as [|c a IH]; simpl; [reflexivity | now rewrite IH]. Qed.

Lemma substring_append_l (a b : string) :
  substring 0 (String.length a) (a ++ b) = a.
Proof.
  induction a as [|c a IH]; simpl; [apply substring_0_0 | now rewrite IH].
Qed.

Lemma substring_append_r (a b : string) :
  substring (String.length a) (String.length b) (a ++ b) = b.
Proof.
  induction a as [|c a IH]; simpl; [apply substring_whole | exact IH].
Qed.

(** Trimming a suffix off a string that ends with it leaves the rest. *)
Lemma TrimSuffix_append (a b : string) :
  strings.TrimSuffix (a ++ b) b = a.
Proof.
  unfold strings.TrimSuffix, strings.HasSuffix.
  rewrite length_append.
  replace (String.length a + String.length b - String.length b)
    with (String.length a) by lia.
  rewrite substring_append_r, String.eqb_refl.
  destruct (Nat.leb_spec (String.length b)
              (String.length a + String.length b)) as [_|H]; [|lia].
  apply substring_append_l.
Qed.

(** ** [filepath.Ext] *)

Section Ext.

Variable sep : ascii.

Local Abbreviation plain := (plainByte sep).

Lemma extScan_suffix (left right : list ascii) :
  exists before,
    rev left ++ right = before ++ filepath.extScan sep left right.
Proof.
  revert right. induction left as [|c left IH]; intros right.
  - exists right. simpl. now rewrite app_nil_r.
  - cbn [filepath.extScan rev].
    destruct (filepath.IsPathSeparator sep c).
    + exists ((rev left ++ [c]) ++ right). now rewrite app_nil_r.
    + destruct (Ascii.eqb c "."%char).
      * exists (rev left). now rewrite <- app_assoc.
      * destruct (IH (c :: right)) as (before & Hb).
        exists before. now rewrite <- app_assoc.
Qed.

Lemma extScan_shape (left right : list ascii) :
  Forall plain right ->
  filepath.extScan sep left right = []
  \/ exists e,
       filepath.extScan sep left right = "."%char :: e /\ Forall plain e.
Proof.
  revert right. induction left as [|c left IH]; intros right Hr.
  - now left.
  - cbn [filepath.extScan].
    destruct (filepath.IsPathSeparator sep c) eqn:Hsep; [now left|].
    destruct (Ascii.eqb_spec c "."%char) as [->|Hdot].
    + right. now exists right.
    + apply IH. constructor; [now split | assumption].
Qed.

(** The extension is the end of the path, from its last dot on, when
    that dot is in the last element of the path; it is empty otherwise. *)
Lemma Ext_suffix (path : string) :
  exists before,
    path = (before ++ filepath.Ext sep path)%string
    /\ (filepath.Ext sep path = ""
        \/ exists e,
             filepath.Ext sep path = String "."%char e
             /\ Forall plain (list_ascii_of_string e)).
Proof.
  unfold filepath.Ext.
  destruct (extScan_suffix (rev (list_ascii_of_string path)) [])
    as (before & Hb).
  rewrite rev_involutive, app_nil_r in Hb.
  exists (string_of_list_ascii before). split.
  - rewrite <- string_of_list_ascii_app, <- Hb.
    now rewrite string_of_list_ascii_of_string.
  - destruct (extScan_shape (rev (list_ascii_of_string path)) []
                (Forall_nil _)) as [->|(e & -> & He)].
    + now left.
    + right. exists (string_of_list_ascii e). split; [reflexivity|].
      now rewrite list_ascii_of_string_of_list_ascii.
Qed.

(** A name is its [id] followed by its extension. *)
Lemma TrimSuffix_Ext (name : string) :
  (strings.TrimSuffix name (filepath.Ext sep name)
     ++ filepath.Ext sep name)%string = name.
Proof.
  destruct (Ext_suffix name) as (before & Hb & _).
  rewrite Hb at 1. rewrite TrimSuffix_append. now symmetry.
Qed.

End Ext.

(** ** What every Flyer of a result holds *)

Lemma wrap_range (z : Z) : GoInt.inRange (GoInt.wrap z).
Proof.
  unfold GoInt.inRange, GoInt.wrap, GoInt.minInt, GoInt.maxInt.
  pose proof (Z.mod_pos_bound (z + 2 ^ 63) (2 ^ 64) ltac:(lia)). lia.
Qed.

(** Every Flyer [BatchProcess] returns is the Flyer of a file of the
    listing that the inspector accepted. *)
Lemma BatchProcess_each (w : World) (sched : list nat)
    (files : list DirEntry) (imageFolder folderURL : string) (batchSize : Z) :
  (1 <= batchSize <= GoInt.maxInt)%Z -> fits files ->
  exists (flyers : slice Flyer) (lines : list string),
    BatchProcess w sched files imageFolder folderURL batchSize
    = Returns (flyers, None, lines)
    /\ forall f, In f (elems flyers) ->
         exists file width height fileExt orientation,
           In file files
           /\ IsDir file = false
           /\ getImageResolutionAndOrientation w
                (filepath_Join w imageFolder (Name file))
              = (width, height, fileExt, orientation, None)
           /\ f = flyerOf w imageFolder file width height fileExt orientation.
Proof.
  intros Hb Hfits.
  destruct (BatchProcess_permutation w sched files imageFolder folderURL
              batchSize Hb Hfits) as (fl & lines & Hret & Hperm & _).
  exists fl, lines. split; [assumption|].
  intros f Hin. apply (Permutation_in _ Hperm) in Hin.
  apply In_sends in Hin. destruct Hin as (file & Hfile & Hsent).
  apply processFile_Sent in Hsent.
  destruct Hsent as (Hdir & wd & ht & fe & o & Hins & ->).
  now exists file, wd, ht, fe, o.
Qed.

(** The [id] of a Flyer is the name of its file without the extension:
    the name is the [id] followed by the extension, which is empty or a
    dot followed by bytes that are neither dots nor separators. *)
Theorem Flyer_ID_is_name_without_extension (w : World) (sched : list nat)
    (files : list DirEntry) (imageFolder folderURL : string) (batchSize : Z) :
  (1 <= batchSize <= GoInt.maxInt)%Z -> fits files ->
  exists (flyers : slice Flyer) (lines : list string),
    BatchProcess w sched files imageFolder folderURL batchSize
    = Returns (flyers, None, lines)
    /\ forall f, In f (elems flyers) ->
         exists file ext,
           In file files
           /\ IsDir file = false
           /\ ext = filepath.Ext (os_PathSeparator w) (Name file)
           /\ Name file = (Flyer_ID f ++ ext)%string
           /\ (ext = ""
               \/ exists e,
                    ext = String "."%char e
                    /\ Forall (plainByte (os_PathSeparator w))
                         (list_ascii_of_string e)).
Proof.
  intros Hb Hfits.
  destruct (BatchProcess_each w sched files imageFolder folderURL batchSize
              Hb Hfits) as (fl & lines & Hret & Heach).
  exists fl, lines. split; [assumption|].
  intros f Hin.
  destruct (Heach f Hin) as (file & wd & ht & fe & o & Hfile & Hdir & _ & ->).
  exists file, (filepath.Ext (os_PathSeparator w) (Name file)).
  repeat match goal with |- _ /\ _ => split end; try assumption;
    try reflexivity.
  - cbn [flyerOf Flyer_ID]. symmetry. apply TrimSuffix_Ext.
  - destruct (Ext_suffix (os_PathSeparator w) (Name file)) as (_ & _ & H).
    exact H.
Qed.

Lemma Flyer_ID_is_name_without_extension_witness :
  exists (flyers : slice Flyer) (lines : list string),
    BatchProcess Example.world [3; 1] Example.listing "images/" "u" 2
    = Returns (flyers, None, lines)
    /\ forall f, In f (elems flyers) ->
         exists file ext,
           In file Example.listing
           /\ IsDir file = false
           /\ ext = filepath.Ext (os_PathSeparator Example.world) (Name file)
           /\ Name file = (Flyer_ID f ++ ext)%string
           /\ (ext = ""
               \/ exists e,
                    ext = String "."%char e
                    /\ Forall (plainByte (os_PathSeparator Example.world))
                         (list_ascii_of_string e)).
Proof.
  apply (Flyer_ID_is_name_without_extension Example.world [3; 1]
           Example.listing "images/" "u" 2).
  - unfold GoInt.maxInt. lia.
  - unfold fits. simpl. lia.
Defined.

(** Two files whose names differ in the extension only get the same
    [id]; a name that starts with its only dot gets the empty [id]. *)
Example Flyer_ID_examples :
  strings.TrimSuffix "a.jpg" (filepath.Ext "/"%char "a.jpg") = "a"
  /\ strings.TrimSuffix "a.png" (filepath.Ext "/"%char "a.png") = "a"
  /\ strings.TrimSuffix "archive.tar.gz"
       (filepath.Ext "/"%char "archive.tar.gz") = "archive.tar"
  /\ strings.TrimSuffix ".hidden" (filepath.Ext "/"%char ".hidden") = ""
  /\ strings.TrimSuffix "README" (filepath.Ext "/"%char "README") = "README".
Proof. repeat split. Qed.

Lemma upperByte_not_lower (c : ascii) : lowerByte (strings.upperByte c) = false.
Proof.
  unfold strings.upperByte, lowerByte.
  pose proof (nat_ascii_bounded c) as Hc.
  destruct ((97 <=? nat_of_ascii c) && (nat_of_ascii c <=? 122)) eqn:Hl.
  - apply andb_true_iff in Hl. destruct Hl as [H1 H2].
    apply Nat.leb_le in H1, H2.
    rewrite nat_ascii_embedding by lia.
    apply andb_false_iff. left. apply Nat.leb_gt. lia.
  - exact Hl.
Qed.

Lemma ToUpper_not_lower (s : string) (c : ascii) :
  In c (list_ascii_of_string (strings.ToUpper s)) -> lowerByte c = false.
Proof.
  induction s as [|d s IH]; simpl; [intros []|].
  intros [<-|H]; [apply upperByte_not_lower | now apply IH].
Qed.

Lemma extensionLabel_upper (sep : ascii) (path : string) :
  extensionLabel sep path <> "JPG"
  /\ forall c, In c (list_ascii_of_string (extensionLabel sep path)) ->
       lowerByte c = false.
Proof.
  unfold extensionLabel.
  destruct (String.eqb_spec
              (strings.ToUpper (dropDot (filepath.Ext sep path))) "JPG")
    as [_|Hne].
  - split; [discriminate|].
    intros c Hin. simpl in Hin.
    repeat destruct Hin as [<-|Hin]; try reflexivity. destruct Hin.
  - split; [assumption|]. apply ToUpper_not_lower.
Qed.



(** The labels of some paths. *)
Example extensionLabel_examples :
  extensionLabel "/"%char "images/a.jpg" = "JPEG"
  /\ extensionLabel "/"%char "images/a.JPG" = "JPEG"
  /\ extensionLabel "/"%char "images/a.jpeg" = "JPEG"
  /\ extensionLabel "/"%char "images/a.Png" = "PNG"
  /\ extensionLabel "/"%char "images/noext" = ""
  /\ extensionLabel "/"%char "images.d/noext" = ""
  /\ extensionLabel "/"%char "images/a.tar.gz" = "GZ".
Proof. repeat split. Qed.

(** The fields of a Flyer that do not depend on its file, and those that
    record the image: the width and the height are Go [int]s, and the
    orientation is ["landscape"] when the recorded width is greater than
    the recorded height and ["portrait"] when it is not. *)
Theorem Flyer_fixed_fields (w : World) (sched : list nat)
    (files : list DirEntry) (imageFolder folderURL : string) (batchSize : Z) :
  (1 <= batchSize <= GoInt.maxInt)%Z -> fits files ->
  exists (flyers : slice Flyer) (lines : list string),
    BatchProcess w sched files imageFolder folderURL batchSize
    = Returns (flyers, None, lines)
    /\ forall f, In f (elems flyers) ->
         let d := Flyer_Design f in
         let r := Design_Resolution d in
         Flyer_Language f = "en-US"
         /\ Design_TemplateID d = "template1"
         /\ Design_Type d = "image"
         /\ Design_Tags d = Some [""]
         /\ Resolution_Unit r = "px"
         /\ GoFlyer f
         /\ ((Design_Orientation d = "landscape"
              /\ (Resolution_Width r > Resolution_Height r)%Z)
             \/ (Design_Orientation d = "portrait"
                 /\ (Resolution_Width r <= Resolution_Height r)%Z)).
Proof.
  intros Hb Hfits.
  destruct (BatchProcess_each w sched files imageFolder folderURL batchSize
              Hb Hfits) as (fl & lines & Hret & Heach).
  exists fl, lines. split; [assumption|].
  intros f Hin.
  destruct (Heach f Hin) as (file & wd & ht & fe & o & _ & _ & Hins & ->).
  destruct (inspector_success _ _ _ _ _ _ Hins)
    as (_ & img & _ & _ & _ & -> & -> & _ & ->).
  unfold GoFlyer.
  cbn [flyerOf Flyer_Design Flyer_Language Design_TemplateID Design_Type
       Design_Tags Design_Resolution Design_Orientation Resolution_Unit
       Resolution_Width Resolution_Height]. cbv zeta.
  repeat match goal with |- _ /\ _ => split end; try reflexivity;
    try apply wrap_range.
  destruct (Z.gtb_spec (Dx (Bounds img)) (Dy (Bounds img))).
  - left. split; [reflexivity | lia].
  - right. split; [reflexivity | lia].
Qed.

Lemma Flyer_fixed_fields_witness :
  exists (flyers : slice Flyer) (lines : list string),
    BatchProcess Example.world [0; 0; 5] Example.listing "images/" "u" 1
    = Returns (flyers, None, lines)
    /\ forall f, In f (elems flyers) ->
         let d := Flyer_Design f in
         let r := Design_Resolution d in
         Flyer_Language f = "en-US"
         /\ Design_TemplateID d = "template1"
         /\ Design_Type d = "image"
         /\ Design_Tags d = Some [""]
         /\ Resolution_Unit r = "px"
         /\ GoFlyer f
         /\ ((Design_Orientation d = "landscape"
              /\ (Resolution_Width r > Resolution_Height r)%Z)
             \/ (Design_Orientation d = "portrait"
                 /\ (Resolution_Width r <= Resolution_Height r)%Z)).
Proof.
  apply (Flyer_fixed_fields Example.world [0; 0; 5] Example.listing
           "images/" "u" 1).
  - unfold GoInt.maxInt. lia.
  - unfold fits. simpl. lia.
Defined.

(** ** The channel and the steps of the goroutines *)

Section Channel.

Variable w : World.
Variables imageFolder folderURL : string.

Lemma steps_roomy (m m' : Machine) :
  steps w imageFolder folderURL m m' -> roomy m -> roomy m'.
Proof.
  induction 1 as [m | m1 m2 m3 [a Ha] _ IH]; intros Hr; [assumption|].
  apply IH. now apply (fire_roomy w imageFolder folderURL a m1).
Qed.

Lemma stepsIn_steps (n : nat) (m m' : Machine) :
  stepsIn w imageFolder folderURL n m m' -> steps w imageFolder folderURL m m'.
Proof.
  induction 1 as [m | n m1 m2 m3 Hs _ IH]; [constructor|].
  now apply steps_step with m2.
Qed.

Lemma steps_stepsIn (m m' : Machine) :
  steps w imageFolder folderURL m m' ->
  exists n, stepsIn w imageFolder folderURL n m m'.
Proof.
  induction 1 as [m | m1 m2 m3 Hs _ [n IH]].
  - exists 0. constructor.
  - exists (S n). now apply stepsIn_S with m2.
Qed.

(** While it has entries left, a goroutine can take its turn: its send
    finds room in the buffer. *)
Lemma roomy_Work (m : Machine) (i : nat) (file : DirEntry)
    (rest : list DirEntry) :
  roomy m -> nth_error (workers m) i = Some (file :: rest) ->
  exists m', fire w imageFolder folderURL (Work i) m = Some m'.
Proof.
  unfold roomy, pending. intros Hr Hi.
  rewrite (pending_replaceNth _ _ _ _ Hi) in Hr.
  unfold fire. rewrite Hi.
  destruct (processFile w imageFolder folderURL file);
    try (eexists; reflexivity).
  destruct (Nat.ltb_spec (List.length (results m)) (capacity m)) as [_|Hc];
    [eexists; reflexivity | lia].
Qed.

(** The steps taken count the entries visited and the Flyers received. *)
Lemma stepsIn_count (n : nat) (m m' : Machine) :
  stepsIn w imageFolder folderURL n m m' ->
  n + pending m' + List.length (elems (flyers m))
  = pending m + List.length (elems (flyers m'))
  /\ n + stepsLeft m' <= stepsLeft m.
Proof.
  induction 1 as [m | n m1 m2 m3 [a Ha] _ [IH1 IH2]]; [split; lia|].
  pose proof (fire_stepsLeft _ _ _ _ _ _ Ha) as Hless.
  split; [|lia]. unfold pending in *. destruct a as [i|].
  - destruct (fire_Work _ _ _ _ _ _ Ha)
      as (file & rest & Hi & Hw & _ & Hfl & _).
    rewrite Hw, Hfl in IH1.
    rewrite (pending_replaceNth _ _ _ _ Hi). lia.
  - destruct (fire_Receive _ _ _ _ _ Ha)
      as (f & q & _ & _ & Hfl & Hw & _).
    rewrite Hw, Hfl in IH1. unfold append in IH1. cbn [elems] in IH1.
    rewrite length_app in IH1. simpl in IH1. lia.
Qed.

End Channel.

(** The buffer of [results], made for [len(files)] Flyers, is never full
    when a goroutine sends: in every state the goroutines can reach, the
    buffer holds no more than its capacity, every goroutine that has
    entries left can take its turn, and unless all is finished some step
    can be taken (no deadlock). *)
Theorem results_never_blocks (w : World) (files : list DirEntry)
    (imageFolder folderURL : string) (batchSize : Z) :
  (1 <= batchSize <= GoInt.maxInt)%Z -> fits files ->
  exists batches,
    spawn files batchSize = Returns batches
    /\ forall m,
         steps w imageFolder folderURL (spawned files batches) m ->
         List.length (results m) <= capacity m
         /\ capacity m = List.length files
         /\ (forall i file rest,
               nth_error (workers m) i = Some (file :: rest) ->
               exists m', fire w imageFolder folderURL (Work i) m = Some m')
         /\ (finished m = false ->
             exists a m', fire w imageFolder folderURL a m = Some m').
Proof.
  intros Hb Hfits. exists (chunks (Z.to_nat batchSize) files).
  split; [now apply spawn_chunks|].
  intros m Hsteps.
  assert (Hroomy : roomy m).
  { apply (steps_roomy _ _ _ _ _ Hsteps).
    unfold roomy, pending. simpl. unfold chunks.
    rewrite concat_chunksOf by lia. lia. }
  assert (Hcap : capacity m = List.length files).
  { clear Hroomy. remember (spawned files (chunks (Z.to_nat batchSize) files))
      as m0 eqn:Hm0.
    assert (H0 : capacity m0 = List.length files) by (now subst m0).
    clear Hm0. induction Hsteps as [m | m1 m2 m3 [a Ha] _ IH]; [assumption|].
    apply IH. rewrite <- H0. destruct a as [i|].
    - now destruct (fire_Work _ _ _ _ _ _ Ha) as (_ & _ & _ & _ & -> & _).
    - now destruct (fire_Receive _ _ _ _ _ Ha)
        as (_ & _ & _ & _ & _ & _ & -> & _). }
  split; [unfold roomy in Hroomy; lia|]. split; [assumption|]. split.
  - intros i file rest Hi. now apply roomy_Work with file rest.
  - now apply roomy_progress.
Qed.

Lemma results_never_blocks_witness :
  exists batches,
    spawn Example.listing 2 = Returns batches
    /\ forall m,
         steps Example.world "images/" "u" (spawned Example.listing batches) m ->
         List.length (results m) <= capacity m
         /\ capacity m = List.length Example.listing
         /\ (forall i file rest,
               nth_error (workers m) i = Some (file :: rest) ->
               exists m', fire Example.world "images/" "u" (Work i) m = Some m')
         /\ (finished m = false ->
             exists a m', fire Example.world "images/" "u" a m = Some m').
Proof.
  apply (results_never_blocks Example.world Example.listing "images/" "u" 2).
  - unfold GoInt.maxInt. lia.
  - unfold fits. simpl. lia.
Defined.

(** Every execution of the goroutines is finite: it has at most
    [2 * len(files)] steps, and one that has come to its end has taken
    one step per entry of the listing and one per Flyer collected. *)
Theorem goroutines_step_count (w : World) (files : list DirEntry)
    (imageFolder folderURL : string) (batchSize : Z) :
  (1 <= batchSize <= GoInt.maxInt)%Z -> fits files ->
  exists batches,
    spawn files batchSize = Returns batches
    /\ forall n m,
         stepsIn w imageFolder folderURL n (spawned files batches) m ->
         n <= 2 * List.length files
         /\ (finished m = true ->
             n = List.length files + List.length (elems (flyers m))).
Proof.
  intros Hb Hfits. exists (chunks (Z.to_nat batchSize) files).
  split; [now apply spawn_chunks|].
  intros n m Hn.
  destruct (stepsIn_count _ _ _ _ _ _ Hn) as [Hcount Hleft].
  assert (Hpending : pending (spawned files (chunks (Z.to_nat batchSize) files))
                     = List.length files).
  { unfold pending, chunks. simpl. now rewrite concat_chunksOf by lia. }
  unfold stepsLeft in Hleft. rewrite Hpending in Hleft, Hcount.
  simpl in Hleft, Hcount. split; [lia|].
  intros Hfin. destruct (finished_workers _ Hfin) as [Hw _].
  unfold pending in Hcount. rewrite (Forall_nil_concat _ Hw) in Hcount.
  simpl in Hcount. lia.
Qed.

Lemma goroutines_step_count_witness :
  exists batches,
    spawn Example.listing 3 = Returns batches
    /\ forall n m,
         stepsIn Example.world "images/" "u" n
           (spawned Example.listing batches) m ->
         n <= 2 * List.length Example.listing
         /\ (finished m = true ->
             n = List.length Example.listing
                 + List.length (elems (flyers m))).
Proof.
  apply (goroutines_step_count Example.world Example.listing "images/" "u" 3).
  - unfold GoInt.maxInt. lia.
  - unfold fits. simpl. lia.
Defined.

(** ** The order and the number of the Flyers *)

Lemma Interleaving_nil {A : Type} (l : list A) : Interleaving [] l -> l = [].
Proof.
  inversion 1 as [|ls i x rest l' Hi]; [reflexivity|]. now destruct i.
Qed.

Lemma chunks_single {A : Type} (n : nat) (l : list A) :
  l <> [] -> List.length l <= n -> chunks n l = [l].
Proof.
  intros Hne Hlen. unfold chunks. destruct l as [|x l]; [congruence|].
  change (List.length (x :: l)) with (S (List.length l)).
  rewrite chunksOf_cons by discriminate.
  rewrite firstn_all2, skipn_all2 by assumption.
  now rewrite chunksOf_nil.
Qed.

(** With a batch size of at least [len(files)] there is one goroutine,
    and the result is in the order of the listing under every schedule:
    the Flyers are those of the accepted files in that order, and so are
    the lines printed for the rejected ones. *)
Theorem BatchProcess_single_batch_order (w : World) (sched : list nat)
    (files : list DirEntry) (imageFolder folderURL : string) (batchSize : Z) :
  (1 <= batchSize <= GoInt.maxInt)%Z -> fits files ->
  (Z.of_nat (List.length files) <= batchSize)%Z ->
  exists (flyers : slice Flyer) (lines : list string),
    BatchProcess w sched files imageFolder folderURL batchSize
    = Returns (flyers, None, lines)
    /\ elems flyers = sends w imageFolder folderURL files
    /\ lines = prints w imageFolder folderURL files.
Proof.
  intros Hb Hfits Hone.
  destruct (BatchProcess_returns w sched files imageFolder folderURL
              batchSize Hb Hfits) as (fl & lines & Hret & Hs & Hp & _).
  exists fl, lines. split; [assumption|].
  destruct files as [|file files].
  - apply Interleaving_nil in Hs, Hp. now split.
  - rewrite chunks_single in Hs, Hp by (discriminate || lia).
    cbn [map] in Hs, Hp. apply Interleaving_single in Hs, Hp. now split.
Qed.

Lemma BatchProcess_single_batch_order_witness :
  exists (flyers : slice Flyer) (lines : list string),
    BatchProcess Example.world [7; 7; 7] Example.listing "images/" "u" 5
    = Returns (flyers, None, lines)
    /\ elems flyers = sends Example.world "images/" "u" Example.listing
    /\ lines = prints Example.world "images/" "u" Example.listing.
Proof.
  apply (BatchProcess_single_batch_order Example.world [7; 7; 7]
           Example.listing "images/" "u" 5).
  - unfold GoInt.maxInt. lia.
  - unfold fits. simpl. lia.
  - simpl. lia.
Defined.

(** Every entry of a batch is a directory, or gives a Flyer, or gives a
    line. *)
Lemma processBatch_accounts (w : World) (imageFolder folderURL : string)
    (files : list DirEntry) :
  List.length (sends w imageFolder folderURL files)
  + List.length (prints w imageFolder folderURL files)
  + List.length (filter IsDir files)
  = List.length files.
Proof.
  induction files as [|file files IH]; [reflexivity|].
  rewrite sends_cons, prints_cons. cbn [filter List.length].
  destruct (processFile w imageFolder folderURL file) as [|line|f] eqn:Hv.
  - apply processFile_Skipped in Hv. rewrite Hv. simpl. lia.
  - apply processFile_Logged in Hv. destruct Hv as [-> _]. simpl. lia.
  - apply processFile_Sent in Hv. destruct Hv as [-> _]. simpl. lia.
Qed.

(** No entry of the listing is lost without a trace: the Flyers returned,
    the lines printed and the directories of the listing add up to the
    entries of the listing. *)
Theorem BatchProcess_accounts_for_every_entry (w : World) (sched : list nat)
    (files : list DirEntry) (imageFolder folderURL : string) (batchSize : Z) :
  (1 <= batchSize <= GoInt.maxInt)%Z -> fits files ->
  exists (flyers : slice Flyer) (lines : list string),
    BatchProcess w sched files imageFolder folderURL batchSize
    = Returns (flyers, None, lines)
    /\ (len flyers + Z.of_nat (List.length lines)
        + Z.of_nat (List.length (filter IsDir files))
        = Z.of_nat (List.length files))%Z
    /\ Permutation lines (prints w imageFolder folderURL files).
Proof.
  intros Hb Hfits.
  destruct (BatchProcess_permutation w sched files imageFolder folderURL
              batchSize Hb Hfits) as (fl & lines & Hret & Hs & Hp).
  exists fl, lines. split; [assumption|]. split; [|assumption].
  apply Permutation_length in Hs, Hp.
  pose proof (processBatch_accounts w imageFolder folderURL files).
  unfold len. lia.
Qed.

Lemma BatchProcess_accounts_for_every_entry_witness :
  exists (flyers : slice Flyer) (lines : list string),
    BatchProcess Example.world [2] Example.listing "images/" "u" 2
    = Returns (flyers, None, lines)
    /\ (len flyers + Z.of_nat (List.length lines)
        + Z.of_nat (List.length (filter IsDir Example.listing))
        = Z.of_nat (List.length Example.listing))%Z
    /\ Permutation lines (prints Example.world "images/" "u" Example.listing).
Proof.
  apply (BatchProcess_accounts_for_every_entry Example.world [2]
           Example.listing "images/" "u" 2).
  - unfold GoInt.maxInt. lia.
  - unfold fits. simpl. lia.
Defined.

(** [BatchProcess] returns the nil slice exactly when no file of the
    listing is accepted; the catalog then holds [null] for [Flyers], not
    an empty array, and the summary counts 0.  Otherwise the catalog holds
    a non-empty array.  For the empty listing this is so whatever the
    batch size, no goroutine being started. *)
Theorem BatchProcess_nil_when_nothing_decodes (w : World) (sched : list nat)
    (files : list DirEntry) (imageFolder folderURL : string) (batchSize : Z) :
  (1 <= batchSize <= GoInt.maxInt)%Z -> fits files ->
  (exists (flyers : slice Flyer) (lines : list string),
      BatchProcess w sched files imageFolder folderURL batchSize
      = Returns (flyers, None, lines)
      /\ (flyers = None <-> sends w imageFolder folderURL files = [])
      /\ (flyers = None ->
          json.member "Flyers" (doc_value (catalogDocument flyers))
          = Some JNull
          /\ summaryCount (summaryDocument w folderURL flyers) = Some 0%Z)
      /\ (flyers <> None ->
          exists item items,
            json.member "Flyers" (doc_value (catalogDocument flyers))
            = Some (JArr (item :: items))))
  /\ (forall sched' batchSize',
         BatchProcess w sched' [] imageFolder folderURL batchSize'
         = Returns (None, None, [])).
Proof.
  intros Hb Hfits. split; [|reflexivity].
  destruct (BatchProcess_returns w sched files imageFolder folderURL
              batchSize Hb Hfits) as (fl & lines & Hret & Hs & _ & Hnil).
  exists fl, lines. split; [assumption|].
  apply Interleaving_Permutation in Hs. rewrite sends_concat in Hs.
  unfold chunks in Hs. rewrite concat_chunksOf in Hs by lia.
  split; [|split].
  - split.
    + intros ->. simpl in Hs. now apply Permutation_nil.
    + intros H. rewrite H in Hs. apply Permutation_sym, Permutation_nil in Hs.
      destruct fl as [[|f l]|]; [congruence | discriminate | reflexivity].
  - intros ->. split; reflexivity.
  - intros Hsome. destruct fl as [[|f l]|]; try congruence.
    now exists (json.ofFlyer f), (map json.ofFlyer l).
Qed.

Lemma BatchProcess_nil_when_nothing_decodes_witness :
  (exists (flyers : slice Flyer) (lines : list string),
      BatchProcess Example.world [] (skipn 3 Example.listing) "images/" "u" 1
      = Returns (flyers, None, lines)
      /\ (flyers = None
          <-> sends Example.world "images/" "u" (skipn 3 Example.listing) = [])
      /\ (flyers = None ->
          json.member "Flyers" (doc_value (catalogDocument flyers))
          = Some JNull
          /\ summaryCount (summaryDocument Example.world "u" flyers)
             = Some 0%Z)
      /\ (flyers <> None ->
          exists item items,
            json.member "Flyers" (doc_value (catalogDocument flyers))
            = Some (JArr (item :: items))))
  /\ (forall sched' batchSize',
         BatchProcess Example.world sched' [] "images/" "u" batchSize'
         = Returns (None, None, [])).
Proof.
  apply (BatchProcess_nil_when_nothing_decodes Example.world []
           (skipn 3 Example.listing) "images/" "u" 1).
  - unfold GoInt.maxInt. lia.
  - unfold fits. simpl. lia.
Defined.

(** ** Batch sizes below 1 *)

(** With a listing that is not empty, [BatchProcess] does not return for
    a batch size below 1: a negative one makes the first slice expression
    panic, and with 0 the loop that starts the goroutines has no end,
    whatever the fuel.  [ReadAndForward] then does not return either. *)
Theorem BatchProcess_batchSize_not_positive (w : World) (sched : list nat)
    (files : list DirEntry) (imageFolder folderURL : string) (batchSize : Z) :
  files <> [] -> (GoInt.minInt <= batchSize <= 0)%Z ->
  (batchSize < 0 ->
   BatchProcess w sched files imageFolder folderURL batchSize
   = Panics "slice bounds out of range")%Z
  /\ (batchSize = 0%Z ->
      BatchProcess w sched files imageFolder folderURL batchSize = OutOfFuel
      /\ forall fuel, spawnLoop fuel files batchSize 0 = OutOfFuel)
  /\ (os_ReadDir w imageFolder = Ok files ->
      forall e effects,
        ReadAndForward w sched imageFolder folderURL batchSize
        <> Returns (e, effects)).
Proof.
  intros Hne Hb.
  assert (Hneg : (batchSize < 0)%Z ->
            BatchProcess w sched files imageFolder folderURL batchSize
            = Panics "slice bounds out of range").
  { intros Hlt. unfold BatchProcess, spawn. cbn [spawnLoop].
    destruct files as [|file files]; [congruence|].
    destruct (Z.ltb_spec 0 (Z.of_nat (List.length (file :: files))))
      as [_|H]; [|simpl in H; lia].
    rewrite Z.add_0_l, wrap_inRange
      by (unfold GoInt.inRange, GoInt.maxInt; lia).
    destruct (Z.gtb_spec batchSize (Z.of_nat (List.length (file :: files))))
      as [H|_]; [simpl in H; lia|].
    unfold subslice.
    destruct (Z.leb_spec 0 batchSize) as [H|_]; [lia|].
    reflexivity. }
  assert (Hzero : batchSize = 0%Z ->
            BatchProcess w sched files imageFolder folderURL batchSize
            = OutOfFuel).
  { intros ->. now apply BatchProcess_zero_batchSize. }
  split; [assumption|]. split.
  - intros H0. split; [now apply Hzero|].
    intros fuel. subst batchSize. now apply spawnLoop_zero_diverges.
  - intros Hdir e effects. unfold ReadAndForward. rewrite Hdir.
    destruct (Z.eq_dec batchSize 0) as [H0|H0].
    + now rewrite (Hzero H0).
    + now rewrite Hneg by lia.
Qed.

Lemma BatchProcess_batchSize_not_positive_witness :
  (-1 < 0 ->
   BatchProcess Example.world [] Example.listing "images/" "u" (-1)
   = Panics "slice bounds out of range")%Z
  /\ ((-1)%Z = 0%Z ->
      BatchProcess Example.world [] Example.listing "images/" "u" (-1)
      = OutOfFuel
      /\ forall fuel, spawnLoop fuel Example.listing (-1) 0 = OutOfFuel)
  /\ (os_ReadDir Example.world "images/" = Ok Example.listing ->
      forall e effects,
        ReadAndForward Example.world [] "images/" "u" (-1)
        <> Returns (e, effects)).
Proof.
  apply (BatchProcess_batchSize_not_positive Example.world []
           Example.listing "images/" "u" (-1)).
  - discriminate.
  - unfold GoInt.minInt. lia.
Defined.

(** ** The two files of [ReadAndForward] *)

(** What [ReadAndForward] does after [BatchProcess], case by case. *)
Lemma ReadAndForward_effects (w : World) (sched : list nat)
    (imageFolder folderURL : string) (batchSize : Z)
    (files : list DirEntry) (flyers : slice Flyer) (lines : list string) :
  os_ReadDir w imageFolder = Ok files ->
  BatchProcess w sched files imageFolder folderURL batchSize
  = Returns (flyers, None, lines) ->
  let catalog := catalogDocument flyers in
  let summary := summaryDocument w folderURL flyers in
  let shown := map Printf lines ++ [PrintlnDoc catalog; PrintlnDoc summary] in
  ReadAndForward w sched imageFolder folderURL batchSize
  = match os_WriteFile w "flyers.json" catalog with
    | Some err =>
        Returns
          (Some (errorString
                   ("error writing flyer JSON file " ++ Error err)%string),
           shown ++ [WriteFile "flyers.json" catalog (Some err)])
    | None =>
        match os_WriteFile w "imagesMetadata.json" summary with
        | Some err =>
            Returns
              (Some (errorString
                       ("error writing metadata JSON file "
                          ++ Error err)%string),
               shown ++ [WriteFile "flyers.json" catalog None;
                         WriteFile "imagesMetadata.json" summary (Some err)])
        | None =>
            Returns
              (None,
               shown ++ [WriteFile "flyers.json" catalog None;
                         WriteFile "imagesMetadata.json" summary None;
                         Println "JSON saved successfully as output.json"])
        end
    end.
Proof.
  intros Hdir Hbatch. cbv zeta. unfold ReadAndForward.
  rewrite Hdir, Hbatch. reflexivity.
Qed.



(** Once the directory is listed, [ReadAndForward] returns the nil error
    exactly when both files are written; what it has done then ends with
    the two writes, the catalog first, and the success message. *)
Theorem ReadAndForward_succeeds_iff_both_written (w : World)
    (sched : list nat) (imageFolder folderURL : string) (batchSize : Z)
    (files : list DirEntry) :
  os_ReadDir w imageFolder = Ok files ->
  (1 <= batchSize <= GoInt.maxInt)%Z -> fits files ->
  exists (flyers : slice Flyer) (lines : list string) e effects,
    BatchProcess w sched files imageFolder folderURL batchSize
    = Returns (flyers, None, lines)
    /\ ReadAndForward w sched imageFolder folderURL batchSize
       = Returns (e, effects)
    /\ let catalog := catalogDocument flyers in
       let summary := summaryDocument w folderURL flyers in
       (e = None <->
        os_WriteFile w "flyers.json" catalog = None
        /\ os_WriteFile w "imagesMetadata.json" summary = None)
       /\ (e = None ->
           effects
           = map Printf lines
               ++ [ PrintlnDoc catalog;
                    PrintlnDoc summary;
                    WriteFile "flyers.json" catalog None;
                    WriteFile "imagesMetadata.json" summary None;
                    Println "JSON saved successfully as output.json" ]).
Proof.
  intros Hdir Hb Hfits.
  destruct (BatchProcess_returns w sched files imageFolder folderURL
              batchSize Hb Hfits) as (fl & lines & Hret & _).
  pose proof (ReadAndForward_effects _ _ _ _ _ _ _ _ Hdir Hret) as Hrun.
  cbv zeta in Hrun. exists fl, lines.
  destruct (os_WriteFile w "flyers.json" (catalogDocument fl))
    as [err1|] eqn:H1;
    [|destruct (os_WriteFile w "imagesMetadata.json"
                  (summaryDocument w folderURL fl)) as [err2|] eqn:H2];
    eexists _, _; (split; [exact Hret|]); (split; [exact Hrun|]);
    cbv zeta; rewrite ?H1, ?H2.
  - split; [split; [discriminate | intros [H _]; discriminate]|].
    discriminate.
  - split; [split; [discriminate | intros [_ H]; discriminate]|].
    discriminate.
  - split; [split; [now split | reflexivity]|].
    intros _. now rewrite <- app_assoc.
Qed.

Lemma ReadAndForward_succeeds_iff_both_written_witness :
  exists (flyers : slice Flyer) (lines : list string) e effects,
    BatchProcess Example.world [1] Example.listing "images/" "u" 2
    = Returns (flyers, None, lines)
    /\ ReadAndForward Example.world [1] "images/" "u" 2
       = Returns (e, effects)
    /\ let catalog := catalogDocument flyers in
       let summary := summaryDocument Example.world "u" flyers in
       (e = None <->
        os_WriteFile Example.world "flyers.json" catalog = None
        /\ os_WriteFile Example.world "imagesMetadata.json" summary = None)
       /\ (e = None ->
           effects
           = map Printf lines
               ++ [ PrintlnDoc catalog;
                    PrintlnDoc summary;
                    WriteFile "flyers.json" catalog None;
                    WriteFile "imagesMetadata.json" summary None;
                    Println "JSON saved successfully as output.json" ]).
Proof.
  apply (ReadAndForward_succeeds_iff_both_written Example.world [1]
           "images/" "u" 2 Example.listing).
  - reflexivity.
  - unfold GoInt.maxInt. lia.
  - unfold fits. simpl. lia.
Defined.

(** ** Reading the documents back *)

Lemma toList_flyers (l : list Flyer) :
  Forall GoFlyer l ->
  json.toList (fun e => json.toFlyer e json.zeroFlyer) (map json.ofFlyer l)
  = Some (map json.readFlyer l).
Proof.
  induction 1 as [|f l Hf _ IH]; [reflexivity|].
  cbn [map json.toList]. now rewrite IH, (toFlyer_ofFlyer _ _ Hf).
Qed.

(** The catalog reads back as the Flyers it was made of, their strings
    coerced. *)
Lemma UnmarshalFlyersData_catalog (flyers : slice Flyer) :
  Forall GoFlyer (elems flyers) ->
  json.UnmarshalFlyersData (doc_value (catalogDocument flyers))
  = Some {| FlyersData_Flyers := option_map (map json.readFlyer) flyers |}.
Proof.
  intros Hgo. unfold json.UnmarshalFlyersData, json.toFlyersData,
    catalogDocument, json.ofFlyersData.
  cbn [doc_value FlyersData_Flyers].
  erewrite toStruct_cons; [reflexivity | reflexivity |].
  cbv beta. destruct flyers as [l|]; [|reflexivity].
  cbn [json.ofFlyers json.toSlice]. simpl in Hgo.
  now rewrite (toList_flyers l Hgo).
Qed.

Lemma length_sends_le (w : World) (imageFolder folderURL : string)
    (files : list DirEntry) :
  List.length (sends w imageFolder folderURL files) <= List.length files.
Proof.
  pose proof (processBatch_accounts w imageFolder folderURL files). lia.
Qed.

(** The two documents of a run read back, as [TestReadAndForward] reads
    [flyers.json]: the catalog decodes to as many Flyers as
    [BatchProcess] returned, and the summary decodes to a [Metadata] whose
    [TotalFlyers] is that number. *)
Theorem documents_read_back (w : World) (sched : list nat)
    (files : list DirEntry) (imageFolder folderURL : string) (batchSize : Z) :
  (1 <= batchSize <= GoInt.maxInt)%Z -> fits files ->
  exists (flyers : slice Flyer) (lines : list string)
         (data : FlyersData) (metadata : Metadata),
    BatchProcess w sched files imageFolder folderURL batchSize
    = Returns (flyers, None, lines)
    /\ json.UnmarshalFlyersData (doc_value (catalogDocument flyers))
       = Some data
    /\ json.UnmarshalMetadata (doc_value (summaryDocument w folderURL flyers))
       = Some metadata
    /\ FlyersData_Flyers data = option_map (map json.readFlyer) flyers
    /\ len (FlyersData_Flyers data) = len flyers
    /\ Metadata_TotalFlyers metadata = len (FlyersData_Flyers data)
    /\ Metadata_URL metadata = json.coerce folderURL
    /\ Metadata_Version metadata = "1.0".
Proof.
  intros Hb Hfits.
  destruct (BatchProcess_permutation w sched files imageFolder folderURL
              batchSize Hb Hfits) as (fl & lines & Hret & Hperm & _).
  destruct (BatchProcess_each w sched files imageFolder folderURL batchSize
              Hb Hfits) as (fl' & lines' & Hret' & Heach).
  rewrite Hret in Hret'. injection Hret' as <- <-.
  assert (Hgo : Forall GoFlyer (elems fl)).
  { apply Forall_forall. intros f Hin.
    destruct (Heach f Hin) as (file & wd & ht & fe & o & _ & _ & Hins & ->).
    destruct (inspector_success _ _ _ _ _ _ Hins)
      as (_ & img & _ & _ & _ & -> & -> & _).
    split; apply wrap_range. }
  assert (Hlen : GoInt.inRange (len fl)).
  { unfold len. rewrite (Permutation_length Hperm).
    pose proof (length_sends_le w imageFolder folderURL files) as Hle.
    unfold fits in Hfits.
    unfold GoInt.inRange, GoInt.minInt, GoInt.maxInt. lia. }
  assert (Hsame : len (option_map (map json.readFlyer) fl) = len fl).
  { destruct fl as [l|]; [|reflexivity]. unfold len. simpl.
    now rewrite length_map. }
  exists fl, lines, {| FlyersData_Flyers := option_map (map json.readFlyer) fl |}.
  eexists. split; [assumption|].
  split; [now apply UnmarshalFlyersData_catalog|].
  split; [unfold json.UnmarshalMetadata, summaryDocument; cbn [doc_value];
          apply toMetadata_ofMetadata; exact Hlen|].
  cbn [FlyersData_Flyers json.readMetadata Metadata_TotalFlyers Metadata_URL
       Metadata_Version].
  split; [reflexivity|]. split; [assumption|]. split; [now symmetry|].
  split; reflexivity.
Qed.

Lemma documents_read_back_witness :
  exists (flyers : slice Flyer) (lines : list string)
         (data : FlyersData) (metadata : Metadata),
    BatchProcess Example.world [] Example.listing "images/" "u" 2
    = Returns (flyers, None, lines)
    /\ json.UnmarshalFlyersData (doc_value (catalogDocument flyers))
       = Some data
    /\ json.UnmarshalMetadata
         (doc_value (summaryDocument Example.world "u" flyers))
       = Some metadata
    /\ FlyersData_Flyers data = option_map (map json.readFlyer) flyers
    /\ len (FlyersData_Flyers data) = len flyers
    /\ Metadata_TotalFlyers metadata = len (FlyersData_Flyers data)
    /\ Metadata_URL metadata = json.coerce "u"
    /\ Metadata_Version metadata = "1.0".
Proof.
  apply (documents_read_back Example.world [] Example.listing "images/" "u" 2).
  - unfold GoInt.maxInt. lia.
  - unfold fits. simpl. lia.
Defined.

(** ** The entry points *)

(** [ReadAndForward] returns as an error what the former [main] printed:
    under every schedule the former [main] does what
    [ReadAndForward("images/", "path/to/Flyers", 10)] does, and where
    [ReadAndForward] returns an error it prints, as a last line, the text
    of that error with its first letter in upper case. *)
Theorem main_split_is_ReadAndForward (w : World) (sched : list nat) :
  main_split w sched
  = match ReadAndForward w sched "images/" "path/to/Flyers" 10 with
    | Returns (None, effects) => Returns effects
    | Returns (Some err, effects) =>
        Returns (effects ++ [Println (capitalize (Error err))])
    | Panics msg => Panics msg
    | OutOfFuel => OutOfFuel
    end.
Proof.
  unfold main_split, ReadAndForward. cbv zeta.
  destruct (os_ReadDir w "images/") as [files|err]; [|reflexivity].
  destruct (BatchProcess w sched files "images/" "path/to/Flyers" 10)
    as [[[fl [err|]] lines]|msg|]; try reflexivity.
  unfold json.MarshalIndent.
  destruct (os_WriteFile w "flyers.json" _) as [err1|].
  - rewrite <- !app_assoc. reflexivity.
  - destruct (os_WriteFile w "imagesMetadata.json" _) as [err2|].
    + rewrite <- !app_assoc. reflexivity.
    + reflexivity.
Qed.

(** [main] of [main.go] comes to an end, and it panics for two reasons
    only: the directory ["images/"] cannot be listed, or one of the two
    files cannot be written.  Its batch size of 10 makes no slice
    expression panic and no loop run on.  When it returns, both files are
    written, and the summary holds ["path/to/Flyers"]. *)
Theorem main_outcome (w : World) (sched : list nat) :
  (forall files, os_ReadDir w "images/" = Ok files -> fits files) ->
  main w sched <> OutOfFuel
  /\ (forall err,
         os_ReadDir w "images/" = Err err ->
         main w sched
         = Panics ("error reading directory: " ++ Error err)%string)
  /\ (forall files,
         os_ReadDir w "images/" = Ok files ->
         exists (flyers : slice Flyer) (lines : list string),
           BatchProcess w sched files "images/" "path/to/Flyers" 10
           = Returns (flyers, None, lines)
           /\ let catalog := catalogDocument flyers in
              let summary := summaryDocument w "path/to/Flyers" flyers in
              main w sched
              = match os_WriteFile w "flyers.json" catalog,
                      os_WriteFile w "imagesMetadata.json" summary with
                | Some err, _ =>
                    Panics ("error writing flyer JSON file "
                              ++ Error err)%string
                | None, Some err =>
                    Panics ("error writing metadata JSON file "
                              ++ Error err)%string
                | None, None =>
                    Returns
                      (map Printf lines
                         ++ [ PrintlnDoc catalog;
                              PrintlnDoc summary;
                              WriteFile "flyers.json" catalog None;
                              WriteFile "imagesMetadata.json" summary None;
                              Println "JSON saved successfully as output.json"
                            ])
                end).
Proof.
  intros Hfits.
  assert (Hlisted : forall files,
            os_ReadDir w "images/" = Ok files ->
            exists (flyers : slice Flyer) (lines : list string),
              BatchProcess w sched files "images/" "path/to/Flyers" 10
              = Returns (flyers, None, lines)
              /\ main w sched
                 = match os_WriteFile w "flyers.json" (catalogDocument flyers),
                         os_WriteFile w "imagesMetadata.json"
                           (summaryDocument w "path/to/Flyers" flyers) with
                   | Some err, _ =>
                       Panics ("error writing flyer JSON file "
                                 ++ Error err)%string
                   | None, Some err =>
                       Panics ("error writing metadata JSON file "
                                 ++ Error err)%string
                   | None, None =>
                       Returns
                         (map Printf lines
                            ++ [ PrintlnDoc (catalogDocument flyers);
                                 PrintlnDoc
                                   (summaryDocument w "path/to/Flyers" flyers);
                                 WriteFile "flyers.json"
                                   (catalogDocument flyers) None;
                                 WriteFile "imagesMetadata.json"
                                   (summaryDocument w "path/to/Flyers" flyers)
                                   None;
                                 Println
                                   "JSON saved successfully as output.json" ])
                   end).
  { intros files Hdir.
    assert (Hb : (1 <= 10 <= GoInt.maxInt)%Z) by (unfold GoInt.maxInt; lia).
    destruct (BatchProcess_returns w sched files "images/" "path/to/Flyers"
                10 Hb (Hfits files Hdir)) as (fl & lines & Hret & _).
    exists fl, lines. split; [assumption|].
    unfold main. cbv zeta.
    rewrite (ReadAndForward_effects _ _ _ _ _ _ _ _ Hdir Hret). cbv zeta.
    destruct (os_WriteFile w "flyers.json" (catalogDocument fl));
      [reflexivity|].
    destruct (os_WriteFile w "imagesMetadata.json"
                (summaryDocument w "path/to/Flyers" fl)); [reflexivity|].
    now rewrite <- app_assoc. }
  split; [|split].
  - destruct (os_ReadDir w "images/") as [files|err] eqn:Hdir.
    + destruct (Hlisted files eq_refl) as (fl & lines & _ & ->).
      destruct (os_WriteFile w "flyers.json" (catalogDocument fl));
        [discriminate|].
      destruct (os_WriteFile w "imagesMetadata.json"
                  (summaryDocument w "path/to/Flyers" fl)); discriminate.
    + unfold main, ReadAndForward. cbv zeta. rewrite Hdir. discriminate.
  - intros err Hdir. unfold main, ReadAndForward. cbv zeta.
    now rewrite Hdir.
  - exact Hlisted.
Qed.

Lemma main_outcome_witness :
  main Example.world [4; 2] <> OutOfFuel
  /\ (forall err,
         os_ReadDir Example.world "images/" = Err err ->
         main Example.world [4; 2]
         = Panics ("error reading directory: " ++ Error err)%string)
  /\ (forall files,
         os_ReadDir Example.world "images/" = Ok files ->
         exists (flyers : slice Flyer) (lines : list string),
           BatchProcess Example.world [4; 2] files "images/" "path/to/Flyers"
             10
           = Returns (flyers, None, lines)
           /\ let catalog := catalogDocument flyers in
              let summary :=
                summaryDocument Example.world "path/to/Flyers" flyers in
              main Example.world [4; 2]
              = match os_WriteFile Example.world "flyers.json" catalog,
                      os_WriteFile Example.world "imagesMetadata.json" summary
                with
                | Some err, _ =>
                    Panics ("error writing flyer JSON file "
                              ++ Error err)%string
                | None, Some err =>
                    Panics ("error writing metadata JSON file "
                              ++ Error err)%string
                | None, None =>
                    Returns
                      (map Printf lines
                         ++ [ PrintlnDoc catalog;
                              PrintlnDoc summary;
                              WriteFile "flyers.json" catalog None;
                              WriteFile "imagesMetadata.json" summary None;
                              Println "JSON saved successfully as output.json"
                            ])
                end).
Proof.
  apply (main_outcome Example.world [4; 2]).
  intros files H. injection H as <-. unfold fits. simpl. lia.
Defined.

(** The [main] that writes one document puts into it what the later
    version writes into two: under the same schedule, the [Flyers] member
    of [output.json] is the [Flyers] member of [flyers.json] and its
    [metadata] member is the summary of [imagesMetadata.json], so that
    [totalFlyers] is the length of [Flyers] in the one document.  When the
    directory cannot be listed it prints one line and writes nothing. *)
Theorem main_combined_document (w : World) (sched : list nat) :
  (forall files, os_ReadDir w "images/" = Ok files -> fits files) ->
  (forall err,
      os_ReadDir w "images/" = Err err ->
      main_combined w sched
      = Returns [Println ("Error reading directory: " ++ Error err)%string])
  /\ (forall files,
         os_ReadDir w "images/" = Ok files ->
         exists (flyers : slice Flyer) (lines : list string),
           BatchProcess w sched files "images/" "path/to/Flyers" 10
           = Returns (flyers, None, lines)
           /\ let doc := combinedDocument w "path/to/Flyers" flyers in
              main_combined w sched
              = Returns
                  (map Printf lines
                     ++ [ PrintlnDoc doc;
                          WriteFile "output.json" doc
                            (os_WriteFile w "output.json" doc);
                          Println
                            match os_WriteFile w "output.json" doc with
                            | Some err =>
                                ("Error writing JSON file: "
                                   ++ Error err)%string
                            | None => "JSON saved successfully as output.json"
                            end ])
              /\ json.member "Flyers" (doc_value doc)
                 = json.member "Flyers" (doc_value (catalogDocument flyers))
              /\ json.member "metadata" (doc_value doc)
                 = Some (doc_value
                           (summaryDocument w "path/to/Flyers" flyers))
              /\ catalogCount doc = Some (len flyers)
              /\ summaryCount (summaryDocument w "path/to/Flyers" flyers)
                 = Some (len flyers)).
Proof.
  intros Hfits. split.
  - intros err Hdir. unfold main_combined. cbv zeta. now rewrite Hdir.
  - intros files Hdir.
    assert (Hb : (1 <= 10 <= GoInt.maxInt)%Z) by (unfold GoInt.maxInt; lia).
    destruct (BatchProcess_returns w sched files "images/" "path/to/Flyers"
                10 Hb (Hfits files Hdir)) as (fl & lines & Hret & _).
    exists fl, lines. split; [assumption|]. cbv zeta. split.
    + unfold main_combined. cbv zeta. rewrite Hdir, Hret.
      unfold json.MarshalIndent.
      fold (combinedDocument w "path/to/Flyers" fl).
      destruct (os_WriteFile w "output.json"
                  (combinedDocument w "path/to/Flyers" fl)) as [err|];
        rewrite <- app_assoc; reflexivity.
    + repeat match goal with |- _ /\ _ => split end; try reflexivity.
      destruct fl as [l|]; [|reflexivity].
      unfold catalogCount, len. simpl. now rewrite length_map.
Qed.

Lemma main_combined_document_witness :
  (forall err,
      os_ReadDir Example.world "images/" = Err err ->
      main_combined Example.world []
      = Returns [Println ("Error reading directory: " ++ Error err)%string])
  /\ (forall files,
         os_ReadDir Example.world "images/" = Ok files ->
         exists (flyers : slice Flyer) (lines : list string),
           BatchProcess Example.world [] files "images/" "path/to/Flyers" 10
           = Returns (flyers, None, lines)
           /\ let doc :=
                combinedDocument Example.world "path/to/Flyers" flyers in
              main_combined Example.world []
              = Returns
                  (map Printf lines
                     ++ [ PrintlnDoc doc;
                          WriteFile "output.json" doc
                            (os_WriteFile Example.world "output.json" doc);
                          Println
                            match os_WriteFile Example.world "output.json" doc
                            with
                            | Some err =>
                                ("Error writing JSON file: "
                                   ++ Error err)%string
                            | None => "JSON saved successfully as output.json"
                            end ])
              /\ json.member "Flyers" (doc_value doc)
                 = json.member "Flyers" (doc_value (catalogDocument flyers))
              /\ json.member "metadata" (doc_value doc)
                 = Some (doc_value
                           (summaryDocument Example.world "path/to/Flyers"
                              flyers))
              /\ catalogCount doc = Some (len flyers)
              /\ summaryCount
                   (summaryDocument Example.world "path/to/Flyers" flyers)
                 = Some (len flyers)).
Proof.
  apply (main_combined_document Example.world []).
  intros files H. injection H as <-. unfold fits. simpl. lia.
Defined.

(** ** The version without goroutines *)

Section Fliers.

Variable w : World.
Variable os_ReadFile : string -> result string.
Variables imageFolder folderURL : string.

Local Abbreviation readable := (readable w os_ReadFile imageFolder).

(** The loop builds, in the order of the listing, the Flyers that a
    goroutine of the later versions sends, and prints the same lines. *)
Lemma fliersLoop_sends (files : list DirEntry) :
  readable files ->
  forall (fliers : slice Flier) (printed : list string),
    map flyerOfFlier
      (elems (fst (fliersLoop w os_ReadFile imageFolder files fliers printed)))
    = map flyerOfFlier (elems fliers) ++ sends w imageFolder folderURL files
    /\ snd (fliersLoop w os_ReadFile imageFolder files fliers printed)
       = printed ++ prints w imageFolder folderURL files.
Proof.
  induction files as [|file files IH]; intros Hread fliers printed.
  - simpl. now rewrite !app_nil_r.
  - assert (Hread' : readable files).
    { intros f wd ht fe o Hin. apply Hread. now right. }
    specialize (IH Hread').
    rewrite sends_cons, prints_cons. unfold processFile.
    cbn [fliersLoop].
    destruct (IsDir file) eqn:Hdir; [apply IH|].
    destruct (getImageResolutionAndOrientation w
                (filepath_Join w imageFolder (Name file)))
      as [[[[wd ht] fe] o] [err|]] eqn:Hins.
    + destruct (IH fliers
                  (printed
                     ++ [("Error processing image " ++ Name file ++ ": "
                            ++ Error err ++ newline)%string])) as [H1 H2].
      split; [exact H1|]. rewrite H2. now rewrite <- app_assoc.
    + destruct (Hread file wd ht fe o (or_introl eq_refl) Hdir Hins)
        as (imageBytes & Hbytes).
      rewrite Hbytes.
      match goal with
      | |- context [fliersLoop _ _ _ _ (append fliers ?f) _] =>
          destruct (IH (append fliers f) printed) as [H1 H2]
      end.
      split; [|exact H2]. rewrite H1. unfold append. cbn [elems].
      rewrite map_app, <- app_assoc. reflexivity.
Qed.

(** Every Flier the loop adds holds the bytes of its file as a data URI
    whose media type is the format label in lower case. *)
Lemma fliersLoop_data (files : list DirEntry) :
  forall (fliers : slice Flier) (printed : list string) (flier : Flier),
    In flier
      (elems (fst (fliersLoop w os_ReadFile imageFolder files fliers printed)))
    ->
    In flier (elems fliers)
    \/ exists file imageBytes,
         In file files
         /\ IsDir file = false
         /\ os_ReadFile (filepath_Join w imageFolder (Name file))
            = Ok imageBytes
         /\ Design_FileFormat (Flier_Design flier)
            = extensionLabel (os_PathSeparator w)
                (filepath_Join w imageFolder (Name file))
         /\ Data_ImageBase64 (Flier_Data flier)
            = ("data:image/"
                 ++ strings_ToLower (Design_FileFormat (Flier_Design flier))
                 ++ ";base64," ++ base64.EncodeToString imageBytes)%string.
Proof.
  induction files as [|file files IH]; intros fliers printed flier Hin.
  - now left.
  - cbn [fliersLoop] in Hin.
    assert (Hlater : forall fl pr,
              In flier
                (elems (fst (fliersLoop w os_ReadFile imageFolder files fl pr)))
              ->
              In flier (elems fl)
              \/ exists file0 imageBytes,
                   In file0 (file :: files)
                   /\ IsDir file0 = false
                   /\ os_ReadFile (filepath_Join w imageFolder (Name file0))
                      = Ok imageBytes
                   /\ Design_FileFormat (Flier_Design flier)
                      = extensionLabel (os_PathSeparator w)
                          (filepath_Join w imageFolder (Name file0))
                   /\ Data_ImageBase64 (Flier_Data flier)
                      = ("data:image/"
                           ++ strings_ToLower
                                (Design_FileFormat (Flier_Design flier))
                           ++ ";base64,"
                           ++ base64.EncodeToString imageBytes)%string).
    { intros fl pr H. destruct (IH fl pr flier H)
        as [Hold|(f0 & b & Hf0 & Hrest)]; [now left|].
      right. exists f0, b. split; [now right | exact Hrest]. }
    destruct (IsDir file) eqn:Hdir; [now apply (Hlater fliers printed)|].
    destruct (getImageResolutionAndOrientation w
                (filepath_Join w imageFolder (Name file)))
      as [[[[wd ht] fe] o] [err|]] eqn:Hins.
    + now apply Hlater in Hin.
    + destruct (os_ReadFile (filepath_Join w imageFolder (Name file)))
        as [imageBytes|err] eqn:Hbytes.
      * apply Hlater in Hin. destruct Hin as [Hin|Hin]; [|now right].
        unfold append in Hin. cbn [elems] in Hin.
        apply in_app_or in Hin. destruct Hin as [Hin|[<-|[]]]; [now left|].
        right. exists file, imageBytes.
        destruct (inspector_success _ _ _ _ _ _ Hins)
          as (_ & _ & _ & _ & _ & _ & _ & Hfe & _).
        cbn [Flier_Design Flier_Data Design_FileFormat Data_ImageBase64].
        repeat split; try assumption; now left.
      * now apply Hlater in Hin.
Qed.

End Fliers.

Lemma lowerOfByte_j (c : ascii) :
  lowerOfByte c = "j"%char -> lowerByte c = false -> c = "J"%char.
Proof.
  destruct c as [[] [] [] [] [] [] [] []]; vm_compute;
    intros H1 H2; try discriminate; reflexivity.
Qed.

Lemma lowerOfByte_p (c : ascii) :
  lowerOfByte c = "p"%char -> lowerByte c = false -> c = "P"%char.
Proof.
  destruct c as [[] [] [] [] [] [] [] []]; vm_compute;
    intros H1 H2; try discriminate; reflexivity.
Qed.

Lemma lowerOfByte_g (c : ascii) :
  lowerOfByte c = "g"%char -> lowerByte c = false -> c = "G"%char.
Proof.
  destruct c as [[] [] [] [] [] [] [] []]; vm_compute;
    intros H1 H2; try discriminate; reflexivity.
Qed.

(** No label is written as the media type [image/jpg]. *)
Lemma extensionLabel_not_jpg (sep : ascii) (path : string) :
  strings_ToLower (extensionLabel sep path) <> "jpg".
Proof.
  destruct (extensionLabel_upper sep path) as [Hne Hup].
  remember (extensionLabel sep path) as l eqn:Hl. clear Hl.
  intros H. apply Hne.
  destruct l as [|a [|b [|c [|d l]]]]; try discriminate.
  simpl in H. injection H as Ha Hb Hc.
  rewrite (lowerOfByte_j a Ha), (lowerOfByte_p b Hb), (lowerOfByte_g c Hc);
    [reflexivity| | |]; apply Hup; simpl; auto.
Qed.

(** A file the inspector has opened can be read through [os.Open]. *)
Lemma readable_os_Open (w : World) (imageFolder : string)
    (files : list DirEntry) :
  readable w (os_Open w) imageFolder files.
Proof.
  intros file wd ht fe o _ _ Hins.
  destruct (inspector_success _ _ _ _ _ _ Hins) as (bytes & _ & _ & H & _).
  now exists bytes.
Qed.




(** The data of the Fliers of the example. *)
Example fliers_of_the_example :
  map (fun flier => Data_ImageBase64 (Flier_Data flier))
    (elems (fst (fliersLoop Example.world (os_Open Example.world) "images/"
                   Example.listing None [])))
  = [ "data:image/jpeg;base64,anBlZyAxMDgweDE5MjA=";
      "data:image/jpeg;base64,anBlZyAxOTIweDEwODA=";
      "data:image/jpeg;base64,cG5nIDgwMHg4MDA=" ].
Proof. reflexivity. Qed.

Lemma length_elems_append {A : Type} (s : slice A) (x : A) :
  List.length (elems (append s x)) = S (List.length (elems s)).
Proof. unfold append. cbn [elems]. rewrite length_app. simpl. lia. Qed.

Lemma fliersLoop_length (w : World) (os_ReadFile : string -> result string)
    (imageFolder : string) (files : list DirEntry) :
  forall (fliers : slice Flier) (printed : list string),
    List.length
      (elems (fst (fliersLoop w os_ReadFile imageFolder files fliers printed)))
    <= List.length (elems fliers) + List.length files.
Proof.
  induction files as [|file files IH]; intros fliers printed.
  - simpl. lia.
  - cbn [fliersLoop List.length].
    destruct (IsDir file);
      [specialize (IH fliers printed); lia|].
    destruct (getImageResolutionAndOrientation w
                (filepath_Join w imageFolder (Name file)))
      as [[[[wd ht] fe] o] [err|]].
    + match goal with
      | |- context [fliersLoop _ _ _ _ fliers ?p] =>
          specialize (IH fliers p); lia
      end.
    + destruct (os_ReadFile (filepath_Join w imageFolder (Name file))).
      * match goal with
        | |- context [fliersLoop _ _ _ _ (append fliers ?f) _] =>
            specialize (IH (append fliers f) printed)
        end.
        rewrite length_elems_append in IH. lia.
      * match goal with
        | |- context [fliersLoop _ _ _ _ fliers ?p] =>
            specialize (IH fliers p); lia
        end.
Qed.

(** In the document of the first version the metadata count the Fliers
    of the same document, which are no more than the entries of the
    listing; the document is printed, then written to [output.json], and
    the last line tells whether it was written. *)
Theorem main_fliers_document (w : World)
    (os_ReadFile : string -> result string) (files : list DirEntry) :
  os_ReadDir w "images/" = Ok files ->
  exists (fliers : slice Flier) (printed : list string),
    fliersLoop w os_ReadFile "images/" files None [] = (fliers, printed)
    /\ let doc := fliersDocument w "path/to/fliers" fliers in
       main_fliers w os_ReadFile
       = map Printf printed
           ++ [ PrintlnDoc doc;
                WriteFile "output.json" doc (os_WriteFile w "output.json" doc);
                Println
                  match os_WriteFile w "output.json" doc with
                  | Some err =>
                      ("Error writing JSON file: " ++ Error err)%string
                  | None => "JSON saved successfully as output.json"
                  end ]
       /\ fliersCount doc = Some (len fliers)
       /\ totalFliers doc = Some (len fliers)
       /\ (len fliers <= Z.of_nat (List.length files))%Z.
Proof.
  intros Hdir.
  pose proof (fliersLoop_length w os_ReadFile "images/" files None [])
    as Hlen.
  destruct (fliersLoop w os_ReadFile "images/" files None [])
    as [fliers printed] eqn:Hloop.
  exists fliers, printed. split; [reflexivity|]. cbv zeta.
  split; [|split; [|split]].
  - unfold main_fliers. cbv zeta. rewrite Hdir, Hloop.
    unfold json.MarshalIndent.
    fold (fliersDocument w "path/to/fliers" fliers).
    destruct (os_WriteFile w "output.json"
                (fliersDocument w "path/to/fliers" fliers)) as [err|];
      rewrite <- app_assoc; reflexivity.
  - destruct fliers as [l|]; [|reflexivity].
    unfold fliersCount, len. simpl. now rewrite length_map.
  - reflexivity.
  - unfold len. cbn [fst elems List.length] in Hlen. lia.
Qed.

Lemma main_fliers_document_witness :
  exists (fliers : slice Flier) (printed : list string),
    fliersLoop Example.world (os_Open Example.world) "images/"
      Example.listing None []
    = (fliers, printed)
    /\ let doc := fliersDocument Example.world "path/to/fliers" fliers in
       main_fliers Example.world (os_Open Example.world)
       = map Printf printed
           ++ [ PrintlnDoc doc;
                WriteFile "output.json" doc
                  (os_WriteFile Example.world "output.json" doc);
                Println
                  match os_WriteFile Example.world "output.json" doc with
                  | Some err =>
                      ("Error writing JSON file: " ++ Error err)%string
                  | None => "JSON saved successfully as output.json"
                  end ]
       /\ fliersCount doc = Some (len fliers)
       /\ totalFliers doc = Some (len fliers)
       /\ (len fliers <= Z.of_nat (List.length Example.listing))%Z.
Proof.
  apply (main_fliers_document Example.world (os_Open Example.world)
           Example.listing).
  reflexivity.
Defined.

(** ** Schedules and executions *)

Lemma finished_enabled (w : World) (imageFolder folderURL : string)
    (m : Machine) :
  finished m = true -> enabled w imageFolder folderURL m = [].
Proof.
  intros Hfin. destruct (finished_workers m Hfin) as [Hw Hr].
  assert (Hnone : forall a, fire w imageFolder folderURL a m = None).
  { intros [i|]; unfold fire.
    - destruct (nth_error (workers m) i) as [[|file rest]|] eqn:Hi;
        try reflexivity.
      apply nth_error_In in Hi. rewrite Forall_forall in Hw.
      specialize (Hw _ Hi). discriminate.
    - now rewrite Hr. }
  unfold enabled.
  induction (map Work (seq 0 (List.length (workers m))) ++ [Receive])
    as [|a l IH]; [reflexivity|].
  cbn [filter]. now rewrite Hnone.
Qed.

(** Every execution of the goroutines that comes to its end is the run
    under some schedule: the schedules leave no execution out. *)
Lemma run_complete (w : World) (imageFolder folderURL : string)
    (m m' : Machine) :
  steps w imageFolder folderURL m m' -> finished m' = true ->
  forall fuel, stepsLeft m <= fuel ->
  exists sched, run w imageFolder folderURL fuel sched m = Returns m'.
Proof.
  induction 1 as [m | m1 m2 m3 [a Ha] _ IH]; intros Hfin fuel Hfuel.
  - exists []. destruct fuel; cbn [run];
      now rewrite (finished_enabled _ _ _ _ Hfin), Hfin.
  - pose proof (fire_stepsLeft _ _ _ _ _ _ Ha) as Hless.
    destruct fuel as [|fuel]; [lia|].
    destruct (IH Hfin fuel ltac:(lia)) as (sched & Hrun).
    pose proof (fire_enabled _ _ _ _ _ _ Ha) as Hin.
    destruct (enabled w imageFolder folderURL m1) as [|a0 others] eqn:He;
      [destruct Hin|].
    destruct (In_nth _ _ a0 Hin) as (k & Hk & Hnth).
    exists (k :: sched). cbn [run]. rewrite He. cbn [hd tl].
    rewrite Nat.mod_small by assumption. rewrite Hnth, Ha. exact Hrun.
Qed.

(** ** What does not depend on the schedule *)



(** What [BatchProcess] returns under the schedules is what the
    executions of its goroutines can leave, no less and no more: a pair
    of Flyers and lines is returned under some schedule exactly when some
    sequence of steps of the goroutines, each taking a turn of its loop
    or the collecting loop receiving, ends with all goroutines returned,
    the channel drained, and those Flyers collected and lines printed. *)
Lemma BatchProcess_results_are_executions (w : World)
    (files : list DirEntry) (imageFolder folderURL : string) (batchSize : Z) :
  (1 <= batchSize <= GoInt.maxInt)%Z -> fits files ->
  exists batches,
    spawn files batchSize = Returns batches
    /\ forall (result : slice Flyer) (lines : list string),
         (exists sched,
             BatchProcess w sched files imageFolder folderURL batchSize
             = Returns (result, None, lines))
         <->
         (exists m,
             steps w imageFolder folderURL (spawned files batches) m
             /\ finished m = true
             /\ flyers m = result
             /\ stdout m = lines).
Proof.
  intros Hb Hfits. exists (chunks (Z.to_nat batchSize) files).
  pose proof (spawn_chunks files batchSize Hb Hfits) as Hspawn.
  split; [assumption|]. intros result lines. split.
  - intros (sched & Hret). unfold BatchProcess in Hret.
    rewrite Hspawn in Hret.
    destruct (run w imageFolder folderURL (2 * List.length files) sched
                (spawned files (chunks (Z.to_nat batchSize) files)))
      as [m|msg|] eqn:Hrun; try discriminate.
    injection Hret as <- <-.
    destruct (run_steps _ _ _ _ _ _ _ Hrun) as [Hsteps Hfin].
    now exists m.
  - intros (m & Hsteps & Hfin & <- & <-).
    assert (Hfuel : stepsLeft (spawned files (chunks (Z.to_nat batchSize) files))
                    <= 2 * List.length files).
    { unfold stepsLeft, pending, chunks. simpl.
      rewrite concat_chunksOf by lia. lia. }
    destruct (run_complete _ _ _ _ _ Hsteps Hfin _ Hfuel) as (sched & Hrun).
    exists sched. unfold BatchProcess. now rewrite Hspawn, Hrun.
Qed.

(** ** Every interleaving is an execution *)

Lemma steps_trans (w : World) (imageFolder folderURL : string)
    (m1 m2 m3 : Machine) :
  steps w imageFolder folderURL m1 m2 ->
  steps w imageFolder folderURL m2 m3 ->
  steps w imageFolder folderURL m1 m3.
Proof.
  induction 1 as [m | a b c Hab _ IH]; [trivial|].
  intros Hc. apply steps_step with b; [assumption | now apply IH].
Qed.

Lemma replaceNth_twice {A : Type} (i : nat) (x y : A) (l : list A) :
  replaceNth i y (replaceNth i x l) = replaceNth i y l.
Proof.
  revert i. induction l as [|a l IH]; intros [|i]; simpl; try reflexivity.
  now rewrite IH.
Qed.

Section Orders.

Variable w : World.
Variables imageFolder folderURL : string.

Local Abbreviation sent := (sends w imageFolder folderURL).
Local Abbreviation go := (steps w imageFolder folderURL).

(** A batch that sends a first Flyer: the entries before the file of
    that Flyer send none. *)
Lemma sends_first (batch : list DirEntry) (x : Flyer) (rest : list Flyer) :
  sent batch = x :: rest ->
  exists before file after,
    batch = before ++ file :: after
    /\ sent before = []
    /\ processFile w imageFolder folderURL file = Sent x
    /\ sent after = rest.
Proof.
  induction batch as [|file batch IH]; [discriminate|].
  rewrite sends_cons.
  destruct (processFile w imageFolder folderURL file) as [|line|f] eqn:Hv.
  - intros H. destruct (IH H) as (b & f0 & a & -> & Hb & Hf0 & Ha).
    exists (file :: b), f0, a. repeat split; try assumption.
    now rewrite sends_cons, Hv.
  - intros H. destruct (IH H) as (b & f0 & a & -> & Hb & Hf0 & Ha).
    exists (file :: b), f0, a. repeat split; try assumption.
    now rewrite sends_cons, Hv.
  - intros H. injection H as -> <-.
    exists [], file, batch. repeat split. assumption.
Qed.

(** Goroutine [i] can go on to its next send. *)
Lemma steps_to_send (before : list DirEntry) :
  forall (m : Machine) (i : nat) (file : DirEntry) (after : list DirEntry)
         (x : Flyer),
    roomy m ->
    nth_error (workers m) i = Some (before ++ file :: after) ->
    sent before = [] ->
    processFile w imageFolder folderURL file = Sent x ->
    exists m',
      go m m'
      /\ workers m' = replaceNth i after (workers m)
      /\ emitted m' = emitted m ++ [x].
Proof.
  induction before as [|entry before IH];
    intros m i file after x Hroomy Hi Hnone Hsent.
  - destruct (roomy_Work w imageFolder folderURL m i file after Hroomy Hi)
      as (m' & Hfire).
    exists m'. split; [apply steps_step with m'; [now exists (Work i)|
                                                   constructor]|].
    destruct (fire_Work _ _ _ _ _ _ Hfire)
      as (file' & rest & Hi' & Hw & _ & Hfl & Hv).
    rewrite Hi in Hi'. injection Hi' as <- <-. rewrite Hsent in Hv.
    destruct Hv as (Hr & _). split; [assumption|].
    unfold emitted. now rewrite Hfl, Hr, app_assoc.
  - cbn [app] in Hi.
    destruct (roomy_Work w imageFolder folderURL m i entry
                (before ++ file :: after) Hroomy Hi) as (m1 & Hfire).
    destruct (fire_Work _ _ _ _ _ _ Hfire)
      as (entry' & rest & Hi' & Hw & _ & Hfl & Hv).
    rewrite Hi in Hi'. injection Hi' as <- <-.
    rewrite sends_cons in Hnone.
    assert (Hsame : results m1 = results m /\ sent before = []).
    { destruct (processFile w imageFolder folderURL entry);
        [destruct Hv as (-> & _) | destruct Hv as (-> & _) | discriminate];
        now split. }
    destruct Hsame as [Hr Hnone'].
    assert (Hi1 : nth_error (workers m1) i = Some (before ++ file :: after)).
    { rewrite Hw. apply nth_error_replaceNth.
      apply nth_error_Some. congruence. }
    destruct (IH m1 i file after x
                (fire_roomy _ _ _ _ _ _ Hroomy Hfire) Hi1 Hnone' Hsent)
      as (m' & Hgo & Hw' & He').
    exists m'. split; [apply steps_step with m1; [now exists (Work i)|
                                                   assumption]|].
    split; [now rewrite Hw', Hw, replaceNth_twice|].
    rewrite He'. unfold emitted. now rewrite Hfl, Hr.
Qed.

(** Once no goroutine has a Flyer left to send, the machine can finish
    without another Flyer. *)
Lemma steps_to_the_end (n : nat) :
  forall m : Machine,
    stepsLeft m <= n -> roomy m ->
    Forall (fun batch => sent batch = []) (workers m) ->
    exists m', go m m' /\ finished m' = true /\ emitted m' = emitted m.
Proof.
  induction n as [|n IH]; intros m Hn Hroomy Hnone.
  - destruct (finished m) eqn:Hfin.
    + exists m. repeat split; [constructor | assumption].
    + destruct (roomy_progress w imageFolder folderURL m Hroomy Hfin)
        as (a & m1 & Hfire).
      apply fire_stepsLeft in Hfire. lia.
  - destruct (finished m) eqn:Hfin.
    + exists m. repeat split; [constructor | assumption].
    + destruct (roomy_progress w imageFolder folderURL m Hroomy Hfin)
        as (a & m1 & Hfire).
      pose proof (fire_stepsLeft _ _ _ _ _ _ Hfire) as Hless.
      pose proof (fire_roomy _ _ _ _ _ _ Hroomy Hfire) as Hroomy1.
      assert (H1 : Forall (fun batch => sent batch = []) (workers m1)
                   /\ emitted m1 = emitted m).
      { destruct a as [i|].
        - destruct (fire_Work _ _ _ _ _ _ Hfire)
            as (file & rest & Hi & Hw & _ & Hfl & Hv).
          assert (Hb : sent (file :: rest) = []).
          { rewrite Forall_forall in Hnone. apply Hnone.
            now apply nth_error_In with i. }
          rewrite sends_cons in Hb.
          assert (Hrest : sent rest = [] /\ results m1 = results m).
          { destruct (processFile w imageFolder folderURL file);
              [destruct Hv as (-> & _) | destruct Hv as (-> & _)
              | discriminate]; now split. }
          destruct Hrest as [Hrest Hr]. split.
          + rewrite Hw. clear - Hnone Hrest.
            revert i. induction (workers m) as [|b bs IHb]; intros i;
              [destruct i; constructor|].
            inversion Hnone as [|? ? Hb Hbs]; subst.
            destruct i as [|i]; simpl; constructor; auto.
          + unfold emitted. now rewrite Hfl, Hr.
        - destruct (fire_Receive _ _ _ _ _ Hfire)
            as (f & q & Hq & Hq' & Hfl & Hw & _).
          split; [now rewrite Hw|].
          unfold emitted. rewrite Hq, Hq', Hfl. unfold append.
          cbn [elems]. now rewrite <- app_assoc. }
      destruct H1 as [Hnone1 He1].
      destruct (IH m1 ltac:(lia) Hroomy1 Hnone1) as (m' & Hgo & Hfin' & He').
      exists m'. split; [apply steps_step with m1; [now exists a|assumption]|].
      split; [assumption | congruence].
Qed.

(** Every interleaving of what the goroutines have left to send is the
    order of some execution. *)
Lemma Interleaving_steps (ls : list (list Flyer)) (l : list Flyer) :
  Interleaving ls l ->
  forall m : Machine,
    ls = map sent (workers m) -> roomy m ->
    exists m', go m m' /\ finished m' = true /\ emitted m' = emitted m ++ l.
Proof.
  induction 1 as [ls Hall | ls i x rest l Hi _ IH]; intros m -> Hroomy.
  - rewrite app_nil_r. apply (steps_to_the_end (stepsLeft m));
      [lia | assumption|].
    rewrite Forall_map in Hall. exact Hall.
  - rewrite nth_error_map in Hi.
    destruct (nth_error (workers m) i) as [batch|] eqn:Hb; [|discriminate].
    injection Hi as Hi.
    destruct (sends_first batch x rest Hi)
      as (before & file & after & -> & Hnone & Hsent & Hafter).
    destruct (steps_to_send before m i file after x Hroomy Hb Hnone Hsent)
      as (m1 & Hgo1 & Hw1 & He1).
    destruct (IH m1) as (m' & Hgo & Hfin & He).
    + now rewrite Hw1, map_replaceNth, Hafter.
    + now apply (steps_roomy _ _ _ _ _ Hgo1).
    + exists m'. split; [now apply steps_trans with m1|].
      split; [assumption|]. rewrite He, He1, <- app_assoc. reflexivity.
Qed.

End Orders.

(** The orders in which [BatchProcess] can return the Flyers are the
    interleavings of what the goroutines send for their batches, all of
    them and no other: the Flyers of a batch keep the order of the batch,
    and nothing else is fixed. *)
Theorem BatchProcess_orders (w : World) (files : list DirEntry)
    (imageFolder folderURL : string) (batchSize : Z) :
  (1 <= batchSize <= GoInt.maxInt)%Z -> fits files ->
  exists batches,
    spawn files batchSize = Returns batches
    /\ forall order : list Flyer,
         Interleaving (map (sends w imageFolder folderURL) batches) order
         <->
         exists sched (result : slice Flyer) (lines : list string),
           BatchProcess w sched files imageFolder folderURL batchSize
           = Returns (result, None, lines)
           /\ elems result = order.
Proof.
  intros Hb Hfits. exists (chunks (Z.to_nat batchSize) files).
  pose proof (spawn_chunks files batchSize Hb Hfits) as Hspawn.
  split; [assumption|]. intros order. split.
  - intros Hint.
    set (m0 := spawned files (chunks (Z.to_nat batchSize) files)).
    assert (Hcat : List.concat (chunks (Z.to_nat batchSize) files) = files)
      by (apply concat_chunksOf; lia).
    assert (Hroomy : roomy m0).
    { unfold roomy, pending. simpl. rewrite Hcat. lia. }
    destruct (Interleaving_steps w imageFolder folderURL _ _ Hint m0
                eq_refl Hroomy) as (m' & Hgo & Hfin & He).
    assert (Hfuel : stepsLeft m0 <= 2 * List.length files).
    { unfold stepsLeft, pending. simpl. rewrite Hcat. lia. }
    destruct (run_complete _ _ _ _ _ Hgo Hfin _ Hfuel) as (sched & Hrun).
    exists sched, (flyers m'), (stdout m'). split.
    + unfold BatchProcess. unfold m0 in Hrun. now rewrite Hspawn, Hrun.
    + destruct (finished_workers _ Hfin) as [_ Hres].
      unfold emitted in He. rewrite Hres, app_nil_r in He. exact He.
  - intros (sched & result & lines & Hret & <-).
    destruct (BatchProcess_returns w sched files imageFolder folderURL
                batchSize Hb Hfits) as (fl & lines' & Hret' & Hs & _).
    rewrite Hret in Hret'. injection Hret' as -> _. exact Hs.
Qed.

Lemma BatchProcess_orders_witness :
  exists batches,
    spawn Example.listing 2 = Returns batches
    /\ forall order : list Flyer,
         Interleaving (map (sends Example.world "images/" "u") batches) order
         <->
         exists sched (result : slice Flyer) (lines : list string),
           BatchProcess Example.world sched Example.listing "images/" "u" 2
           = Returns (result, None, lines)
           /\ elems result = order.
Proof.
  apply (BatchProcess_orders Example.world Example.listing "images/" "u" 2).
  - unfold GoInt.maxInt. lia.
  - unfold fits. simpl. lia.
Defined.
